(** * Weekly dashboard: layout discovery and KPI computation

    A shallow embedding of the Go back end of the weekly performance
    dashboard: the spreadsheet layout discovery and its cache
    (services/sheets_service.go) and the KPI computation, aggregation and
    snapshot store (services/dashboard_service.go).

    Conventions of the embedding.
    - Go [float64] is Rocq's primitive binary64 [float]; [+ - * /] and the
      comparisons are the IEEE operations the Go code executes, NaN and
      infinities included, each operation rounded on its own (no fused
      multiply-add, as the compiler emits on amd64).
    - Go [int] is [Z]; where the code subtracts or negates, the 64-bit
      wrap-around is written out with [wrap64].
    - Go [string] is [string], a sequence of bytes; Go maps are stdpp
      [gmap]s.
    - [error] results are a sum type; log output is not modelled.
    - Of the library code the program is linked with, the case tables
      of [unicode] and the dates of [time] outside the years 1 to 9999
      are parameters ([Go.Platform]); the rest is written out. *)

From Stdlib Require Import ZArith String Ascii List Bool Lia.
From Stdlib Require Import Floats Sorted.
From stdpp Require Import gmap strings pretty.

Local Open Scope Z_scope.
#[local] Set Warnings "-inexact-float".

(** * Part I: the program *)

(** ** Go primitives used by the code *)

Module Go.

(** [float64] comparisons, named after the Go operators. *)
Definition fgt (x y : float) : bool := PrimFloat.ltb y x.   (* x > y  *)
Definition fge (x y : float) : bool := PrimFloat.leb y x.   (* x >= y *)
Definition flt (x y : float) : bool := PrimFloat.ltb x y.   (* x < y  *)
Definition feq (x y : float) : bool := PrimFloat.eqb x y.   (* x == y *)
Definition fne (x y : float) : bool := negb (PrimFloat.eqb x y). (* x != y *)

(** 64-bit [int]: the representable range and the wrap-around of an
    arithmetic result. *)
Definition min_int : Z := - 2 ^ 63.
Definition max_int : Z := 2 ^ 63 - 1.
Definition wrap64 (z : Z) : Z := (z + 2 ^ 63) mod 2 ^ 64 - 2 ^ 63.

(** [float64(n)] for an [int] [n]: the nearest binary64, ties to even. *)
Definition float64_of_int (n : Z) : float :=
  if n =? min_int then (-9223372036854775808)%float
  else if n <? 0 then PrimFloat.opp (PrimFloat.of_uint63 (Uint63.of_Z (- n)))
  else PrimFloat.of_uint63 (Uint63.of_Z n).

(** [math.Round]: the nearest integer, halves rounded away from zero.
    The library works on the bits of [x]: below exponent 52 it adds one
    half in the place of the last integer bit and clears the fraction
    bits; zeros, infinities, NaN and the floats of magnitude [2^52] or
    more (they have no fraction bit) are returned unchanged.  For
    [x = +- m * 2^e] with [e < 0] that is the integer
    [(m + 2^(-e-1)) / 2^(-e)], at most [2^52] and so a float, with the
    sign of [x]; a negative [x] of magnitude below one half gives [-0]. *)
Definition Round (x : float) : float :=
  match Prim2SF x with
  | S754_finite s m e =>
      if 0 <=? e then x
      else
        let n := (Z.pos m + 2 ^ (- e - 1)) / 2 ^ (- e) in
        let q := PrimFloat.of_uint63 (Uint63.of_Z n) in
        if s then PrimFloat.opp q else q
  | _ => x
  end.

(** The library code the program is linked with is not part of the
    repository.  Two answers of it that rest on tables or on the
    arithmetic of a Go release are left open, as the fields of
    [Platform]; everything else is written out. *)
Class Platform := {
  (** [strings.Map(unicode.ToLower, s)]: what [strings.ToLower] returns
      for a string with a byte outside ASCII, every letter of Unicode
      folded by the case tables of the release. *)
  unicodeToLower : string -> string;
  (** [time.Date(year, month, 0, ...).Day()] when that day lies outside
      the years 1 to 9999, the calendar written out below; the arguments
      are the normalised year and 0-based month. *)
  lastDayOutsideCalendar : Z -> Z -> Z
}.

(** [time.Date(year, month, day, ...)] normalises its arguments: a month
    outside 1..12 overflows into the year, and day 0 is the last day of
    the month before.  [isLeap] and [daysIn] are the helpers of package
    [time]. *)
Definition isLeap (year : Z) : bool :=
  (year mod 4 =? 0) && (negb (year mod 100 =? 0) || (year mod 400 =? 0)).

Definition daysIn (m year : Z) : Z :=
  if (m =? 2) && isLeap year then 29
  else if m =? 2 then 28
  else if (m =? 4) || (m =? 6) || (m =? 9) || (m =? 11) then 30
  else 31.

(** [time.Date(year, month, 0, 0, 0, 0, 0, time.UTC).Day()]: the last
    day of the month before.  [year] and [month] are [int]s, and the
    library's [int(month) - 1] and the carry into the year wrap around.
    The calendar is written out for the dates of the years 1 to 9999. *)
Definition lastDayBefore {platform : Platform} (year month : Z) : Z :=
  let m := wrap64 (month - 1) in
  let year' := wrap64 (year + m / 12) in
  let m' := m mod 12 in          (* 0-based month of the normalised date *)
  let y := if m' =? 0 then year' - 1 else year' in   (* year of that day *)
  if (1 <=? y) && (y <=? 9999) then
    if m' =? 0 then 31           (* day 0 of January: 31 December *)
    else daysIn m' year'
  else lastDayOutsideCalendar year' m'.

(** Results of fallible calls: a value or an [error] (its message). *)
Inductive result (A : Type) :=
| Ok (a : A)
| Err (msg : string).
Arguments Ok {A} a.
Arguments Err {A} msg.

(** Package [strings].  A Go string is a sequence of bytes, read as
    UTF-8 where the library looks at code points. *)

(** [strings.ToLower]: a string of ASCII bytes has its capital letters
    lowered byte by byte; any other string is mapped code point by code
    point with [unicode.ToLower]. *)
Definition lower (c : ascii) : ascii :=
  let n := nat_of_ascii c in
  if (65 <=? n)%nat && (n <=? 90)%nat then ascii_of_nat (n + 32) else c.

Fixpoint isASCII (s : string) : bool :=
  match s with
  | EmptyString => true
  | String c s' => (nat_of_ascii c <? 128)%nat && isASCII s'
  end.

Fixpoint lowerASCII (s : string) : string :=
  match s with
  | EmptyString => EmptyString
  | String c s' => String (lower c) (lowerASCII s')
  end.

Definition ToLower {platform : Platform} (s : string) : string :=
  if isASCII s then lowerASCII s else unicodeToLower s.

(** [unicode.IsSpace]: the code points with the Unicode property
    White_Space.  In ASCII they are tab, line feed, vertical tab, form
    feed, carriage return and space ([Ascii.is_space]); beyond ASCII
    U+0085 and U+00A0, encoded in two bytes, and U+1680, U+2000 to
    U+200A, U+2028, U+2029, U+202F, U+205F and U+3000, encoded in
    three. *)
Definition spaceRune2 (c1 c2 : ascii) : bool :=
  Ascii.eqb c1 "194" && (Ascii.eqb c2 "133" || Ascii.eqb c2 "160").

Definition spaceRune3 (c1 c2 c3 : ascii) : bool :=
  (Ascii.eqb c1 "225" && Ascii.eqb c2 "154" && Ascii.eqb c3 "128")
  || (Ascii.eqb c1 "226" && Ascii.eqb c2 "128"
      && existsb (Ascii.eqb c3)
           ["128"; "129"; "130"; "131"; "132"; "133"; "134"; "135"; "136";
            "137"; "138"; "168"; "169"; "175"]%char)
  || (Ascii.eqb c1 "226" && Ascii.eqb c2 "129" && Ascii.eqb c3 "159")
  || (Ascii.eqb c1 "227" && Ascii.eqb c2 "128" && Ascii.eqb c3 "128").

(** The UTF-8 encodings of the white-space code points. *)
Definition spaceRunes : list string :=
  map (fun c => String c "") ["009"; "010"; "011"; "012"; "013"; " "]%char
  ++ map (fun c => String "194" (String c "")) ["133"; "160"]%char
  ++ [String "225" (String "154" (String "128" ""))]
  ++ map (fun c => String "226" (String "128" (String c "")))
       ["128"; "129"; "130"; "131"; "132"; "133"; "134"; "135"; "136";
        "137"; "138"; "168"; "169"; "175"]%char
  ++ [String "226" (String "129" (String "159" ""));
      String "227" (String "128" (String "128" ""))].

(** [strings.TrimLeftFunc(s, unicode.IsSpace)] decodes the code point at
    the head of the string and drops it while it is white space.  The
    head decodes to a white-space code point exactly when the string
    begins with the encoding of one - one, two or three bytes, tested by
    [two] and [three] beyond ASCII - whatever follows; a byte that
    begins no valid encoding decodes to U+FFFD, which is not white
    space. *)
Fixpoint trimWith (two : ascii -> ascii -> bool)
    (three : ascii -> ascii -> ascii -> bool) (s : string) : string :=
  match s with
  | String c1 s1 =>
      if Ascii.is_space c1 then trimWith two three s1
      else
        match s1 with
        | String c2 s2 =>
            if two c1 c2 then trimWith two three s2
            else
              match s2 with
              | String c3 s3 =>
                  if three c1 c2 c3 then trimWith two three s3 else s
              | EmptyString => s
              end
        | EmptyString => s
        end
  | EmptyString => s
  end.

Definition trimLeft (s : string) : string := trimWith spaceRune2 spaceRune3 s.

(** [strings.TrimRightFunc(s, unicode.IsSpace)] decodes the last code
    point instead: the same walk over the bytes in reverse, each
    encoding read backwards. *)
Definition trimRight (s : string) : string :=
  String.rev
    (trimWith (fun c2 c1 => spaceRune2 c1 c2)
              (fun c3 c2 c1 => spaceRune3 c1 c2 c3) (String.rev s)).

(** [strings.TrimSpace]: white space trimmed on the left, then on the
    right. *)
Definition TrimSpace (s : string) : string := trimRight (trimLeft s).

Definition HasPrefix (s prefix : string) : bool := String.prefix prefix s.

Definition HasSuffix (s suffix : string) : bool :=
  String.prefix (String.rev suffix) (String.rev s).

Definition TrimPrefix (s prefix : string) : string :=
  if HasPrefix s prefix
  then String.substring (String.length prefix)
         (String.length s - String.length prefix) s
  else s.

Definition TrimSuffix (s suffix : string) : string :=
  if HasSuffix s suffix
  then String.substring 0 (String.length s - String.length suffix) s
  else s.

Definition Contains (s substr : string) : bool :=
  match String.index 0 substr s with
  | Some _ => true
  | None => false
  end.

End Go.

(** ** models: the persisted records *)

Module Models.

(** [models.Indicator] (the fields the services read). *)
Record Indicator := {
  Code : string;
  Department : string;
  Name : string;
  SpreadsheetName : string;   (* exact name in spreadsheet column C *)
  SpreadsheetRow : Z;         (* fallback row number *)
  IsInverse : bool;
  IsActive : bool
}.

(** [models.WeeklySnapshot]; [SnapshotDate] is a point on the time line. *)
Record WeeklySnapshot := {
  IndicatorID : string;
  SnapDepartment : string;
  IndicatorName : string;
  TargetValue : float;
  PerformanceValue : float;
  SnapPercentage : float;
  SnapshotDate : Z;
  Month : Z;
  WeekNumber : Z;
  Year : Z
}.

End Models.

(** ** services/sheets_service.go: layout discovery and row resolution *)

Module Sheets.
Import Go Models.

Section SheetsCode.
Context {platform : Platform}.

(** A cell of a [ValueRange] ([interface{}] in Go): the JSON values the
    Sheets API returns. *)
Inductive cell :=
| CString (s : string)
| CNumber (f : float)
| CBool (b : bool).

(** [srv.Spreadsheets.Values.Get(spreadsheetID, rangeStr).Do()]: the
    service is what it answers to a read - the rows of the range, or an
    error. *)
Definition service := string -> string -> result (list (list cell)).

(** [DiscoveredLayout]; [LastRefresh] is a point on the time line. *)
Record DiscoveredLayout := {
  MonthColumns : gmap Z (list Z);
  KPIRows : gmap string (list Z);
  LastRefresh : Z
}.

(** [nameToMonth]; Go iterates over it in an unspecified order, the
    model in this one. *)
Definition nameToMonth : list (string * Z) :=
  [("january", 1); ("february", 2); ("march", 3); ("april", 4);
   ("may", 5); ("june", 6); ("july", 7); ("august", 8);
   ("september", 9); ("october", 10); ("november", 11); ("december", 12)].

(** [m, ok := nameToMonth[key]]. *)
Definition lookupMonth (key : string) : option Z :=
  snd <$> List.find (fun '(name, _) => (name =? key)%string) nameToMonth.

(** [for name, m := range nameToMonth { if lower == name+suffix ... }]. *)
Definition rangeMonth (lower suffix : string) : option Z :=
  snd <$> List.find (fun '(name, _) => (lower =? name +:+ suffix)%string)
            nameToMonth.

Definition formatSheetName (name : string) : string :=
  if Contains name " " then "'" +:+ name +:+ "'" else name.

Definition matchMonthFromHeader (header : string) : Z * string :=
  let h := TrimSpace header in
  let lower := ToLower h in
  let percent :=
    if HasPrefix lower "% " && HasSuffix lower " performance" then
      let mid := TrimPrefix lower "% " in
      let mid := TrimSuffix mid " performance" in
      let mid := TrimSpace mid in
      lookupMonth mid
    else None in
  match percent with
  | Some m => (m, "percent")
  | None =>
    match rangeMonth lower " target" with
    | Some m => (m, "target")
    | None =>
      match rangeMonth lower " lagging" with
      | Some m => (m, "lagging")
      | None =>
        match lookupMonth lower with
        | Some m => (m, "perf")
        | None => (0, "")
        end
      end
    end
  end.

(** [entry[k] = colIdx] on a [[4]int]. *)
Definition setEntry (colType : string) (colIdx : Z) (entry : list Z)
    : list Z :=
  if (colType =? "target")%string then <[0%nat := colIdx]> entry
  else if (colType =? "lagging")%string then <[1%nat := colIdx]> entry
  else if (colType =? "percent")%string then <[2%nat := colIdx]> entry
  else if (colType =? "perf")%string then <[3%nat := colIdx]> entry
  else entry.

(** The zero value of [[4]int], read for a month not yet in the map. *)
Definition zeroEntry : list Z := [0; 0; 0; 0].

(** The body of the loop of [discoverColumns]: what the header cell in
    column [colIdx] does to the month map. *)
Definition headerCell (colIdx : Z) (c : cell) (result : gmap Z (list Z))
    : gmap Z (list Z) :=
  match c with
  | CString headerText =>
      let '(month, colType) := matchMonthFromHeader headerText in
      if month =? 0 then result
      else
        let entry := default zeroEntry (result !! month) in
        <[month := setEntry colType colIdx entry]> result
  | _ => result
  end.

(** The loop of [discoverColumns] over the header cells, from column
    [colIdx] on. *)
Fixpoint columnsLoop (colIdx : Z) (cells : list cell)
    (result : gmap Z (list Z)) : gmap Z (list Z) :=
  match cells with
  | [] => result
  | c :: cells' => columnsLoop (colIdx + 1) cells' (headerCell colIdx c result)
  end.

Definition discoverColumns (srv : service) (spreadsheetID sheetName : string)
    : result (gmap Z (list Z)) :=
  let rangeStr := formatSheetName sheetName +:+ "!1:1" in
  match srv spreadsheetID rangeStr with
  | Err err => Err ("failed to fetch header row: " +:+ err)
  | Ok values =>
      match values with
      | [] | [] :: _ => Err "header row is empty"
      | header :: _ => Ok (columnsLoop 0 header ∅)
      end
  end.

(** The loop of [discoverRows] over the rows of column C, from row index
    [rowIdx] on. *)
Fixpoint rowsLoop (rowIdx : Z) (values : list (list cell))
    (result : gmap string (list Z)) : gmap string (list Z) :=
  match values with
  | [] => result
  | row :: values' =>
      let result' :=
        match row with
        | CString cellStr :: _ =>
            if (cellStr =? "")%string then result
            else
              let key := ToLower (TrimSpace cellStr) in
              <[key := default [] (result !! key) ++ [rowIdx + 1]]> result
        | _ => result
        end in
      rowsLoop (rowIdx + 1) values' result'
  end.

Definition discoverRows (srv : service) (spreadsheetID sheetName : string)
    : result (gmap string (list Z)) :=
  let rangeStr := formatSheetName sheetName +:+ "!C:C" in
  match srv spreadsheetID rangeStr with
  | Err err => Err ("failed to fetch column C: " +:+ err)
  | Ok values =>
      match values with
      | [] => Ok ∅
      | _ => Ok (rowsLoop 0 values ∅)
      end
  end.

(** [DiscoverLayout]; [now] is [time.Now()]. *)
Definition DiscoverLayout (now : Z) (srv : service)
    (spreadsheetID sheetName : string) : result DiscoveredLayout :=
  match discoverColumns srv spreadsheetID sheetName with
  | Err err => Err ("column discovery failed: " +:+ err)
  | Ok monthCols =>
      match discoverRows srv spreadsheetID sheetName with
      | Err err => Err ("row discovery failed: " +:+ err)
      | Ok kpiRows =>
          Ok {| MonthColumns := monthCols; KPIRows := kpiRows;
                LastRefresh := now |}
      end
  end.

Definition abs (x : Z) : Z := if x <? 0 then wrap64 (- x) else x.

(** The loop of [getIndicatorRow] over [rows[1:]]. *)
Fixpoint closestLoop (spreadsheetRow : Z) (rows : list Z)
    (best bestDiff : Z) : Z :=
  match rows with
  | [] => best
  | r :: rows' =>
      let diff := abs (wrap64 (r - spreadsheetRow)) in
      if diff <? bestDiff then closestLoop spreadsheetRow rows' r diff
      else closestLoop spreadsheetRow rows' best bestDiff
  end.

Definition getIndicatorRow (layout : DiscoveredLayout)
    (indicator : Indicator) : Z * bool :=
  let fallback :=
    if SpreadsheetRow indicator >? 0 then (SpreadsheetRow indicator, true)
    else (0, false) in
  if negb (SpreadsheetName indicator =? "")%string then
    let key := ToLower (TrimSpace (SpreadsheetName indicator)) in
    match KPIRows layout !! key with
    | Some (r0 :: rest) =>
        match rest with
        | [] => (r0, true)
        | _ =>
            (closestLoop (SpreadsheetRow indicator) rest r0
               (abs (wrap64 (r0 - SpreadsheetRow indicator))), true)
        end
    | _ => fallback
    end
  else fallback.

(** [indexToCol]: 0 is A, 25 is Z, 26 is AA.  The loop runs while
    [index >= 0] and [index/26 - 1 < index] there, so [index + 1] rounds
    are never used up. *)
Fixpoint indexToColLoop (rounds : nat) (index : Z) (result : string)
    : string :=
  match rounds with
  | O => result
  | S rounds' =>
      if index >=? 0 then
        indexToColLoop rounds' (Z.quot index 26 - 1)
          (String (ascii_of_nat (65 + Z.to_nat (Z.rem index 26))) result)
      else result
  end.

Definition indexToCol (index : Z) : string :=
  indexToColLoop (S (Z.to_nat index)) index "".

(** The loop of [FetchKPIData] that builds the batch request: one range
    per active indicator whose row is found, in the order of the
    catalogue. *)
Fixpoint buildRanges (layout : DiscoveredLayout) (sheetName : string)
    (lastColLetter : string) (indicators : list Indicator)
    : list string * list Indicator :=
  match indicators with
  | [] => ([], [])
  | indicator :: indicators' =>
      let '(ranges, activeIndicators) :=
        buildRanges layout sheetName lastColLetter indicators' in
      if negb (IsActive indicator) then (ranges, activeIndicators)
      else
        let '(row, found) := getIndicatorRow layout indicator in
        if negb found then (ranges, activeIndicators)
        else
          ((formatSheetName sheetName +:+ "!A" +:+ pretty row +:+ ":"
              +:+ lastColLetter +:+ pretty row) :: ranges,
           indicator :: activeIndicators)
  end.

End SheetsCode.

End Sheets.

(** ** services/sheets_service.go: the layout cache under concurrent callers

    [GetLayout] and [InvalidateLayout] run on any number of goroutines
    that share [s.layout] and the lock [s.layoutMu].  The model is an
    interleaving of atomic steps, one per lock operation, check, external
    call and return; a goroutine is identified by a number and is at a
    program point of the method it runs.  The [sync.RWMutex] is its
    reader count and its writer flag: [RLock] waits for the writer to
    leave, [Lock] waits for the writer and all readers to leave. *)

Module LayoutCache.
Import Go Models Sheets.

Section LayoutCacheCode.
Context {platform : Platform}.

(** Program points of a goroutine. *)
Inductive point :=
| Idle                     (* outside any call *)
| Enter                    (* GetLayout called; before [RLock] *)
| ReadChecking             (* read lock held; at the first freshness check *)
| ReadReturning (l : DiscoveredLayout)
                           (* fresh: [s.layout] read; deferred [RUnlock] pending *)
| ReadStale                (* not fresh; before [RUnlock] *)
| WantLock                 (* before [Lock] *)
| WriteChecking            (* write lock held; at the second freshness check *)
| Creating                 (* [CreateSheetsClient] in flight *)
| Configuring (spreadsheetID : string)
                           (* client created; [config.AppConfig.SpreadsheetID]
                              read, [config.AppConfig.SheetName] not yet *)
| Discovering (spreadsheetID sheetName : string)
                           (* [DiscoverLayout] in flight, called with these *)
| WriteReturning (r : result DiscoveredLayout)
                           (* result fixed; deferred [Unlock] pending *)
| Done (r : result DiscoveredLayout)
                           (* GetLayout has returned [r] *)
| InvWant                  (* InvalidateLayout called; before [Lock] *)
| InvHeld                  (* write lock held; before [s.layout = nil] *)
| InvReturning.            (* layout cleared; deferred [Unlock] pending *)

Record state := {
  clock : Z;                           (* time.Now(), in nanoseconds *)
  layout : option DiscoveredLayout;    (* s.layout; [None] is nil *)
  readers : nat;                       (* holders of the read lock *)
  writer : bool;                       (* the write lock is held *)
  points : nat -> point;               (* where each goroutine is *)
  discoveries : nat;                   (* DiscoverLayout calls started *)
  SpreadsheetID : string;              (* config.AppConfig.SpreadsheetID *)
  SheetName : string                   (* config.AppConfig.SheetName *)
}.

(** [5 * time.Minute], in nanoseconds. *)
Definition freshness : Z := 5 * 60 * 1000000000.

(** [s.layout != nil && time.Since(s.layout.LastRefresh) < 5*time.Minute]. *)
Definition fresh (st : state) : bool :=
  match layout st with
  | Some l => clock st - LastRefresh l <? freshness
  | None => false
  end.

Definition move (t : nat) (p : point) (f : nat -> point) : nat -> point :=
  fun t' => if Nat.eqb t' t then p else f t'.

(** What a failed refresh returns: the cached layout if there is one,
    else the error. *)
Definition staleOr (st : state) (err : string) : result DiscoveredLayout :=
  match layout st with
  | Some l => Ok l
  | None => Err err
  end.

Definition at_point (st : state) (t : nat) (p : point) : state :=
  {| clock := clock st; layout := layout st; readers := readers st;
     writer := writer st; points := move t p (points st);
     discoveries := discoveries st;
     SpreadsheetID := SpreadsheetID st; SheetName := SheetName st |}.

(** The steps of the goroutines that call [GetLayout] and
    [InvalidateLayout], and of the settings handler, which assigns the
    two fields of [config.AppConfig] while the service runs - under no
    lock, and without invalidating the cached layout. *)
Inductive step : state -> state -> Prop :=
(* time passes *)
| step_tick st d :
    0 <= d ->
    step st {| clock := clock st + d; layout := layout st;
               readers := readers st; writer := writer st;
               points := points st; discoveries := discoveries st;
               SpreadsheetID := SpreadsheetID st; SheetName := SheetName st |}
(* a goroutine calls GetLayout, or calls it again after a return *)
| step_call st t :
    points st t = Idle \/ (exists r, points st t = Done r) ->
    step st (at_point st t Enter)
(* s.layoutMu.RLock() *)
| step_rlock st t :
    points st t = Enter -> writer st = false ->
    step st {| clock := clock st; layout := layout st;
               readers := S (readers st); writer := writer st;
               points := move t ReadChecking (points st);
               discoveries := discoveries st;
               SpreadsheetID := SpreadsheetID st; SheetName := SheetName st |}
(* first check, fresh: the return value is s.layout *)
| step_read_fresh st t l :
    points st t = ReadChecking -> fresh st = true -> layout st = Some l ->
    step st (at_point st t (ReadReturning l))
(* deferred RUnlock, then return *)
| step_read_return st t l :
    points st t = ReadReturning l ->
    step st {| clock := clock st; layout := layout st;
               readers := pred (readers st); writer := writer st;
               points := move t (Done (Ok l)) (points st);
               discoveries := discoveries st;
               SpreadsheetID := SpreadsheetID st; SheetName := SheetName st |}
(* first check, not fresh *)
| step_read_stale st t :
    points st t = ReadChecking -> fresh st = false ->
    step st (at_point st t ReadStale)
(* s.layoutMu.RUnlock() *)
| step_runlock st t :
    points st t = ReadStale ->
    step st {| clock := clock st; layout := layout st;
               readers := pred (readers st); writer := writer st;
               points := move t WantLock (points st);
               discoveries := discoveries st;
               SpreadsheetID := SpreadsheetID st; SheetName := SheetName st |}
(* s.layoutMu.Lock() *)
| step_lock st t :
    points st t = WantLock -> writer st = false -> readers st = O ->
    step st {| clock := clock st; layout := layout st;
               readers := readers st; writer := true;
               points := move t WriteChecking (points st);
               discoveries := discoveries st;
               SpreadsheetID := SpreadsheetID st; SheetName := SheetName st |}
(* second check, fresh: the return value is s.layout *)
| step_write_fresh st t l :
    points st t = WriteChecking -> fresh st = true -> layout st = Some l ->
    step st (at_point st t (WriteReturning (Ok l)))
(* second check, not fresh: go on to CreateSheetsClient *)
| step_write_stale st t :
    points st t = WriteChecking -> fresh st = false ->
    step st (at_point st t Creating)
(* CreateSheetsClient fails *)
| step_create_fail st t err :
    points st t = Creating ->
    step st (at_point st t (WriteReturning (staleOr st err)))
(* CreateSheetsClient succeeds; the first argument of the call of
   DiscoverLayout, config.AppConfig.SpreadsheetID, is evaluated *)
| step_create_ok st t :
    points st t = Creating ->
    step st (at_point st t (Configuring (SpreadsheetID st)))
(* the second argument, config.AppConfig.SheetName, is evaluated and
   DiscoverLayout is called *)
| step_discover_call st t spreadsheetID :
    points st t = Configuring spreadsheetID ->
    step st {| clock := clock st; layout := layout st;
               readers := readers st; writer := writer st;
               points :=
                 move t (Discovering spreadsheetID (SheetName st)) (points st);
               discoveries := S (discoveries st);
               SpreadsheetID := SpreadsheetID st; SheetName := SheetName st |}
(* DiscoverLayout returns an error *)
| step_discover_fail st t spreadsheetID sheetName srv err :
    points st t = Discovering spreadsheetID sheetName ->
    DiscoverLayout (clock st) srv spreadsheetID sheetName = Err err ->
    step st (at_point st t (WriteReturning (staleOr st err)))
(* DiscoverLayout returns a layout: s.layout = layout *)
| step_discover_ok st t spreadsheetID sheetName srv l :
    points st t = Discovering spreadsheetID sheetName ->
    DiscoverLayout (clock st) srv spreadsheetID sheetName = Ok l ->
    step st {| clock := clock st; layout := Some l;
               readers := readers st; writer := writer st;
               points := move t (WriteReturning (Ok l)) (points st);
               discoveries := discoveries st;
               SpreadsheetID := SpreadsheetID st; SheetName := SheetName st |}
(* deferred Unlock, then return *)
| step_write_return st t r :
    points st t = WriteReturning r ->
    step st {| clock := clock st; layout := layout st;
               readers := readers st; writer := false;
               points := move t (Done r) (points st);
               discoveries := discoveries st;
               SpreadsheetID := SpreadsheetID st; SheetName := SheetName st |}
(* a goroutine calls InvalidateLayout *)
| step_inv_call st t :
    points st t = Idle \/ (exists r, points st t = Done r) ->
    step st (at_point st t InvWant)
| step_inv_lock st t :
    points st t = InvWant -> writer st = false -> readers st = O ->
    step st {| clock := clock st; layout := layout st;
               readers := readers st; writer := true;
               points := move t InvHeld (points st);
               discoveries := discoveries st;
               SpreadsheetID := SpreadsheetID st; SheetName := SheetName st |}
| step_inv_clear st t :
    points st t = InvHeld ->
    step st {| clock := clock st; layout := None;
               readers := readers st; writer := writer st;
               points := move t InvReturning (points st);
               discoveries := discoveries st;
               SpreadsheetID := SpreadsheetID st; SheetName := SheetName st |}
| step_inv_return st t :
    points st t = InvReturning ->
    step st {| clock := clock st; layout := layout st;
               readers := readers st; writer := false;
               points := move t Idle (points st);
               discoveries := discoveries st;
               SpreadsheetID := SpreadsheetID st; SheetName := SheetName st |}
(* UpdateSpreadsheetSettings, or LoadSettingsFromDB:
   config.AppConfig.SpreadsheetID = spreadsheetID *)
| step_set_spreadsheet st spreadsheetID :
    step st {| clock := clock st; layout := layout st;
               readers := readers st; writer := writer st;
               points := points st; discoveries := discoveries st;
               SpreadsheetID := spreadsheetID; SheetName := SheetName st |}
(* config.AppConfig.SheetName = sheetName *)
| step_set_sheet st sheetName :
    step st {| clock := clock st; layout := layout st;
               readers := readers st; writer := writer st;
               points := points st; discoveries := discoveries st;
               SpreadsheetID := SpreadsheetID st; SheetName := sheetName |}.

(** A step that ends with the cache still fresh. *)
Definition fresh_step (st st' : state) : Prop :=
  step st st' /\ fresh st' = true.

(** The service as [NewSheetsService] leaves it: no layout, the lock
    free, every goroutine outside any call. *)
Definition initial (st : state) : Prop :=
  layout st = None /\ readers st = O /\ writer st = false /\
  (forall t, points st t = Idle) /\ discoveries st = O.

(** The points at which a goroutine holds the write lock. *)
Definition in_write_section (p : point) : bool :=
  match p with
  | WriteChecking | Creating | Configuring _ | Discovering _ _
  | WriteReturning _ | InvHeld | InvReturning => true
  | _ => false
  end.

(** The points of a GetLayout call that refreshes: both freshness checks
    found the cache stale. *)
Definition refreshing (p : point) : bool :=
  match p with
  | Creating | Configuring _ | Discovering _ _ => true
  | _ => false
  end.

(** The points of a GetLayout call whose result is fixed. *)
Definition decided (p : point) : bool :=
  match p with
  | ReadReturning _ | WriteReturning _ | Done _ => true
  | _ => false
  end.

(** No goroutine is refreshing. *)
Definition quiet (st : state) : Prop :=
  forall t, refreshing (points st t) = false.

(** The write lock is held whenever a goroutine is in the write section,
    and only one goroutine is; and a goroutine only refreshes a stale
    cache. *)
Definition exclusive (st : state) : Prop :=
  (forall t, in_write_section (points st t) = true -> writer st = true) /\
  (forall t1 t2,
      in_write_section (points st t1) = true ->
      in_write_section (points st t2) = true -> t1 = t2) /\
  (forall t, refreshing (points st t) = true -> fresh st = false).

(** The write lock is held by a goroutine inside the write section, and
    once [InvalidateLayout] has cleared the cache it stays empty until
    the lock is released. *)
Definition held (st : state) : Prop :=
  (writer st = true -> exists t, in_write_section (points st t) = true) /\
  (forall t, points st t = InvReturning -> layout st = None).

(** Inside the freshness window of the cached layout [l], with [n]
    discovery calls made so far: nobody is refreshing, and each of the
    goroutines [watched] that has fixed a result has fixed it to [l]. *)
Definition window (l : DiscoveredLayout) (n : nat) (watched : nat -> Prop)
    (st : state) : Prop :=
  layout st = Some l /\ discoveries st = n /\ fresh st = true /\
  quiet st /\
  forall t, watched t ->
    match points st t with
    | ReadReturning l' => l' = l
    | WriteReturning r | Done r => r = Ok l
    | _ => True
    end.

End LayoutCacheCode.

End LayoutCache.

(** ** database: the weekly_snapshots table behind gorm

    The table is the list of rows a query can see, oldest insert first
    (gorm's own columns - the numeric id and the created/updated/deleted
    stamps of [gorm.Model] - are left out; a deleted row is one that no
    query returns any more).  Every statement may fail: [faults] lists,
    statement by statement, whether the next ones do ([Some msg]: the
    statement returns the error [msg] and changes nothing); beyond the end
    of the list statements succeed. *)

Module Database.
Import Go Models.

Record store := {
  weekly_snapshots : list WeeklySnapshot;
  faults : list (option string)
}.

(** The outcome of the next statement, and the store that remembers it
    was issued. *)
Definition next_fault (db : store) : option string * store :=
  match faults db with
  | [] => (None, db)
  | f :: fs => (f, {| weekly_snapshots := weekly_snapshots db; faults := fs |})
  end.

(** [DB.Where(cond).Delete(&WeeklySnapshot{})]: rows affected, or an error. *)
Definition Delete (cond : WeeklySnapshot -> bool) (db : store)
    : result Z * store :=
  match next_fault db with
  | (Some msg, db) => (Err msg, db)
  | (None, db) =>
    (Ok (Z.of_nat (length (List.filter cond (weekly_snapshots db)))),
     {| weekly_snapshots :=
         List.filter (fun r => negb (cond r)) (weekly_snapshots db);
        faults := faults db |})
  end.

(** [DB.Create(&snapshot)]. *)
Definition Create (row : WeeklySnapshot) (db : store) : result unit * store :=
  match next_fault db with
  | (Some msg, db) => (Err msg, db)
  | (None, db) =>
      (Ok tt, {| weekly_snapshots := weekly_snapshots db ++ [row];
                 faults := faults db |})
  end.

(** [Order("snapshot_date desc")]: a stable insertion sort, newest first. *)
Fixpoint insert_desc (r : WeeklySnapshot) (l : list WeeklySnapshot)
    : list WeeklySnapshot :=
  match l with
  | [] => [r]
  | x :: l' =>
      if SnapshotDate r <=? SnapshotDate x then x :: insert_desc r l'
      else r :: l
  end.

Definition order_snapshot_date_desc (l : list WeeklySnapshot)
    : list WeeklySnapshot :=
  fold_right insert_desc [] l.

(** [DB.Where(cond).Order("snapshot_date desc").Find(&records)]; on an
    error [records] stays empty. *)
Definition FindOrdered (cond : WeeklySnapshot -> bool) (db : store)
    : list WeeklySnapshot * store :=
  match next_fault db with
  | (Some _, db) => ([], db)
  | (None, db) =>
      (order_snapshot_date_desc (List.filter cond (weekly_snapshots db)), db)
  end.

End Database.

(** ** services/dashboard_service.go: the KPI computation *)

Module Dashboard.
Import Go Models Database.

Section DashboardCode.
Context {platform : Platform}.

(** [KPIData]: one raw reading, as the sheets service hands it over.
    The fields of the structs of this file carry the initial of their
    struct ([kTarget], [rTarget]): Rocq has one name space for the fields
    of a module. *)
Record KPIData := {
  kIndicatorCode : string;
  kDepartment : string;
  kName : string;
  kTarget : float;
  kPerformance : float;
  kPercentage : float;
  kIsInverse : bool
}.

Record IndicatorResponse := {
  rCode : string;
  rDepartment : string;
  rName : string;
  rTarget : float;
  rPerformance : float;
  rPercentage : float;
  rStatus : string;
  rIsInverse : bool;
  rWowChange : float;
  rWowDirection : string;
  rExpectedProgress : float;
  rVariance : float;
  rScheduleStatus : string
}.

Record OverallPerformance := {
  oPercentage : float;
  oStatus : string;
  oGreenCount : Z;
  oYellowCount : Z;
  oRedCount : Z
}.

Definition calculateStatus (percentage : float) (isInverse : bool) : string :=
  if isInverse then
    if fge percentage 100 then "red"
    else if fge percentage 85 then "yellow"
    else if fge percentage 55 then "green"
    else "supergreen"
  else
    if fgt percentage 100 then "supergreen"
    else if fgt percentage 85 then "green"
    else if fgt percentage 55 then "yellow"
    else "red".

(** The percentage computed at the head of the loop of
    [GetDashboardData]: performance over target, capped at 999. *)
Definition calculatedPercentage (kpiData : KPIData) : float :=
  let p :=
    if fne (kTarget kpiData) 0
    then (kPerformance kpiData / kTarget kpiData * 100)%float
    else 0%float in
  if fgt p 999 then 999%float else p.

Definition calculateWoWChange (indicatorCode : string)
    (currentPercentage : float) (prevSnapshots : gmap string float)
    : float * string :=
  match prevSnapshots !! indicatorCode with
  | None => (0%float, "neutral")
  | Some prevPercentage =>
      if feq prevPercentage 0 then (0%float, "neutral")
      else
        let change := (currentPercentage - prevPercentage)%float in
        let direction :=
          if fgt change 0.5 then "up"
          else if flt change (-0.5) then "down"
          else "neutral" in
        (change, direction)
  end.

Definition daysInMonth (month year : Z) : Z :=
  lastDayBefore year (wrap64 (month + 1)).

(** [calculateVariance]; [currentDay] is [time.Now().Day()]. *)
Definition calculateVariance (currentDay : Z)
    (target actual : float) (isInverse : bool) (month year : Z)
    : float * float * string :=
  if feq target 0 then (0%float, 0%float, "on_schedule")
  else
    let totalDays := daysInMonth month year in
    let progressRatio :=
      (float64_of_int currentDay / float64_of_int totalDays)%float in
    let expectedProgress := (target * progressRatio)%float in
    if feq expectedProgress 0 then (expectedProgress, 0%float, "on_schedule")
    else
      let variance :=
        if isInverse
        then ((expectedProgress - actual) / expectedProgress * 100)%float
        else ((actual - expectedProgress) / expectedProgress * 100)%float in
      let variance := (Round (variance * 10) / 10)%float in
      let expectedProgress := (Round (expectedProgress * 100) / 100)%float in
      let scheduleStatus :=
        if fgt variance 5 then "ahead"
        else if flt variance (-5) then "behind"
        else "on_schedule" in
      (expectedProgress, variance, scheduleStatus).

(** [getPreviousWeekSnapshots]: the percentage of the newest snapshot of
    each indicator in the month.  [seen] is the Go map of the same name
    (a missing key reads [false]). *)
Definition sameMonthYear (month year : Z) (r : WeeklySnapshot) : bool :=
  (Month r =? month) && (Year r =? year).

Definition mostRecentLoop (records : list WeeklySnapshot)
    : gmap string float * gmap string bool :=
  fold_left
    (fun '(snapshots, seen) record =>
       if negb (default false (seen !! IndicatorID record))
       then (<[IndicatorID record := SnapPercentage record]> snapshots,
             <[IndicatorID record := true]> seen)
       else (snapshots, seen))
    records (∅, ∅).

Definition getPreviousWeekSnapshots (month year : Z) (db : store)
    : gmap string float * store :=
  let '(records, db) := FindOrdered (sameMonthYear month year) db in
  (fst (mostRecentLoop records), db).

(** The loop of [GetDashboardData] over the readings: the responses in
    order and the three status counters. *)
Record tally := {
  indicatorResponses : list IndicatorResponse;
  greenCount : Z;
  yellowCount : Z;
  redCount : Z
}.

Definition loopBody (currentDay month year : Z)
    (prevSnapshots : gmap string float) (acc : tally) (kpiData : KPIData)
    : tally :=
  let calculatedPercentage := calculatedPercentage kpiData in
  let status := calculateStatus calculatedPercentage (kIsInverse kpiData) in
  let '(green, yellow, red) :=
    if (status =? "green")%string || (status =? "supergreen")%string
    then (greenCount acc + 1, yellowCount acc, redCount acc)
    else if (status =? "yellow")%string
    then (greenCount acc, yellowCount acc + 1, redCount acc)
    else if (status =? "red")%string
    then (greenCount acc, yellowCount acc, redCount acc + 1)
    else (greenCount acc, yellowCount acc, redCount acc) in
  let '(wowChange, wowDirection) :=
    calculateWoWChange (kIndicatorCode kpiData) calculatedPercentage
      prevSnapshots in
  let '(expectedProgress, variance, scheduleStatus) :=
    calculateVariance currentDay (kTarget kpiData) (kPerformance kpiData)
      (kIsInverse kpiData) month year in
  {| indicatorResponses :=
       indicatorResponses acc ++
       [{| rCode := kIndicatorCode kpiData;
           rDepartment := kDepartment kpiData;
           rName := kName kpiData;
           rTarget := kTarget kpiData;
           rPerformance := kPerformance kpiData;
           rPercentage := calculatedPercentage;
           rStatus := status;
           rIsInverse := kIsInverse kpiData;
           rWowChange := wowChange;
           rWowDirection := wowDirection;
           rExpectedProgress := expectedProgress;
           rVariance := variance;
           rScheduleStatus := scheduleStatus |}];
     greenCount := green;
     yellowCount := yellow;
     redCount := red |}.

(** The overall performance computed after the loop. *)
Definition overallPerformance (acc : tally) : OverallPerformance :=
  let totalIndicators := greenCount acc + yellowCount acc + redCount acc in
  let overallPercentage :=
    if totalIndicators >? 0
    then (float64_of_int (greenCount acc) / float64_of_int totalIndicators
          * 100)%float
    else 0%float in
  let overallStatus :=
    if fgt overallPercentage 85 then "green"
    else if fgt overallPercentage 55 then "yellow"
    else "red" in
  {| oPercentage := overallPercentage;
     oStatus := overallStatus;
     oGreenCount := greenCount acc;
     oYellowCount := yellowCount acc;
     oRedCount := redCount acc |}.

(** [GetDashboardData], from the readings on: the sheet fetch that
    produces [kpiDataList] and the stored snapshots behind
    [prevSnapshots] are its two inputs; the weekly trend and the schedule
    summary of the response are not part of this development. *)
Definition GetDashboardData (currentDay : Z) (kpiDataList : list KPIData)
    (prevSnapshots : gmap string float) (month year : Z)
    : OverallPerformance * list IndicatorResponse :=
  let acc :=
    fold_left (loopBody currentDay month year prevSnapshots) kpiDataList
      {| indicatorResponses := []; greenCount := 0; yellowCount := 0;
         redCount := 0 |} in
  (overallPerformance acc, indicatorResponses acc).

(** [SaveSnapshot]; [snapshotDate] is [time.Now()].  A failed delete is
    only logged; the first failed create is returned. *)
Definition snapshotOf (snapshotDate month year weekNumber : Z)
    (indicator : IndicatorResponse) : WeeklySnapshot :=
  {| IndicatorID := rCode indicator;
     SnapDepartment := rDepartment indicator;
     IndicatorName := rName indicator;
     TargetValue := rTarget indicator;
     PerformanceValue := rPerformance indicator;
     SnapPercentage := rPercentage indicator;
     SnapshotDate := snapshotDate;
     Month := month;
     WeekNumber := weekNumber;
     Year := year |}.

Definition sameWeek (month year weekNumber : Z) (r : WeeklySnapshot) : bool :=
  (Month r =? month) && (Year r =? year) && (WeekNumber r =? weekNumber).

Fixpoint createAll (rows : list WeeklySnapshot) (db : store)
    : result unit * store :=
  match rows with
  | [] => (Ok tt, db)
  | row :: rows' =>
      match Create row db with
      | (Err msg, db') => (Err msg, db')
      | (Ok _, db') => createAll rows' db'
      end
  end.

Definition SaveSnapshot (snapshotDate : Z)
    (indicators : list IndicatorResponse) (month year weekNumber : Z)
    (db : store) : result unit * store :=
  let '(_, db) := Delete (sameWeek month year weekNumber) db in
  createAll (map (snapshotOf snapshotDate month year weekNumber) indicators) db.

End DashboardCode.

End Dashboard.

(** ** The threshold tables of the specification

    The two tables are written down as the specification gives them and
    read top to bottom; the first row whose threshold the percentage
    exceeds ([strict]: [>], otherwise [>=]) names the status. *)

Module Spec.
Import Go.

Section SpecCode.
Context {platform : Platform}.

Definition normalTable : list (float * string) :=
  [(100%float, "supergreen"); (85%float, "green"); (55%float, "yellow")].

Definition inverseTable : list (float * string) :=
  [(100%float, "red"); (85%float, "yellow"); (55%float, "green")].

Fixpoint firstRow (strict : bool) (table : list (float * string))
    (otherwise : string) (percentage : float) : string :=
  match table with
  | [] => otherwise
  | (threshold, status) :: table' =>
      if (if strict then fgt percentage threshold
          else fge percentage threshold)
      then status
      else firstRow strict table' otherwise percentage
  end.

Definition statusByTable (percentage : float) (isInverse : bool) : string :=
  if isInverse then firstRow false inverseTable "supergreen" percentage
  else firstRow true normalTable "red" percentage.

(** The status of a reading, and the statuses that count as green in
    the aggregate. *)
Definition statusOf (kpiData : Dashboard.KPIData) : string :=
  Dashboard.calculateStatus (Dashboard.calculatedPercentage kpiData)
    (Dashboard.kIsInverse kpiData).

Definition countsAsGreen (status : string) : bool :=
  (status =? "green")%string || (status =? "supergreen")%string.

(** A list of snapshots with no older one before a newer one. *)
Fixpoint newestFirst (l : list Models.WeeklySnapshot) : Prop :=
  match l with
  | [] => True
  | x :: l' =>
      (forall y, In y l' -> Models.SnapshotDate y <= Models.SnapshotDate x)
      /\ newestFirst l'
  end.

(** The stored snapshots of one indicator in one month. *)
Definition snapshotsOf (code : string) (month year : Z)
    (db : Database.store) : list Models.WeeklySnapshot :=
  List.filter
    (fun r => Dashboard.sameMonthYear month year r
              && (Models.IndicatorID r =? code)%string)
    (Database.weekly_snapshots db).

(** The position of a column type in a month's entry. *)
Definition slot (colType : string) : option nat :=
  if (colType =? "target")%string then Some 0%nat
  else if (colType =? "lagging")%string then Some 1%nat
  else if (colType =? "percent")%string then Some 2%nat
  else if (colType =? "perf")%string then Some 3%nat
  else None.

(** The header cell at position [colIdx] is a text that matches the
    pattern of [colType] for [month]. *)
Definition headerHit (cells : list Sheets.cell) (month : Z)
    (colType : string) (colIdx : nat) : Prop :=
  exists headerText,
    cells !! colIdx = Some (Sheets.CString headerText) /\
    Sheets.matchMonthFromHeader headerText = (month, colType) /\
    month <> 0.

(** The next [n] statements on the store succeed. *)
Definition succeeds (n : nat) (db : Database.store) : Prop :=
  Forall (fun fault => fault = None) (firstn n (Database.faults db)).

(** [k] is the integer nearest to the quotient [m / d] of two positive
    integers, a half counting upwards. *)
Definition nearest (m d k : Z) : Prop :=
  0 <= k /\ (2 * k - 1) * d <= 2 * m < (2 * k + 1) * d.

(** [r] is [x] rounded to the nearest integer, halves away from zero: a
    float [+- m * 2^e] with fraction bits ([e < 0]) rounds to
    [float64(k)], [k] the integer nearest to [m / 2^(-e)], with the sign
    of [x]; a float without fraction bits, a zero, an infinity and NaN
    are their own rounding. *)
Definition roundedHalfAway (x r : float) : Prop :=
  match Prim2SF x with
  | S754_finite s m e =>
      if 0 <=? e then r = x
      else
        exists k,
          nearest (Z.pos m) (2 ^ (- e)) k /\
          r = if s then PrimFloat.opp (float64_of_int k)
              else float64_of_int k
  | _ => r = x
  end.

End SpecCode.

End Spec.

(** ** Sample data

    A small sheet, catalogue and store on which the properties below are
    instantiated. *)

Module Samples.
Import Go Models Sheets Database Dashboard LayoutCache.

(** The sample data is ASCII text dated 2025: no property at the sample
    data consults the library answers of [Platform], and any platform
    does for it. *)
#[export] Instance samplePlatform : Platform := {
  unicodeToLower := fun s => s;
  lastDayOutsideCalendar := fun _ _ => 0
}.

(** A reading 5 below zero against a target of 10. *)
Definition overdrawn : KPIData :=
  {| kIndicatorCode := "KPI-04"; kDepartment := "OPERATIONS";
     kName := "COGS & OPEX"; kTarget := 10; kPerformance := -5;
     kPercentage := 0; kIsInverse := false |}.

(** A sheet whose first row is empty. *)
Definition blankSheet : service := fun _ _ => Ok [[]].

(** A sheet with a header row for January and two label rows. *)
Definition januarySheet : service :=
  fun _ rangeStr =>
    if (rangeStr =? "KPI!1:1")%string
    then Ok [[CString "Leading Indicators"; CString "January Target";
              CString "January"]]
    else Ok [[CString "Revenue Group"]; [CString "Customer Satisfaction"]].


Definition satisfaction : Indicator :=
  {| Code := "KPI-09"; Department := "DELIVERY";
     Name := "Customer Satisfaction";
     SpreadsheetName := "Customer Satisfaction"; SpreadsheetRow := 36;
     IsInverse := false; IsActive := true |}.

Definition response (code : string) (percentage : float)
    : IndicatorResponse :=
  {| rCode := code; rDepartment := "FINANCE"; rName := code;
     rTarget := 100; rPerformance := percentage;
     rPercentage := percentage; rStatus := "green"; rIsInverse := false;
     rWowChange := 0; rWowDirection := "neutral"; rExpectedProgress := 0;
     rVariance := 0; rScheduleStatus := "on_schedule" |}.

Definition emptyStore : store := {| weekly_snapshots := []; faults := [] |}.

(** January 2025 with week 1 saved at time 10 and week 2 at time 20. *)
Definition twoWeeks : store :=
  snd (SaveSnapshot 20 [response "KPI-01" 92] 1 2025 2
         (snd (SaveSnapshot 10 [response "KPI-01" 88; response "KPI-05" 70]
                 1 2025 1 emptyStore))).

(** A run of one goroutine from the creation of the service up to its
    discovery call; the sheet "KPI" of the spreadsheet "sheet-id" is
    configured. *)
Definition created : state :=
  {| clock := 0; layout := None; readers := 0; writer := false;
     points := fun _ => Idle; discoveries := 0;
     SpreadsheetID := "sheet-id"; SheetName := "KPI" |}.

Definition entered : state := at_point created 0 Enter.

Definition readLocked : state :=
  {| clock := 0; layout := None; readers := 1; writer := false;
     points := move 0 ReadChecking (points entered); discoveries := 0;
     SpreadsheetID := "sheet-id"; SheetName := "KPI" |}.

Definition foundStale : state := at_point readLocked 0 ReadStale.

Definition readUnlocked : state :=
  {| clock := 0; layout := None; readers := 0; writer := false;
     points := move 0 WantLock (points foundStale); discoveries := 0;
     SpreadsheetID := "sheet-id"; SheetName := "KPI" |}.

Definition writeLocked : state :=
  {| clock := 0; layout := None; readers := 0; writer := true;
     points := move 0 WriteChecking (points readUnlocked);
     discoveries := 0;
     SpreadsheetID := "sheet-id"; SheetName := "KPI" |}.

Definition stillStale : state := at_point writeLocked 0 Creating.

Definition configuring : state :=
  at_point stillStale 0 (Configuring "sheet-id").

Definition discovering : state :=
  {| clock := 0; layout := None; readers := 0; writer := true;
     points := move 0 (Discovering "sheet-id" "KPI") (points configuring);
     discoveries := 1;
     SpreadsheetID := "sheet-id"; SheetName := "KPI" |}.

End Samples.

(** ** services/sheets_service.go: reading the metric rows *)

Module SheetsRead.
Import Go Models Sheets Dashboard.

Section SheetsReadCode.
Context {platform : Platform}.

(** The value of a byte of a string. *)
Definition byteOf (c : ascii) : Z := Z.of_nat (nat_of_ascii c).

(** The loop of [colToIndex]; [col[i]-'A'+1] is computed on bytes. *)
Fixpoint colToIndexLoop (col : string) (result : Z) : Z :=
  match col with
  | EmptyString => result
  | String c col' =>
      colToIndexLoop col'
        (wrap64 (wrap64 (result * 26) + (byteOf c - 65 + 1) mod 256))
  end.

Definition colToIndex (col : string) : Z :=
  wrap64 (colToIndexLoop col 0 - 1).

(** [strings.ReplaceAll(s, old, "")] for a one-byte [old]. *)
Fixpoint removeByte (old : ascii) (s : string) : string :=
  match s with
  | EmptyString => EmptyString
  | String c s' =>
      if Ascii.eqb c old then removeByte old s'
      else String c (removeByte old s')
  end.

Section Parsing.
(** [strconv.ParseFloat(s, 64)]: the float, or nothing on a syntax or
    range error. *)
Variable ParseFloat : string -> option float.

(** [parseFloat]; [None] is the nil interface.  A cell decoded from JSON
    is a string, a float64 or a bool, so the [int] and [int64] cases of
    the type switch have no cell of their own. *)
Definition parseFloat (val : option cell) : float :=
  match val with
  | None => 0%float
  | Some (CNumber v) => v
  | Some (CString v) =>
      let s := removeByte "%" v in
      let s := removeByte "," s in
      let s := TrimSpace s in
      if (s =? "")%string || (s =? "-")%string then 0%float
      else
        match ParseFloat s with
        | Some f => f
        | None => 0%float
        end
  | Some (CBool _) => 0%float
  end.

(** [parseNumericValue]. *)
Definition parseNumericValue (values : list (list cell)) : float :=
  match values with
  | (c :: _) :: _ => parseFloat (Some c)
  | _ => 0%float
  end.

(** [row[i]]: outside the row the program panics ([None]). *)
Definition at_index (row : list cell) (i : Z) : option cell :=
  if i <? 0 then None else row !! Z.to_nat i.

(** One field of [parseKPIRow]: [if rowLen > idx { field = parseFloat(row[idx]) }];
    [None] is the panic of an index out of range. *)
Definition readField (row : list cell) (idx : Z) : option float :=
  if Z.of_nat (length row) >? idx then
    match at_index row idx with
    | Some c => Some (parseFloat (Some c))
    | None => None
    end
  else Some 0%float.

(** The reading of an indicator before any cell is parsed. *)
Definition zeroReading (indicator : Indicator) : KPIData :=
  {| kIndicatorCode := Code indicator;
     kDepartment := Department indicator;
     kName := Name indicator;
     kTarget := 0; kPerformance := 0; kPercentage := 0;
     kIsInverse := IsInverse indicator |}.

(** [parseKPIRow]; [None] is a panic. *)
Definition parseKPIRow (values : list (list cell)) (indicator : Indicator)
    (targetIdx percentIdx perfIdx : Z) : option KPIData :=
  match values with
  | [] | [] :: _ => Some (zeroReading indicator)
  | row :: _ =>
      match readField row targetIdx, readField row percentIdx,
            readField row perfIdx with
      | Some target, Some percentage, Some performance =>
          Some {| kIndicatorCode := Code indicator;
                  kDepartment := Department indicator;
                  kName := Name indicator;
                  kTarget := target; kPerformance := performance;
                  kPercentage := percentage;
                  kIsInverse := IsInverse indicator |}
      | _, _, _ => None
      end
  end.

(** [srv.Spreadsheets.Values.BatchGet(spreadsheetID).Ranges(ranges...).Do()]:
    the value ranges of the answer, or an error. *)
Definition batchService :=
  string -> list string -> result (list (list (list cell))).

(** The loop of [FetchKPIData] over the value ranges of the answer; it
    stops at the first range without an indicator. *)
Fixpoint parseBatch (valueRanges : list (list (list cell)))
    (activeIndicators : list Indicator) (targetIdx percentIdx perfIdx : Z)
    : option (list KPIData) :=
  match valueRanges, activeIndicators with
  | values :: valueRanges', indicator :: activeIndicators' =>
      match parseKPIRow values indicator targetIdx percentIdx perfIdx with
      | None => None
      | Some kpiData =>
          match parseBatch valueRanges' activeIndicators'
                  targetIdx percentIdx perfIdx with
          | None => None
          | Some kpiDataList => Some (kpiData :: kpiDataList)
          end
      end
  | _, _ => Some []
  end.

(** The last column to fetch: the furthest of the three read. *)
Definition maxColumn (targetIdx percentIdx perfIdx : Z) : Z :=
  let maxCol := targetIdx in
  let maxCol := if percentIdx >? maxCol then percentIdx else maxCol in
  if perfIdx >? maxCol then perfIdx else maxCol.

(** [FetchKPIData].  [getLayout] is what [s.GetLayout] returns and
    [createClient] what [s.CreateSheetsClient] returns; [None] is a
    panic.  An entry of [MonthColumns] is a [[4]int]: a position the list
    does not have reads 0. *)
Definition FetchKPIData (getLayout : result DiscoveredLayout)
    (createClient : result batchService) (spreadsheetID sheetName : string)
    (indicators : list Indicator) (month : Z)
    : option (result (list KPIData)) :=
  match getLayout with
  | Err err => Some (Err ("failed to get layout: " +:+ err))
  | Ok layout =>
      match MonthColumns layout !! month with
      | None =>
          Some (Err ("month " +:+ pretty month
                     +:+ " not found in discovered layout"))
      | Some monthCols =>
          let targetIdx := default 0 (monthCols !! 0%nat) in
          let percentIdx := default 0 (monthCols !! 2%nat) in
          let perfIdx := default 0 (monthCols !! 3%nat) in
          let lastColLetter :=
            indexToCol (maxColumn targetIdx percentIdx perfIdx) in
          match createClient with
          | Err err => Some (Err err)
          | Ok srv =>
              let '(ranges, activeIndicators) :=
                buildRanges layout sheetName lastColLetter indicators in
              match ranges with
              | [] => Some (Ok [])
              | _ =>
                  match srv spreadsheetID ranges with
                  | Err _ => Some (Ok (map zeroReading activeIndicators))
                  | Ok valueRanges =>
                      match parseBatch valueRanges activeIndicators
                              targetIdx percentIdx perfIdx with
                      | None => None
                      | Some kpiDataList => Some (Ok kpiDataList)
                      end
                  end
              end
          end
      end
  end.

(** [FetchSingleKPIData]; [createClient] answers with the service of
    [srv.Spreadsheets.Values.Get].  [None] is a panic. *)
Definition FetchSingleKPIData (getLayout : result DiscoveredLayout)
    (createClient : result service) (spreadsheetID sheetName : string)
    (indicator : Indicator) (month : Z) : option (result KPIData) :=
  match getLayout with
  | Err err => Some (Err ("failed to get layout: " +:+ err))
  | Ok layout =>
      match MonthColumns layout !! month with
      | None =>
          Some (Err ("month " +:+ pretty month
                     +:+ " not found in discovered layout"))
      | Some monthCols =>
          let targetIdx := default 0 (monthCols !! 0%nat) in
          let percentIdx := default 0 (monthCols !! 2%nat) in
          let perfIdx := default 0 (monthCols !! 3%nat) in
          let lastColLetter :=
            indexToCol (maxColumn targetIdx percentIdx perfIdx) in
          let '(row, found) := getIndicatorRow layout indicator in
          if negb found then
            Some (Err ("could not determine row for KPI "
                       +:+ Code indicator))
          else
            match createClient with
            | Err err => Some (Err err)
            | Ok srv =>
                let rangeStr :=
                  formatSheetName sheetName +:+ "!A" +:+ pretty row +:+ ":"
                  +:+ lastColLetter +:+ pretty row in
                match srv spreadsheetID rangeStr with
                | Err err => Some (Err ("failed to fetch data: " +:+ err))
                | Ok values =>
                    match parseKPIRow values indicator
                            targetIdx percentIdx perfIdx with
                    | None => None
                    | Some data => Some (Ok data)
                    end
                end
            end
      end
  end.

End Parsing.

End SheetsReadCode.

End SheetsRead.

(** ** services/dashboard_service.go: the rest of the service *)

Module DashboardMore.
Import Go Models Database Dashboard.

Section DashboardMoreCode.
Context {platform : Platform}.

(** [getMonthName]. *)
Definition getMonthName (month : Z) : string :=
  let months :=
    [""; "January"; "February"; "March"; "April"; "May"; "June";
     "July"; "August"; "September"; "October"; "November"; "December"] in
  if (month >=? 1) && (month <=? 12)
  then default "" (months !! Z.to_nat month)
  else "".

(** The readings [GetDashboardData] works on: the sheet is read only for
    the configured year, and a failed fetch is logged and leaves the list
    empty.  [fetch] is what [s.sheetsService.FetchKPIData] returns. *)
Definition readingsFor (spreadsheetYear year : Z)
    (fetch : result (list KPIData)) : list KPIData :=
  if year =? spreadsheetYear then
    match fetch with
    | Ok kpiDataList => kpiDataList
    | Err _ => []
    end
  else [].

(** The schedule summary of [GetDashboardData]: the loop over the
    responses after the aggregate. *)
Record ScheduleSummary := {
  sAheadCount : Z;
  sOnScheduleCount : Z;
  sBehindCount : Z
}.

Definition scheduleLoop (acc : ScheduleSummary) (ind : IndicatorResponse)
    : ScheduleSummary :=
  if (rScheduleStatus ind =? "ahead")%string then
    {| sAheadCount := sAheadCount acc + 1;
       sOnScheduleCount := sOnScheduleCount acc;
       sBehindCount := sBehindCount acc |}
  else if (rScheduleStatus ind =? "on_schedule")%string then
    {| sAheadCount := sAheadCount acc;
       sOnScheduleCount := sOnScheduleCount acc + 1;
       sBehindCount := sBehindCount acc |}
  else if (rScheduleStatus ind =? "behind")%string then
    {| sAheadCount := sAheadCount acc;
       sOnScheduleCount := sOnScheduleCount acc;
       sBehindCount := sBehindCount acc + 1 |}
  else acc.

Definition scheduleSummary (indicatorResponses : list IndicatorResponse)
    : ScheduleSummary :=
  fold_left scheduleLoop indicatorResponses
    {| sAheadCount := 0; sOnScheduleCount := 0; sBehindCount := 0 |}.

(** [models.Screenshot] (the fields the service reads). *)
Record Screenshot := {
  shotMonth : Z;
  shotYear : Z;
  shotWeek : Z;
  shotFilename : string
}.

Definition sameShot (month year week : Z) (shot : Screenshot) : bool :=
  (shotMonth shot =? month) && (shotYear shot =? year)
  && (shotWeek shot =? week).

(** [DeleteSnapshotWeek]; [screenshots] is the table of the same name,
    and both deletes are statements on the one database. *)
Definition DeleteSnapshotWeek (month year week : Z) (db : store)
    (screenshots : list Screenshot)
    : result unit * store * list Screenshot :=
  match Delete (sameWeek month year week) db with
  | (Err msg, db) => (Err msg, db, screenshots)
  | (Ok _, db) =>
      match next_fault db with
      | (Some _, db) => (Ok tt, db, screenshots)
      | (None, db) =>
          (Ok tt, db,
           List.filter (fun shot => negb (sameShot month year week shot))
             screenshots)
      end
  end.

(** [DB.Where(cond).Order("snapshot_date desc").First(&lastSnapshot)]:
    gorm orders by the primary key after the order asked for, and the
    rows stand in the table in the order of their keys, so the row is the
    first of the newest ones.  [None]: an error, or no row. *)
Fixpoint newestOf (best : WeeklySnapshot) (rows : list WeeklySnapshot)
    : WeeklySnapshot :=
  match rows with
  | [] => best
  | r :: rows' =>
      if SnapshotDate r >? SnapshotDate best then newestOf r rows'
      else newestOf best rows'
  end.

Definition First (cond : WeeklySnapshot -> bool) (db : store)
    : option WeeklySnapshot * store :=
  match next_fault db with
  | (Some _, db) => (None, db)
  | (None, db) =>
      match List.filter cond (weekly_snapshots db) with
      | [] => (None, db)
      | r :: rows => (Some (newestOf r rows), db)
      end
  end.

(** [DB.Where(cond).Find(&snapshots)]; on an error the slice stays
    empty. *)
Definition Find (cond : WeeklySnapshot -> bool) (db : store)
    : list WeeklySnapshot * store :=
  match next_fault db with
  | (Some _, db) => ([], db)
  | (None, db) => (List.filter cond (weekly_snapshots db), db)
  end.

(** The map from indicator code to direction that [calculateWeeklyTrend]
    builds; a later indicator of the same code overwrites an earlier
    one, and a code that is not in the map reads [false]. *)
Definition inverseMap (indicators : list Indicator) : gmap string bool :=
  fold_left (fun m ind => <[Code ind := IsInverse ind]> m) indicators ∅.

Definition greenBefore (inverseMap : gmap string bool)
    (snap : WeeklySnapshot) : bool :=
  let isInverse := default false (inverseMap !! IndicatorID snap) in
  let status := calculateStatus (SnapPercentage snap) isInverse in
  (status =? "green")%string || (status =? "supergreen")%string.

(** [calculateWeeklyTrend]; [indicatorsTable] is the table behind
    [DB.Find(&indicators)], a statement of the same database. *)
Definition calculateWeeklyTrend (indicatorsTable : list Indicator)
    (month year : Z) (currentPercentage : float) (db : store)
    : float * string * Z * store :=
  match First (sameMonthYear month year) db with
  | (None, db) => (0%float, "neutral", 0, db)
  | (Some lastSnapshot, db) =>
      let '(snapshots, db) :=
        Find (fun r => SnapshotDate r =? SnapshotDate lastSnapshot) db in
      match snapshots with
      | [] => (0%float, "neutral", 0, db)
      | _ =>
          let '(fault, db) := next_fault db in
          let indicators :=
            match fault with
            | Some _ => []
            | None => indicatorsTable
            end in
          let inverseMap := inverseMap indicators in
          let prevGreenCount :=
            fold_left
              (fun n snap => if greenBefore inverseMap snap then n + 1 else n)
              snapshots 0 in
          let prevOverallPercentage :=
            (float64_of_int prevGreenCount
             / float64_of_int (Z.of_nat (length snapshots)) * 100)%float in
          let change := (currentPercentage - prevOverallPercentage)%float in
          let direction :=
            if fgt change 0.5 then "up"
            else if flt change (-0.5) then "down"
            else "neutral" in
          (change, direction, prevGreenCount, db)
      end
  end.

(** [DB.Model(&WeeklySnapshot{}).Where(cond).Count(&count)]; on an error
    [count] stays 0. *)
Definition Count (cond : WeeklySnapshot -> bool) (db : store) : Z * store :=
  match next_fault db with
  | (Some _, db) => (0, db)
  | (None, db) =>
      (Z.of_nat (length (List.filter cond (weekly_snapshots db))), db)
  end.

(** [hasDataForMonth]. *)
Definition hasDataForMonth (month year : Z) (db : store) : bool * store :=
  let '(count, db) := Count (sameMonthYear month year) db in
  (count >? 0, db).

Record MonthOption := {
  optMonth : Z;
  optYear : Z;
  optLabel : string;
  optHasData : bool
}.

Record MonthsResponse := {
  AvailableMonths : list MonthOption;
  CurrentMonth : Z * Z
}.

(** One round of the loop of [GetAvailableMonths]. *)
Definition monthsStep (spreadsheetYear : Z)
    (acc : list MonthOption * store) (m : Z) : list MonthOption * store :=
  let '(months, db) := acc in
  let '(hasData, db) := hasDataForMonth m spreadsheetYear db in
  (months ++
   [{| optMonth := m;
       optYear := spreadsheetYear;
       optLabel := getMonthName m +:+ " " +:+ pretty spreadsheetYear;
       optHasData := hasData |}], db).

(** [GetAvailableMonths]; [nowMonth] and [nowYear] are the month and the
    year of [time.Now()]. *)
Definition GetAvailableMonths (nowMonth nowYear spreadsheetYear : Z)
    (db : store) : MonthsResponse * store :=
  let currentMonth := nowMonth in
  let '(months, db) :=
    fold_left (monthsStep spreadsheetYear)
      [1; 2; 3; 4; 5; 6; 7; 8; 9; 10; 11; 12] ([], db) in
  let displayMonth :=
    if nowYear =? spreadsheetYear then currentMonth else 1 in
  ({| AvailableMonths := months;
      CurrentMonth := (displayMonth, spreadsheetYear) |}, db).

(** [GetSnapshotsByMonth]: the snapshots of a month, grouped. *)
Record SnapshotWeekData := {
  wWeek : Z;
  wPercentage : float
}.

Record IndicatorSnapshots := {
  iCode : string;
  iDepartment : string;
  iName : string;
  iWeeks : list SnapshotWeekData
}.

Record MonthlySnapshotsResponse := {
  mIndicators : list IndicatorSnapshots;
  mAvailableWeeks : list Z;
  mMonth : Z;
  mYear : Z;
  mMonthName : string
}.

(** The four collections of the grouping loop.  [indicatorMap] is a map
    to pointers: an entry is updated in place. *)
Record grouping := {
  indicatorMap : gmap string IndicatorSnapshots;
  indicatorOrder : list string;
  weekSet : gmap Z bool;
  seenWeeks : gmap string bool
}.

(** [fmt.Sprintf("%s-%d", snap.IndicatorID, snap.WeekNumber)]. *)
Definition weekKey (indicatorID : string) (weekNumber : Z) : string :=
  indicatorID +:+ "-" +:+ pretty weekNumber.

Definition addWeek (snap : WeeklySnapshot) (entry : IndicatorSnapshots)
    : IndicatorSnapshots :=
  {| iCode := iCode entry; iDepartment := iDepartment entry;
     iName := iName entry;
     iWeeks := iWeeks entry ++
               [{| wWeek := WeekNumber snap;
                   wPercentage := SnapPercentage snap |}] |}.

Definition groupStep (g : grouping) (snap : WeeklySnapshot) : grouping :=
  let weekSet := <[WeekNumber snap := true]> (weekSet g) in
  let '(indicatorMap, indicatorOrder) :=
    match indicatorMap g !! IndicatorID snap with
    | Some _ => (indicatorMap g, indicatorOrder g)
    | None =>
        (<[IndicatorID snap :=
             {| iCode := IndicatorID snap;
                iDepartment := SnapDepartment snap;
                iName := IndicatorName snap;
                iWeeks := [] |}]> (indicatorMap g),
         indicatorOrder g ++ [IndicatorID snap])
    end in
  let key := weekKey (IndicatorID snap) (WeekNumber snap) in
  if negb (default false (seenWeeks g !! key)) then
    {| indicatorMap := alter (addWeek snap) (IndicatorID snap) indicatorMap;
       indicatorOrder := indicatorOrder;
       weekSet := weekSet;
       seenWeeks := <[key := true]> (seenWeeks g) |}
  else
    {| indicatorMap := indicatorMap;
       indicatorOrder := indicatorOrder;
       weekSet := weekSet;
       seenWeeks := seenWeeks g |}.

(** The loop over [indicatorOrder]: [*indicatorMap[code]] panics
    ([None]) on a code without an entry. *)
Fixpoint orderedIndicators (indicatorMap : gmap string IndicatorSnapshots)
    (indicatorOrder : list string) : option (list IndicatorSnapshots) :=
  match indicatorOrder with
  | [] => Some []
  | code :: rest =>
      match indicatorMap !! code, orderedIndicators indicatorMap rest with
      | Some entry, Some indicators => Some (entry :: indicators)
      | _, _ => None
      end
  end.

Definition inMonthWeeks (month year : Z) (r : WeeklySnapshot) : bool :=
  (Month r =? month) && (Year r =? year)
  && (WeekNumber r >=? 1) && (WeekNumber r <=? 5).

(** [GetSnapshotsByMonth].  [sorted] is the order of the database for
    [Order("indicator_id, week_number")], which depends on its collation;
    [None] is a panic. *)
Definition GetSnapshotsByMonth
    (sorted : list WeeklySnapshot -> list WeeklySnapshot)
    (month year : Z) (db : store)
    : option (result MonthlySnapshotsResponse) * store :=
  match next_fault db with
  | (Some msg, db) => (Some (Err msg), db)
  | (None, db) =>
      let snapshots :=
        sorted (List.filter (inMonthWeeks month year) (weekly_snapshots db)) in
      let g :=
        fold_left groupStep snapshots
          {| indicatorMap := ∅; indicatorOrder := []; weekSet := ∅;
             seenWeeks := ∅ |} in
      match orderedIndicators (indicatorMap g) (indicatorOrder g) with
      | None => (None, db)
      | Some indicators =>
          (Some (Ok {| mIndicators := indicators;
                       mAvailableWeeks :=
                         List.filter
                           (fun w => default false (weekSet g !! w))
                           [1; 2; 3; 4; 5];
                       mMonth := month;
                       mYear := year;
                       mMonthName := getMonthName month |}), db)
      end
  end.

End DashboardMoreCode.

End DashboardMore.

(** ** handlers/dashboard.go: the period a dashboard is compared with *)

Module Handlers.
Import Go.

Section HandlersCode.
Context {platform : Platform}.

(** The comparison period of [CompareDashboard], computed after [month]
    and [year] passed the checks of the handler. *)
Definition comparisonPeriod (compareWith : string) (month year : Z)
    : Z * Z :=
  if (compareWith =? "previous_month")%string then
    let compareMonth := wrap64 (month - 1) in
    if compareMonth <? 1 then (12, wrap64 (year - 1))
    else (compareMonth, year)
  else if (compareWith =? "previous_year")%string then
    (month, wrap64 (year - 1))
  else (month, year).

(** The checks of the handler on the parsed [month] and [year]. *)
Definition validPeriod (month year : Z) : bool :=
  negb ((month <? 1) || (month >? 12))
  && negb ((year <? 2020) || (year >? 2100)).

End HandlersCode.

End Handlers.

(** ** Vocabulary of the further properties *)

Module SpecMore.

Section SpecMoreCode.
Context {platform : Go.Platform}.

(** A string at whose head no white-space test succeeds: it does not
    begin with white space. *)
Definition untrimmed (two : ascii -> ascii -> bool)
    (three : ascii -> ascii -> ascii -> bool) (s : string) : Prop :=
  match s with
  | String c1 s1 =>
      Ascii.is_space c1 = false /\
      match s1 with
      | String c2 s2 =>
          two c1 c2 = false /\
          match s2 with
          | String c3 _ => three c1 c2 c3 = false
          | EmptyString => True
          end
      | EmptyString => True
      end
  | EmptyString => True
  end.

(** A text made of white space only: a sequence of white-space code
    points. *)
Inductive whiteSpace : string -> Prop :=
| whiteSpace_nil : whiteSpace ""
| whiteSpace_cons rune s :
    In rune Go.spaceRunes -> whiteSpace s -> whiteSpace (rune +:+ s).

(** A text that is trimmed to nothing and whose first byte continues no
    encoding begun before it. *)
Definition separate (two : ascii -> ascii -> bool)
    (three : ascii -> ascii -> ascii -> bool) (e : string) : Prop :=
  Go.trimWith two three e = "" /\
  match e with
  | String b _ =>
      (forall c1, two c1 b = false) /\
      (forall c1 c2, three c1 c2 b = false) /\
      (forall c1 c3, three c1 b c3 = false)
  | EmptyString => False
  end.

(** The label of a row of the label column: its first cell, if that is a
    non-empty text, in lower case and trimmed. *)
Definition labelOf (row : list Sheets.cell) : option string :=
  match row with
  | Sheets.CString cellStr :: _ =>
      if (cellStr =? "")%string then None
      else Some (Go.ToLower (Go.TrimSpace cellStr))
  | _ => None
  end.

(** The row numbers, in sheet order, of the rows labelled [key], the
    first row of [values] being row [rowIdx + 1]. *)
Fixpoint labelHits (key : string) (rowIdx : Z)
    (values : list (list Sheets.cell)) : list Z :=
  match values with
  | [] => []
  | row :: values' =>
      match labelOf row with
      | Some label =>
          if (label =? key)%string
          then rowIdx + 1 :: labelHits key (rowIdx + 1) values'
          else labelHits key (rowIdx + 1) values'
      | None => labelHits key (rowIdx + 1) values'
      end
  end.

(** A reading that carries the code, department, name and direction of
    an indicator. *)
Definition describes (kpiData : Dashboard.KPIData)
    (indicator : Models.Indicator) : Prop :=
  Dashboard.kIndicatorCode kpiData = Models.Code indicator /\
  Dashboard.kDepartment kpiData = Models.Department indicator /\
  Dashboard.kName kpiData = Models.Name indicator /\
  Dashboard.kIsInverse kpiData = Models.IsInverse indicator.

(** The indicators [FetchKPIData] asks the sheet for: the active ones
    whose row is found, in the order of the catalogue. *)
Definition fetched (layout : Sheets.DiscoveredLayout)
    (indicators : list Models.Indicator) : list Models.Indicator :=
  List.filter
    (fun indicator =>
       Models.IsActive indicator
       && snd (Sheets.getIndicatorRow layout indicator))
    indicators.

(** How many responses carry a schedule status. *)
Definition scheduled (status : string)
    (responses : list Dashboard.IndicatorResponse) : Z :=
  Z.of_nat
    (length
       (List.filter
          (fun r => (Dashboard.rScheduleStatus r =? status)%string)
          responses)).

(** The statuses from worst to best. *)
Definition statusRank (status : string) : Z :=
  if (status =? "supergreen")%string then 3
  else if (status =? "green")%string then 2
  else if (status =? "yellow")%string then 1
  else 0.

(** A layout that a call of [DiscoverLayout] returned, at a time that
    has passed. *)
Definition discovered (st : LayoutCache.state)
    (l : Sheets.DiscoveredLayout) : Prop :=
  exists (now : Z) (srv : Sheets.service) (spreadsheetID sheetName : string),
    now <= LayoutCache.clock st /\
    Sheets.LastRefresh l = now /\
    Sheets.DiscoverLayout now srv spreadsheetID sheetName = Go.Ok l.

(** The layout a [GetLayout] call has fixed as its result. *)
Definition handedOut (p : LayoutCache.point)
    : option Sheets.DiscoveredLayout :=
  match p with
  | LayoutCache.ReadReturning l => Some l
  | LayoutCache.WriteReturning (Go.Ok l) => Some l
  | LayoutCache.Done (Go.Ok l) => Some l
  | _ => None
  end.

(** The cache and every fixed result hold discovered layouts. *)
Definition provenance (st : LayoutCache.state) : Prop :=
  (forall l, LayoutCache.layout st = Some l -> discovered st l) /\
  (forall t l, handedOut (LayoutCache.points st t) = Some l ->
               discovered st l).

(** A week of the monthly view that shows one snapshot. *)
Definition shows (snap : Models.WeeklySnapshot)
    (week : DashboardMore.SnapshotWeekData) : Prop :=
  Models.WeekNumber snap = DashboardMore.wWeek week /\
  Models.SnapPercentage snap = DashboardMore.wPercentage week.

(** What the grouping loop of [GetSnapshotsByMonth] has built after
    the snapshots [done]. *)
Record grouped (done : list Models.WeeklySnapshot)
    (g : DashboardMore.grouping) : Prop := {
  g_order : forall id,
    In id (DashboardMore.indicatorOrder g) <->
    exists s, In s done /\ Models.IndicatorID s = id;
  g_nodup : List.NoDup (DashboardMore.indicatorOrder g);
  g_map : forall id,
    DashboardMore.indicatorMap g !! id = None <->
    ~ In id (DashboardMore.indicatorOrder g);
  g_code : forall id e,
    DashboardMore.indicatorMap g !! id = Some e ->
    DashboardMore.iCode e = id;
  g_weeks_nodup : forall id e,
    DashboardMore.indicatorMap g !! id = Some e ->
    List.NoDup (map DashboardMore.wWeek (DashboardMore.iWeeks e));
  g_weeks_from : forall id e week,
    DashboardMore.indicatorMap g !! id = Some e ->
    In week (DashboardMore.iWeeks e) ->
    exists s, In s done /\ Models.IndicatorID s = id /\ shows s week;
  g_weeks_all : forall s e,
    In s done ->
    DashboardMore.indicatorMap g !! Models.IndicatorID s = Some e ->
    In (Models.WeekNumber s)
       (map DashboardMore.wWeek (DashboardMore.iWeeks e));
  g_seen : forall k,
    default false (DashboardMore.seenWeeks g !! k) = true <->
    exists s, In s done /\
              DashboardMore.weekKey (Models.IndicatorID s)
                (Models.WeekNumber s) = k;
  g_weekSet : forall w,
    default false (DashboardMore.weekSet g !! w) = true <->
    exists s, In s done /\ Models.WeekNumber s = w
}.

(** The stored snapshots the monthly view reads. *)
Definition monthRows (month year : Z) (db : Database.store)
    (s : Models.WeeklySnapshot) : Prop :=
  In s (Database.weekly_snapshots db) /\
  DashboardMore.inMonthWeeks month year s = true.

End SpecMoreCode.

End SpecMore.

(** ** Sample data of the further properties *)

Module MoreSamples.
Import Go Models Sheets Database Dashboard LayoutCache Samples.
Import SheetsRead DashboardMore.

(** The layout that discovery finds on [januarySheet] at time 0. *)
Definition januaryLayout : DiscoveredLayout :=
  {| MonthColumns :=
       columnsLoop 0 [CString "Leading Indicators"; CString "January Target";
                      CString "January"] ∅;
     KPIRows :=
       rowsLoop 0 [[CString "Revenue Group"];
                   [CString "Customer Satisfaction"]] ∅;
     LastRefresh := 0 |}.

(** The same sheet with the label of row 2 typed between a no-break
    space (U+00A0) and an em space (U+2003), and an indicator whose
    label is written in capitals with a blank after it. *)
Definition paddedLabel : string :=
  String "194" (String "160"
    ("Customer Satisfaction"
     +:+ String "226" (String "128" (String "131" "")))).

Definition paddedSheet : service :=
  fun _ rangeStr =>
    if (rangeStr =? "KPI!1:1")%string
    then Ok [[CString "Leading Indicators"; CString "January Target";
              CString "January"]]
    else Ok [[CString "Revenue Group"]; [CString paddedLabel]].

Definition paddedLayout : DiscoveredLayout :=
  {| MonthColumns :=
       columnsLoop 0 [CString "Leading Indicators"; CString "January Target";
                      CString "January"] ∅;
     KPIRows :=
       rowsLoop 0 [[CString "Revenue Group"]; [CString paddedLabel]] ∅;
     LastRefresh := 0 |}.

Definition shouted : Indicator :=
  {| Code := "KPI-09"; Department := "DELIVERY";
     Name := "Customer Satisfaction";
     SpreadsheetName := "CUSTOMER SATISFACTION "; SpreadsheetRow := 36;
     IsInverse := false; IsActive := true |}.

(** A stand-in for [strconv.ParseFloat] that knows two numbers. *)
Definition parseTwoNumbers (s : string) : option float :=
  if (s =? "100")%string then Some 100%float
  else if (s =? "80")%string then Some 80%float
  else None.

(** The row of the sample indicator: its label, target and performance. *)
Definition januaryRow : list (list cell) :=
  [[CString "Customer Satisfaction"; CNumber 100; CString "80%"]].

(** A sheet that answers every range with that row, one range at a time
    or in a batch; and a sheet that cannot be reached. *)
Definition januarySingle : service := fun _ _ => Ok januaryRow.

Definition januaryBatch : batchService :=
  fun _ ranges => Ok (map (fun _ => januaryRow) ranges).

Definition offline : batchService := fun _ _ => Err "unavailable".

(** What [FetchKPIData] reads for the sample indicator. *)
Definition januaryReadings : list KPIData :=
  match FetchKPIData parseTwoNumbers (Ok januaryLayout) (Ok januaryBatch)
          "sheet-id" "KPI" [satisfaction] 1 with
  | Some (Ok kpiDataList) => kpiDataList
  | _ => []
  end.

(** The store of [twoWeeks] when its next statement fails, and when the
    statement after the next two fails. *)
Definition lockedStore : store :=
  {| weekly_snapshots := weekly_snapshots twoWeeks;
     faults := [Some "locked"] |}.

Definition fullStore : store :=
  {| weekly_snapshots := weekly_snapshots twoWeeks;
     faults := [None; None; Some "disk full"] |}.

(** The run of [discovering], continued by a discovery that succeeds on
    [januarySheet]; and the run of [stillStale], continued by a client
    that cannot be made. *)
Definition cached : state :=
  {| clock := 0; layout := Some januaryLayout; readers := 0; writer := true;
     points := move 0 (WriteReturning (Ok januaryLayout)) (points discovering);
     discoveries := 1;
     SpreadsheetID := "sheet-id"; SheetName := "KPI" |}.

(** The settings name another sheet; the cache is as it was. *)
Definition reconfigured : state :=
  {| clock := 0; layout := Some januaryLayout; readers := 0; writer := true;
     points := points cached; discoveries := 1;
     SpreadsheetID := "sheet-id"; SheetName := "Archive" |}.

(** The first goroutine has returned, and two more call [GetLayout]
    while the cache is fresh: they hold the read lock together, and each
    returns the cached layout. *)
Definition released : state :=
  {| clock := 0; layout := Some januaryLayout; readers := 0; writer := false;
     points := move 0 (Done (Ok januaryLayout)) (points cached);
     discoveries := 1;
     SpreadsheetID := "sheet-id"; SheetName := "KPI" |}.

Definition oneCalls : state := at_point released 1 Enter.

Definition twoCall : state := at_point oneCalls 2 Enter.

Definition oneReads : state :=
  {| clock := 0; layout := Some januaryLayout; readers := 1; writer := false;
     points := move 1 ReadChecking (points twoCall); discoveries := 1;
     SpreadsheetID := "sheet-id"; SheetName := "KPI" |}.

Definition twoRead : state :=
  {| clock := 0; layout := Some januaryLayout; readers := 2; writer := false;
     points := move 2 ReadChecking (points oneReads); discoveries := 1;
     SpreadsheetID := "sheet-id"; SheetName := "KPI" |}.

Definition oneFixed : state :=
  at_point twoRead 1 (ReadReturning januaryLayout).

Definition twoFixed : state :=
  at_point oneFixed 2 (ReadReturning januaryLayout).

Definition oneReturned : state :=
  {| clock := 0; layout := Some januaryLayout; readers := 1; writer := false;
     points := move 2 (Done (Ok januaryLayout)) (points twoFixed);
     discoveries := 1;
     SpreadsheetID := "sheet-id"; SheetName := "KPI" |}.

Definition twoReturned : state :=
  {| clock := 0; layout := Some januaryLayout; readers := 0; writer := false;
     points := move 1 (Done (Ok januaryLayout)) (points oneReturned);
     discoveries := 1;
     SpreadsheetID := "sheet-id"; SheetName := "KPI" |}.

Definition failed : state :=
  at_point stillStale 0 (WriteReturning (staleOr stillStale "no token")).

End MoreSamples.

(** * Part II: the properties *)

(** ** Binary64 order facts

    The primitive comparisons are specified by [SFcompare] on the
    decoded floats.  The facts below are the two order laws the
    threshold code relies on: [<] is transitive, and [x <= y] excludes
    [y < x].  Both hold for every float, NaN included (a comparison with
    NaN is false). *)

Module F64.
Local Open Scope Z_scope.

Local Ltac cmp_cases :=
  repeat match goal with
  | |- context [Z.compare ?a ?b] => destruct (Z.compare_spec a b)
  | H : context [Z.compare ?a ?b] |- _ => destruct (Z.compare_spec a b)
  | |- context [Pos.compare_cont Eq ?a ?b] =>
      change (Pos.compare_cont Eq a b) with (Pos.compare a b);
      destruct (Pos.compare_spec a b)
  | H : context [Pos.compare_cont Eq ?a ?b] |- _ =>
      change (Pos.compare_cont Eq a b) with (Pos.compare a b) in H;
      destruct (Pos.compare_spec a b)
  end.

Lemma SFltb_trans (x y z : spec_float) :
  SFltb x y = true -> SFltb y z = true -> SFltb x z = true.
Proof.
  unfold SFltb.
  destruct x as [sx|sx| |sx mx ex], y as [sy|sy| |sy my ey],
           z as [sz|sz| |sz mz ez];
    simpl; try discriminate; try reflexivity;
    repeat match goal with s : bool |- _ => destruct s end;
    simpl; try discriminate; try reflexivity;
    cmp_cases; simpl; subst; try discriminate; try reflexivity;
    intros _ _; exfalso; lia.
Qed.

Lemma SFleb_not_gt (x y : spec_float) :
  SFleb x y = true -> SFltb y x = false.
Proof.
  unfold SFleb, SFltb.
  destruct x as [sx|sx| |sx mx ex], y as [sy|sy| |sy my ey];
    simpl; try discriminate; try reflexivity;
    repeat match goal with s : bool |- _ => destruct s end;
    simpl; try discriminate; try reflexivity;
    cmp_cases; simpl; subst; try discriminate; try reflexivity;
    intros _; exfalso; lia.
Qed.

Lemma ltb_trans (x y z : float) :
  PrimFloat.ltb x y = true -> PrimFloat.ltb y z = true ->
  PrimFloat.ltb x z = true.
Proof. rewrite !ltb_spec. apply SFltb_trans. Qed.

Lemma leb_not_gt (x y : float) :
  PrimFloat.leb x y = true -> PrimFloat.ltb y x = false.
Proof. rewrite leb_spec, ltb_spec. apply SFleb_not_gt. Qed.

(** [x < lo] excludes [hi < x] as soon as [hi < lo] is false. *)
Lemma lt_excludes_gt (x lo hi : float) :
  PrimFloat.ltb hi lo = false ->
  PrimFloat.ltb x lo = true -> PrimFloat.ltb hi x = false.
Proof.
  intros Hc Hx. destruct (PrimFloat.ltb hi x) eqn:E; [|reflexivity].
  rewrite (ltb_trans hi x lo E Hx) in Hc. discriminate.
Qed.

Lemma SFabs_le_bounds (x h : spec_float) :
  SFleb (SFabs x) h = true ->
  SFltb h x = false /\ SFltb x (SFopp h) = false.
Proof.
  unfold SFleb, SFltb.
  destruct x as [sx|sx| |sx mx ex], h as [sh|sh| |sh mh eh];
    simpl; try discriminate; auto;
    repeat match goal with s : bool |- _ => destruct s end;
    simpl; try discriminate; auto;
    cmp_cases; simpl; subst; try discriminate; auto;
    intros _; exfalso; lia.
Qed.

(** [|x| <= h] puts [x] between [-h] and [h]. *)
Lemma abs_le_bounds (x h : float) :
  PrimFloat.leb (PrimFloat.abs x) h = true ->
  PrimFloat.ltb h x = false /\ PrimFloat.ltb x (PrimFloat.opp h) = false.
Proof.
  rewrite leb_spec, !ltb_spec, abs_spec, opp_spec. apply SFabs_le_bounds.
Qed.

End F64.

Import Go Models Sheets Database Dashboard Spec.

(** ** Status classification *)

Section Status.
Context {platform : Platform}.

(** Claim C1.  The status is a function of the percentage and the
    inverse flag alone and agrees, for every percentage, with the two
    threshold tables of the specification: normal [>100] supergreen,
    [>85] green, [>55] yellow, else red; inverse [>=100] red, [>=85]
    yellow, [>=55] green, else supergreen.  At the boundary, normal 85.0
    is yellow and 85.01 green; inverse 85.0 is yellow and 84.99 green. *)
Theorem calculateStatus_threshold_tables :
  (forall percentage isInverse,
      calculateStatus percentage isInverse
      = Spec.statusByTable percentage isInverse) /\
  calculateStatus 85 false = "yellow" /\
  calculateStatus 85.01 false = "green" /\
  calculateStatus 85 true = "yellow" /\
  calculateStatus 84.99 true = "green".
Proof.
  split.
  - intros percentage [|]; reflexivity.
  - repeat split; vm_compute; reflexivity.
Qed.

(** Every status is one of the four colours. *)
Lemma calculateStatus_cases percentage isInverse :
  calculateStatus percentage isInverse ∈
    ["supergreen"; "green"; "yellow"; "red"].
Proof.
  unfold calculateStatus.
  repeat match goal with |- context [if ?b then _ else _] => destruct b end;
    set_solver.
Qed.

End Status.

(** ** The loop of GetDashboardData *)

Section DashboardLoop.
Context {platform : Platform}.
Variables (currentDay month year : Z) (prevSnapshots : gmap string float).

Let body := loopBody currentDay month year prevSnapshots.

Lemma loopBody_responses acc kpiData :
  exists resp,
    indicatorResponses (body acc kpiData) = indicatorResponses acc ++ [resp] /\
    rPercentage resp = calculatedPercentage kpiData /\
    rStatus resp = statusOf kpiData.
Proof.
  unfold body, loopBody.
  destruct (calculateWoWChange _ _ _) as [wowChange wowDirection].
  destruct (calculateVariance _ _ _ _ _ _) as [[expectedProgress variance] sched].
  repeat match goal with
         | |- context [if ?b then _ else _] => destruct b
         end; simpl; eexists; (split; [reflexivity|]); split; reflexivity.
Qed.

Lemma loopBody_counts acc kpiData :
  let acc' := body acc kpiData in
  greenCount acc' =
    greenCount acc + (if countsAsGreen (statusOf kpiData) then 1 else 0) /\
  greenCount acc' + yellowCount acc' + redCount acc' =
    greenCount acc + yellowCount acc + redCount acc + 1.
Proof.
  unfold body, loopBody, countsAsGreen.
  fold (statusOf kpiData).
  destruct (calculateWoWChange _ _ _) as [wowChange wowDirection].
  destruct (calculateVariance _ _ _ _ _ _) as [[expectedProgress variance] sched].
  pose proof (calculateStatus_cases (calculatedPercentage kpiData)
                (kIsInverse kpiData)) as Hc.
  fold (statusOf kpiData) in Hc.
  repeat (apply elem_of_cons in Hc as [-> | Hc]); [..|inversion Hc];
    simpl; lia.
Qed.

Lemma loop_responses kpiDataList acc :
  let acc' := fold_left body kpiDataList acc in
  map rPercentage (indicatorResponses acc') =
    map rPercentage (indicatorResponses acc)
    ++ map calculatedPercentage kpiDataList /\
  map rStatus (indicatorResponses acc') =
    map rStatus (indicatorResponses acc) ++ map statusOf kpiDataList.
Proof.
  revert acc. induction kpiDataList as [|k ks IH]; intros acc; simpl.
  - rewrite !app_nil_r. auto.
  - destruct (loopBody_responses acc k) as (resp & Hr & Hp & Hs).
    destruct (IH (body acc k)) as [IHp IHs]. simpl in IHp, IHs.
    rewrite IHp, IHs, Hr, !map_app. simpl. rewrite Hp, Hs, <- !app_assoc.
    auto.
Qed.

Lemma loop_counts kpiDataList acc :
  let acc' := fold_left body kpiDataList acc in
  greenCount acc' =
    greenCount acc
    + Z.of_nat (length (List.filter (fun k => countsAsGreen (statusOf k))
                          kpiDataList)) /\
  greenCount acc' + yellowCount acc' + redCount acc' =
    greenCount acc + yellowCount acc + redCount acc
    + Z.of_nat (length kpiDataList).
Proof.
  revert acc. induction kpiDataList as [|k ks IH]; intros acc; simpl.
  - lia.
  - destruct (IH (body acc k)) as [IHg IHt]. simpl in IHg, IHt.
    destruct (loopBody_counts acc k) as [Hg Ht]. simpl in Hg, Ht.
    split.
    + rewrite IHg, Hg. destruct (countsAsGreen (statusOf k)); simpl; lia.
    + rewrite IHt, Ht. lia.
Qed.

End DashboardLoop.

(** ** Percentage, variance and the aggregate *)

Section Computation.
Context {platform : Platform}.

Lemma filter_length_map {A B C} (f : A -> C) (g : B -> C) (P : C -> bool)
    (l1 : list A) (l2 : list B) :
  map f l1 = map g l2 ->
  length (List.filter (fun a => P (f a)) l1)
  = length (List.filter (fun b => P (g b)) l2).
Proof.
  revert l2. induction l1 as [|a l1 IH]; intros [|b l2] Hm;
    simpl in *; try discriminate; [reflexivity|].
  injection Hm as Hab Hm. rewrite Hab.
  destruct (P (g b)); simpl; auto.
Qed.

Lemma not_999_lt_0 : PrimFloat.ltb 999 0 = false.
Proof. vm_compute. reflexivity. Qed.

(** Claim C2.  The percentage of every reading in the response is 0
    when the target is 0, and otherwise the ratio actual / target * 100
    capped above at 999; nothing floors it at 0: a negative ratio is the
    percentage as it is.  No percentage exceeds 999. *)
Theorem percentage_capped_not_floored :
  forall currentDay kpiDataList prevSnapshots month year,
    map rPercentage
      (snd (GetDashboardData currentDay kpiDataList prevSnapshots month year))
    = map calculatedPercentage kpiDataList /\
    forall kpiData,
      let ratio := (kPerformance kpiData / kTarget kpiData * 100)%float in
      (feq (kTarget kpiData) 0 = true ->
       calculatedPercentage kpiData = 0%float) /\
      (feq (kTarget kpiData) 0 = false ->
       calculatedPercentage kpiData
       = if fgt ratio 999 then 999%float else ratio) /\
      (feq (kTarget kpiData) 0 = false -> flt ratio 0 = true ->
       calculatedPercentage kpiData = ratio) /\
      fgt (calculatedPercentage kpiData) 999 = false.
Proof.
  intros currentDay kpiDataList prevSnapshots month year. split.
  - unfold GetDashboardData. cbv zeta. unfold snd.
    pose proof (loop_responses currentDay month year prevSnapshots
                  kpiDataList
                  {| indicatorResponses := []; greenCount := 0;
                     yellowCount := 0; redCount := 0 |}) as [Hp _].
    exact Hp.
  - intros kpiData ratio. unfold calculatedPercentage, fne, feq.
    fold ratio. split; [|split; [|split]].
    + intros ->. unfold negb, fgt. rewrite not_999_lt_0. reflexivity.
    + intros ->. reflexivity.
    + intros -> Hneg. unfold negb, fgt.
      rewrite (F64.lt_excludes_gt ratio 0 999 not_999_lt_0 Hneg).
      reflexivity.
    + destruct (PrimFloat.eqb (kTarget kpiData) 0); unfold negb.
      * unfold fgt at 2. rewrite not_999_lt_0. unfold fgt.
        exact not_999_lt_0.
      * destruct (fgt ratio 999) eqn:Hcap; [vm_compute; reflexivity|].
        exact Hcap.
Qed.

Lemma wrap64_id z : min_int <= z <= max_int -> wrap64 z = z.
Proof.
  unfold wrap64, min_int, max_int. intros Hz.
  rewrite Z.mod_small by lia. lia.
Qed.

(** For a month of a year of the calendar, [daysInMonth] is its number
    of days. *)
Lemma daysInMonth_calendar month year :
  1 <= month <= 12 -> 1 <= year <= 9999 ->
  daysInMonth month year = daysIn month year.
Proof.
  intros Hm Hy. unfold daysInMonth, lastDayBefore.
  rewrite (wrap64_id (month + 1)) by (unfold min_int, max_int; lia).
  replace (month + 1 - 1) with month by lia.
  rewrite (wrap64_id month) by (unfold min_int, max_int; lia).
  assert (Hcases : month = 12 \/ 1 <= month <= 11) by lia.
  destruct Hcases as [->|Hlt].
  - change (12 / 12) with 1. change (12 mod 12) with 0.
    rewrite (wrap64_id (year + 1)) by (unfold min_int, max_int; lia).
    cbv zeta. change (0 =? 0) with true. cbv iota.
    replace (year + 1 - 1) with year by lia.
    destruct (Z.leb_spec 1 year); [|lia].
    destruct (Z.leb_spec year 9999); [|lia]. reflexivity.
  - rewrite Z.div_small, Z.mod_small by lia.
    rewrite Z.add_0_r, (wrap64_id year) by (unfold min_int, max_int; lia).
    cbv zeta. destruct (Z.eqb_spec month 0); [lia|].
    destruct (Z.leb_spec 1 year); [|lia].
    destruct (Z.leb_spec year 9999); [|lia]. reflexivity.
Qed.

Lemma nearest_unique m d k1 k2 :
  0 < d -> nearest m d k1 -> nearest m d k2 -> k1 = k2.
Proof. unfold nearest. intros Hd (H1 & H2 & H3) (H4 & H5 & H6). nia. Qed.

(** [math.Round] rounds to the nearest integer, halves away from zero. *)
Lemma Round_nearest x : roundedHalfAway x (Round x).
Proof.
  unfold roundedHalfAway, Round.
  destruct (Prim2SF x) as [s|s| |s m e]; try reflexivity.
  destruct (Z.leb_spec 0 e) as [He|He]; [reflexivity|].
  set (d := 2 ^ (- e)). set (h := 2 ^ (- e - 1)).
  assert (Hh : 0 < h) by (apply Z.pow_pos_nonneg; lia).
  assert (Hd : d = 2 * h).
  { unfold d, h. replace (- e) with (Z.succ (- e - 1)) at 1 by lia.
    apply Z.pow_succ_r. lia. }
  set (n := (Z.pos m + h) / d).
  assert (Hn : 0 <= n) by (apply Z.div_pos; lia).
  exists n. split.
  - pose proof (Z.div_mod (Z.pos m + h) d ltac:(lia)) as Hdiv.
    pose proof (Z.mod_pos_bound (Z.pos m + h) d ltac:(lia)) as Hmod.
    fold n in Hdiv. unfold nearest. split; [exact Hn|]. nia.
  - unfold float64_of_int.
    destruct (Z.eqb_spec n min_int) as [E|_];
      [unfold min_int in E; lia|].
    destruct (Z.ltb_spec n 0); [lia|]. reflexivity.
Qed.

(** Claim C3.  With the expectation prorated by the day of the month,
    target * (currentDay / daysInMonth): when the target or the
    expectation is 0 the variance is 0 and the metric is on schedule;
    otherwise the variance is (actual - expected) / expected * 100 for a
    normal metric and (expected - actual) / expected * 100 for an
    inverse one, rounded to one decimal - ten times the value, taken to
    the nearest integer with halves away from zero, over ten - the
    expectation is rounded to two decimals in the same way, and the
    metric is ahead iff variance > 5, behind iff variance < -5, on
    schedule otherwise.  For months 1 to 12 of the years 1 to 9999
    [daysInMonth] is the length of the month.  Target 100, actual 90, day
    15 of a 30-day month: expectation 50, variance 80, ahead; on day 7
    the expectation 23.333... is reported as 23.33 and the variance
    285.714... as 285.7. *)
Theorem calculateVariance_schedule :
  (forall (currentDay : Z) (target actual : float) (isInverse : bool)
          (month year : Z) (expectedProgress variance : float)
          (scheduleStatus : string),
      let progressRatio :=
        (float64_of_int currentDay
         / float64_of_int (daysInMonth month year))%float in
      let expected := (target * progressRatio)%float in
      let raw :=
        if isInverse then ((expected - actual) / expected * 100)%float
        else ((actual - expected) / expected * 100)%float in
      calculateVariance currentDay target actual isInverse month year
      = (expectedProgress, variance, scheduleStatus) ->
      (feq target 0 = true \/ feq expected 0 = true ->
       variance = 0%float /\ scheduleStatus = "on_schedule") /\
      (feq target 0 = false -> feq expected 0 = false ->
       variance = (Round (raw * 10) / 10)%float /\
       expectedProgress = (Round (expected * 100) / 100)%float /\
       (exists tenths,
           roundedHalfAway (raw * 10) tenths /\
           variance = (tenths / 10)%float) /\
       (exists hundredths,
           roundedHalfAway (expected * 100) hundredths /\
           expectedProgress = (hundredths / 100)%float) /\
       (scheduleStatus = "ahead" <-> fgt variance 5 = true) /\
       (scheduleStatus = "behind" <-> flt variance (-5) = true) /\
       (scheduleStatus = "on_schedule" <->
        fgt variance 5 = false /\ flt variance (-5) = false))) /\
  (forall x r1 r2,
      roundedHalfAway x r1 -> roundedHalfAway x r2 -> r1 = r2) /\
  (forall month year,
      1 <= month <= 12 -> 1 <= year <= 9999 ->
      daysInMonth month year = daysIn month year) /\
  daysInMonth 4 2025 = 30 /\
  calculateVariance 15 100 90 false 4 2025 = (50%float, 80%float, "ahead") /\
  calculateVariance 7 100 90 false 4 2025
  = (23.33%float, 285.7%float, "ahead").
Proof.
  split; [|split; [|split; [apply daysInMonth_calendar|
                            repeat split; vm_compute; reflexivity]]].
  2:{ intros x r1 r2. unfold roundedHalfAway.
      destruct (Prim2SF x) as [s|s| |s m e]; try congruence.
      destruct (Z.leb_spec 0 e) as [He|He]; [congruence|].
      intros (k1 & Hk1 & ->) (k2 & Hk2 & ->).
      assert (Hd : 0 < 2 ^ (- e)) by (apply Z.pow_pos_nonneg; lia).
      rewrite (nearest_unique _ _ k1 k2 Hd Hk1 Hk2). reflexivity. }
  intros currentDay target actual isInverse month year
         expectedProgress variance scheduleStatus progressRatio expected raw.
  unfold calculateVariance. fold progressRatio. fold expected. fold raw.
  destruct (feq target 0) eqn:Ht.
  - intros [= <- <- <-]. split; [auto | discriminate].
  - destruct (feq expected 0) eqn:He.
    + intros [= <- <- <-]. split; [auto | discriminate].
    + set (v := (Round (raw * 10) / 10)%float).
      intros [= <- <- <-]. split; [intros [?|?]; discriminate|].
      intros _ _. split; [reflexivity|]. split; [reflexivity|].
      split; [exists (Round (raw * 10)); split;
                [apply Round_nearest|reflexivity]|].
      split; [exists (Round (expected * 100)); split;
                [apply Round_nearest|reflexivity]|].
      assert (Hx : flt v (-5) = true -> fgt v 5 = false).
      { unfold flt, fgt. apply F64.lt_excludes_gt. vm_compute. reflexivity. }
      destruct (fgt v 5) eqn:Hgt; [|destruct (flt v (-5)) eqn:Hlt].
      * repeat split; try discriminate; auto.
        -- intros Hlt. specialize (Hx Hlt). discriminate.
        -- intros [? _]. discriminate.
      * repeat split; try discriminate; auto. intros [_ ?]. discriminate.
      * repeat split; try discriminate; auto.
Qed.

(** Claim C9.  In the aggregate of a period every metric is classified
    by its own status - the status of its reading on the per-metric
    tables - and the green count is the number of metrics whose status
    is green or supergreen; the overall percentage is
    greenCount / totalClassified * 100, and 0 when no metric is
    classified; the overall status reads that percentage on the
    thresholds [>85] green, [>55] yellow, else red, and is never
    supergreen. *)
Theorem overall_performance_aggregate :
  forall currentDay kpiDataList prevSnapshots month year,
    let overall :=
      fst (GetDashboardData currentDay kpiDataList prevSnapshots month year) in
    let responses :=
      snd (GetDashboardData currentDay kpiDataList prevSnapshots month year) in
    let totalClassified :=
      oGreenCount overall + oYellowCount overall + oRedCount overall in
    map rStatus responses
    = map (fun kpiData =>
             Spec.statusByTable (calculatedPercentage kpiData)
               (kIsInverse kpiData))
        kpiDataList /\
    oGreenCount overall
    = Z.of_nat (length (List.filter
                          (fun kpiData =>
                             countsAsGreen
                               (calculateStatus (calculatedPercentage kpiData)
                                  (kIsInverse kpiData)))
                          kpiDataList)) /\
    totalClassified = Z.of_nat (length kpiDataList) /\
    oGreenCount overall
    = Z.of_nat (length (List.filter (fun r => countsAsGreen (rStatus r))
                          responses)) /\
    totalClassified = Z.of_nat (length responses) /\
    oPercentage overall
    = (if totalClassified =? 0 then 0%float
       else (float64_of_int (oGreenCount overall)
             / float64_of_int totalClassified * 100)%float) /\
    oStatus overall
    = (if fgt (oPercentage overall) 85 then "green"
       else if fgt (oPercentage overall) 55 then "yellow"
       else "red") /\
    oStatus overall <> "supergreen".
Proof.
  intros currentDay kpiDataList prevSnapshots month year.
  unfold GetDashboardData. cbv zeta. unfold fst, snd.
  set (acc0 := {| indicatorResponses := []; greenCount := 0;
                  yellowCount := 0; redCount := 0 |}).
  destruct (loop_counts currentDay month year prevSnapshots kpiDataList acc0)
    as [Hg Ht].
  destruct (loop_responses currentDay month year prevSnapshots kpiDataList
              acc0) as [_ Hs].
  set (acc := fold_left _ kpiDataList acc0) in *.
  simpl in Hg, Ht, Hs.
  assert (Hlen : length (indicatorResponses acc) = length kpiDataList).
  { rewrite <- (length_map rStatus), Hs, length_map. reflexivity. }
  unfold overallPerformance. cbv zeta. simpl.
  split; [|split; [|split; [|split; [|split; [|split; [|split]]]]]].
  - rewrite Hs. apply map_ext. intros kpiData. unfold statusOf.
    destruct (kIsInverse kpiData); reflexivity.
  - rewrite Hg. reflexivity.
  - rewrite Ht. reflexivity.
  - rewrite Hg, (filter_length_map rStatus statusOf countsAsGreen _ _ Hs).
    lia.
  - rewrite Ht, Hlen. reflexivity.
  - rewrite Ht.
    destruct (Z.of_nat (length kpiDataList)) eqn:E; try reflexivity. lia.
  - reflexivity.
  - repeat match goal with
           | |- context [if ?b then _ else _] => destruct b
           end; discriminate.
Qed.

End Computation.

(** ** Week over week *)

Section WeekOverWeek.
Context {platform : Platform}.

Lemma insert_desc_In r x l : In r (insert_desc x l) <-> r = x \/ In r l.
Proof.
  induction l as [|y l IH]; simpl.
  - intuition auto.
  - destruct (SnapshotDate x <=? SnapshotDate y); simpl; rewrite ?IH;
      intuition auto.
Qed.

Lemma insert_desc_newestFirst x l :
  newestFirst l -> newestFirst (insert_desc x l).
Proof.
  induction l as [|y l IH]; simpl.
  - intros _. split; [intros ? []|exact I].
  - intros [Hy Hl].
    destruct (SnapshotDate x <=? SnapshotDate y) eqn:E; simpl.
    + split; [|auto]. intros z Hz. apply insert_desc_In in Hz as [->|Hz].
      * lia.
      * auto.
    + split; [|split; auto]. intros z [->|Hz]; [lia|].
      specialize (Hy z Hz). lia.
Qed.

Lemma order_In r l : In r (order_snapshot_date_desc l) <-> In r l.
Proof.
  induction l as [|x l IH]; simpl; [tauto|].
  rewrite insert_desc_In, IH. intuition auto.
Qed.

Lemma order_newestFirst l : newestFirst (order_snapshot_date_desc l).
Proof.
  induction l as [|x l IH]; simpl; [exact I|].
  apply insert_desc_newestFirst, IH.
Qed.

(** The first match in a newest-first list is a newest match. *)
Lemma find_newest (P : WeeklySnapshot -> bool) l r :
  newestFirst l -> List.find P l = Some r ->
  forall r', In r' l -> P r' = true -> SnapshotDate r' <= SnapshotDate r.
Proof.
  induction l as [|x l IH]; simpl; [discriminate|].
  intros [Hx Hl]. destruct (P x) eqn:Px.
  - intros [= <-] r' [<-|Hr'] _; [lia|auto].
  - intros Hf r' [<-|Hr'] Pr'; [congruence|eauto].
Qed.

(** The loop of [getPreviousWeekSnapshots] keeps, for each indicator,
    the percentage of the first record it meets. *)
Lemma mostRecentLoop_lookup records code :
  fst (mostRecentLoop records) !! code
  = SnapPercentage
      <$> List.find (fun r => (IndicatorID r =? code)%string) records.
Proof.
  unfold mostRecentLoop.
  enough (H : forall (snapshots : gmap string float)
                     (seen : gmap string bool),
             fst (fold_left
                    (fun '(snapshots, seen) record =>
                       if negb (default false (seen !! IndicatorID record))
                       then (<[IndicatorID record := SnapPercentage record]>
                               snapshots,
                             <[IndicatorID record := true]> seen)
                       else (snapshots, seen))
                    records (snapshots, seen)) !! code
             = if default false (seen !! code) then snapshots !! code
               else match List.find (fun r => (IndicatorID r =? code)%string)
                            records with
                    | Some r => Some (SnapPercentage r)
                    | None => snapshots !! code
                    end).
  { rewrite H, !lookup_empty. simpl.
    destruct (List.find _ records); reflexivity. }
  induction records as [|r records IH]; intros snapshots seen; simpl.
  - destruct (default false (seen !! code)); reflexivity.
  - destruct (default false (seen !! IndicatorID r)) eqn:Hseen; simpl;
      rewrite IH;
      destruct (String.eqb_spec (IndicatorID r) code) as [Heq|Hne].
    + subst code. rewrite Hseen. reflexivity.
    + reflexivity.
    + subst code. rewrite !lookup_insert_eq, Hseen. reflexivity.
    + rewrite !lookup_insert_ne by exact Hne. reflexivity.
Qed.

(** The direction of a change, read off [calculateWoWChange]. *)
Lemma calculateWoWChange_compared code current prev previous :
  prev !! code = Some previous -> feq previous 0 = false ->
  let change := (current - previous)%float in
  let result := calculateWoWChange code current prev in
  fst result = change /\
  (snd result = "up" <-> fgt change 0.5 = true) /\
  (snd result = "down" <-> flt change (-0.5) = true) /\
  (PrimFloat.leb (PrimFloat.abs change) 0.5 = true -> snd result = "neutral").
Proof.
  intros Hprev Hnz change. unfold calculateWoWChange.
  rewrite Hprev, Hnz. fold change. cbv zeta. simpl fst. simpl snd.
  assert (Hx : flt change (-0.5) = true -> fgt change 0.5 = false).
  { unfold flt, fgt. apply F64.lt_excludes_gt. vm_compute. reflexivity. }
  split; [reflexivity|].
  destruct (fgt change 0.5) eqn:Hup; [|destruct (flt change (-0.5)) eqn:Hdn].
  - repeat split; try discriminate; auto.
    + intros Hdn. specialize (Hx Hdn). discriminate.
    + intros Habs. apply F64.abs_le_bounds in Habs as [Habs _].
      unfold fgt in Hup. congruence.
  - repeat split; try discriminate; auto.
    intros Habs. apply F64.abs_le_bounds in Habs as [_ Habs].
    unfold flt in Hdn.
    change (PrimFloat.opp 0.5) with (-0.5)%float in Habs. congruence.
  - repeat split; try discriminate; auto.
Qed.

End WeekOverWeek.

Section WeekOverWeekFromStore.
Context {platform : Platform}.

Lemma next_fault_rows db :
  weekly_snapshots (snd (next_fault db)) = weekly_snapshots db.
Proof. unfold next_fault. destruct (faults db); reflexivity. Qed.

(** What [getPreviousWeekSnapshots] holds for an indicator when the
    query succeeds: nothing if the month has no snapshot of it, else the
    percentage of a newest one. *)
Lemma getPreviousWeekSnapshots_latest db month year code :
  fst (next_fault db) = None ->
  let prevSnapshots := fst (getPreviousWeekSnapshots month year db) in
  let stored := snapshotsOf code month year db in
  (stored = [] -> prevSnapshots !! code = None) /\
  (stored <> [] ->
   exists latest,
     In latest stored /\
     (forall r, In r stored -> SnapshotDate r <= SnapshotDate latest) /\
     prevSnapshots !! code = Some (SnapPercentage latest)).
Proof.
  intros Hok. unfold getPreviousWeekSnapshots, FindOrdered, snapshotsOf.
  pose proof (next_fault_rows db) as Hrows.
  destruct (next_fault db) as [fault db']. simpl in Hok, Hrows. subst fault.
  rewrite Hrows. simpl fst.
  set (inMonth := List.filter (sameMonthYear month year) (weekly_snapshots db)).
  set (stored := List.filter _ (weekly_snapshots db)).
  rewrite mostRecentLoop_lookup.
  assert (Hin : forall r,
             In r stored
             <-> In r (order_snapshot_date_desc inMonth)
                 /\ (IndicatorID r =? code)%string = true).
  { intros r. rewrite order_In. unfold inMonth, stored. rewrite !filter_In.
    rewrite andb_true_iff. tauto. }
  destruct (List.find _ (order_snapshot_date_desc inMonth)) as [latest|] eqn:Hf.
  - split.
    + intros Hnil. apply find_some in Hf.
      apply Hin in Hf. rewrite Hnil in Hf. destruct Hf.
    + intros _. exists latest. split; [|split; [|reflexivity]].
      * apply Hin. apply find_some in Hf. exact Hf.
      * intros r Hr. apply Hin in Hr as [Hr Hc].
        exact (find_newest _ _ _ (order_newestFirst inMonth) Hf r Hr Hc).
  - split; [reflexivity|].
    intros Hne. destruct stored as [|r l]; [congruence|].
    assert (Hr : In r (r :: l)) by (left; reflexivity).
    apply Hin in Hr as [Hr Hc].
    pose proof (find_none _ _ Hf r Hr) as Hn. simpl in Hn. congruence.
Qed.

(** Claim C8.  With the stored snapshots of the metric's month read
    successfully: if the month holds no snapshot of the metric, or the
    newest one has percentage 0, the change is 0 and the direction
    neutral; otherwise the change is the current percentage minus that
    of the newest snapshot, the direction is up iff change > 0.5, down
    iff change < -0.5, and neutral whenever |change| <= 0.5. *)
Theorem wow_change_from_latest_snapshot :
  forall (db : store) (month year : Z) (code : string) (current : float),
    fst (next_fault db) = None ->
    let prevSnapshots := fst (getPreviousWeekSnapshots month year db) in
    let result := calculateWoWChange code current prevSnapshots in
    let stored := snapshotsOf code month year db in
    (stored = [] -> result = (0%float, "neutral")) /\
    (stored <> [] ->
     exists latest,
       In latest stored /\
       (forall r, In r stored -> SnapshotDate r <= SnapshotDate latest) /\
       (feq (SnapPercentage latest) 0 = true ->
        result = (0%float, "neutral")) /\
       (feq (SnapPercentage latest) 0 = false ->
        let change := (current - SnapPercentage latest)%float in
        fst result = change /\
        (snd result = "up" <-> fgt change 0.5 = true) /\
        (snd result = "down" <-> flt change (-0.5) = true) /\
        (PrimFloat.leb (PrimFloat.abs change) 0.5 = true ->
         snd result = "neutral"))).
Proof.
  intros db month year code current Hok prevSnapshots result stored.
  destruct (getPreviousWeekSnapshots_latest db month year code Hok)
    as [Hnone Hsome].
  fold prevSnapshots stored in Hnone, Hsome.
  split.
  - intros Hnil. unfold result, calculateWoWChange.
    rewrite (Hnone Hnil). reflexivity.
  - intros Hne. destruct (Hsome Hne) as (latest & Hin & Hmax & Hprev).
    exists latest. split; [exact Hin|]. split; [exact Hmax|]. split.
    + intros Hz. unfold result, calculateWoWChange.
      rewrite Hprev, Hz. reflexivity.
    + intros Hnz.
      exact (calculateWoWChange_compared code current prevSnapshots
               (SnapPercentage latest) Hprev Hnz).
Qed.

End WeekOverWeekFromStore.

(** ** The snapshot store *)

Section SnapshotStoreFaults.
Import Samples.

(** Claim C6 as stated fails where a statement of the second save
    fails.  When its delete fails, the error is only logged: the save
    inserts B and reports success, and the row of A stays next to the
    row of B under the key - a union.  When one of its inserts fails,
    the save returns the error with the rows inserted before left in
    place: a part of B. *)
Lemma SaveSnapshot_faults_break_replacement :
  (let db := {| weekly_snapshots := [];
                faults := [None; None; Some "connection lost"] |} in
   let db1 := snd (SaveSnapshot 10 [response "KPI-01" 88] 1 2025 1 db) in
   let second := SaveSnapshot 20 [response "KPI-05" 75] 1 2025 1 db1 in
   fst second = Ok tt /\
   List.filter (sameWeek 1 2025 1) (weekly_snapshots (snd second))
   = [snapshotOf 10 1 2025 1 (response "KPI-01" 88);
      snapshotOf 20 1 2025 1 (response "KPI-05" 75)]) /\
  (let db := {| weekly_snapshots := [];
                faults := [None; None; None; None;
                           Some "connection lost"] |} in
   let db1 := snd (SaveSnapshot 10 [response "KPI-01" 88] 1 2025 1 db) in
   let second :=
     SaveSnapshot 20 [response "KPI-05" 75; response "KPI-09" 60]
       1 2025 1 db1 in
   fst second = Err "connection lost" /\
   List.filter (sameWeek 1 2025 1) (weekly_snapshots (snd second))
   = [snapshotOf 20 1 2025 1 (response "KPI-05" 75)]).
Proof. repeat split; vm_compute; reflexivity. Qed.

End SnapshotStoreFaults.

Section SnapshotStore.
Context {platform : Platform}.

Lemma next_fault_succeeds n db :
  succeeds (S n) db ->
  next_fault db
  = (None, {| weekly_snapshots := weekly_snapshots db;
              faults := tail (faults db) |}).
Proof.
  unfold succeeds, next_fault. destruct db as [rows [|f fs]]; simpl.
  - reflexivity.
  - intros H. inversion H; subst. reflexivity.
Qed.

Lemma succeeds_tail n rows db :
  succeeds (S n) db ->
  succeeds n {| weekly_snapshots := rows; faults := tail (faults db) |}.
Proof.
  unfold succeeds. destruct db as [rows0 [|f fs]]; simpl.
  - intros _. destruct n; constructor.
  - intros H. inversion H; subst. assumption.
Qed.

Lemma createAll_succeeds rows db :
  succeeds (length rows) db ->
  fst (createAll rows db) = Ok tt /\
  weekly_snapshots (snd (createAll rows db)) = weekly_snapshots db ++ rows.
Proof.
  revert db. induction rows as [|row rows IH]; intros db Hok; simpl.
  - rewrite app_nil_r. auto.
  - unfold Create. rewrite (next_fault_succeeds _ _ Hok).
    match goal with |- context [createAll rows ?d] =>
      destruct (IH d) as [IH1 IH2]
    end.
    { apply (succeeds_tail _ _ db Hok). }
    rewrite IH1, IH2. simpl. rewrite <- app_assoc. auto.
Qed.

Lemma filter_sameWeek_snapshotOf date month year week indicators :
  let rows := map (snapshotOf date month year week) indicators in
  List.filter (sameWeek month year week) rows = rows /\
  List.filter (fun r => negb (sameWeek month year week r)) rows = [].
Proof.
  induction indicators as [|i l IH]; simpl; [auto|].
  destruct IH as [IH1 IH2].
  assert (Hk : sameWeek month year week (snapshotOf date month year week i)
               = true).
  { unfold sameWeek. simpl. rewrite !Z.eqb_refl. reflexivity. }
  rewrite Hk. simpl. rewrite IH1, IH2. auto.
Qed.

Lemma filter_filter_negb {A} (P : A -> bool) l :
  List.filter P (List.filter (fun r => negb (P r)) l) = [] /\
  List.filter (fun r => negb (P r)) (List.filter (fun r => negb (P r)) l)
  = List.filter (fun r => negb (P r)) l.
Proof.
  induction l as [|x l [IH1 IH2]]; simpl; [auto|].
  destruct (P x) eqn:Px; simpl; rewrite ?Px; simpl; rewrite ?IH1, ?IH2; auto.
Qed.

(** Claim C6, amended.  Saving indicator set A and then indicator set B
    for the same (month, year, week), when the delete and the inserts of
    the second save succeed, leaves for that key exactly one row per
    indicator of B, in order, and no row written for A: the delete of
    the second save removes every row of the key before the inserts.
    Rows of other keys are untouched by the second save. *)
Theorem SaveSnapshot_last_write_wins :
  forall (db : store) (dateA dateB : Z) (A B : list IndicatorResponse)
         (month year week : Z),
    let db1 := snd (SaveSnapshot dateA A month year week db) in
    let db2 := snd (SaveSnapshot dateB B month year week db1) in
    succeeds (S (length B)) db1 ->
    fst (SaveSnapshot dateB B month year week db1) = Ok tt /\
    List.filter (sameWeek month year week) (weekly_snapshots db2)
    = map (snapshotOf dateB month year week) B /\
    (dateA <> dateB ->
     forall a, In a A ->
       ~ In (snapshotOf dateA month year week a) (weekly_snapshots db2)) /\
    List.filter (fun r => negb (sameWeek month year week r))
      (weekly_snapshots db2)
    = List.filter (fun r => negb (sameWeek month year week r))
        (weekly_snapshots db1).
Proof.
  intros db dateA dateB A B month year week db1 db2 Hok.
  assert (Hrows :
    fst (SaveSnapshot dateB B month year week db1) = Ok tt /\
    weekly_snapshots db2
    = List.filter (fun r => negb (sameWeek month year week r))
        (weekly_snapshots db1)
      ++ map (snapshotOf dateB month year week) B).
  { unfold db2, SaveSnapshot, Delete.
    rewrite (next_fault_succeeds _ _ Hok).
    match goal with |- context [createAll ?rows ?d] =>
      destruct (createAll_succeeds rows d) as [H1 H2]
    end.
    { rewrite length_map. apply (succeeds_tail _ _ db1 Hok). }
    rewrite H1, H2. auto. }
  destruct Hrows as [Hres Hrows].
  destruct (filter_sameWeek_snapshotOf dateB month year week B) as [HB1 HB2].
  destruct (filter_filter_negb (sameWeek month year week)
              (weekly_snapshots db1)) as [HF1 HF2].
  simpl in HB1, HB2.
  assert (Hkey : List.filter (sameWeek month year week) (weekly_snapshots db2)
                 = map (snapshotOf dateB month year week) B).
  { rewrite Hrows, List.filter_app, HF1, HB1. reflexivity. }
  split; [exact Hres|]. split; [exact Hkey|]. split.
  - intros Hdate a Ha Hin.
    assert (Hk : In (snapshotOf dateA month year week a)
                   (List.filter (sameWeek month year week)
                      (weekly_snapshots db2))).
    { apply filter_In. split; [exact Hin|].
      unfold sameWeek. simpl. rewrite !Z.eqb_refl. reflexivity. }
    rewrite Hkey in Hk. apply in_map_iff in Hk as (b & Hb & _).
    apply (f_equal SnapshotDate) in Hb. simpl in Hb. congruence.
  - rewrite Hrows, List.filter_app, HF2, HB2, app_nil_r. reflexivity.
Qed.

(** The delete of [SaveSnapshot] is not checked: when it fails and the
    inserts succeed, the save still reports success and the old rows of
    the week stay next to the new ones. *)
Remark SaveSnapshot_failed_delete_keeps_rows :
  forall (db : store) (msg : string) (fs : list (option string))
         (date : Z) (B : list IndicatorResponse) (month year week : Z),
    faults db = Some msg :: fs ->
    succeeds (length B) {| weekly_snapshots := weekly_snapshots db;
                           faults := fs |} ->
    fst (SaveSnapshot date B month year week db) = Ok tt /\
    weekly_snapshots (snd (SaveSnapshot date B month year week db))
    = weekly_snapshots db ++ map (snapshotOf date month year week) B.
Proof.
  intros db msg fs date B month year week Hf Hok.
  unfold SaveSnapshot, Delete, next_fault. rewrite Hf.
  apply (createAll_succeeds (map (snapshotOf date month year week) B)
           {| weekly_snapshots := weekly_snapshots db; faults := fs |}).
  rewrite length_map. exact Hok.
Qed.

End SnapshotStore.

(** ** Layout discovery: failure cases *)

Section DiscoveryWithoutLabels.
Import Samples.

(** Claim C4 as stated fails here: the header row has cells, the read
    of column C returns no rows, and discovery returns a layout - with an
    empty label map - instead of an error. *)
Lemma DiscoverLayout_no_label_rows_is_not_an_error :
  let srv : service :=
    fun _ rangeStr =>
      if (rangeStr =? "KPI!1:1")%string
      then Ok [[CString "Leading Indicators"; CString "January Target"]]
      else Ok [] in
  srv "sheet-id" "KPI!C:C" = Ok [] /\
  exists layout,
    DiscoverLayout 0 srv "sheet-id" "KPI" = Ok layout /\
    KPIRows layout = ∅.
Proof.
  intros srv. split; [reflexivity|].
  eexists. split; [vm_compute; reflexivity|]. reflexivity.
Qed.

End DiscoveryWithoutLabels.

Section DiscoveryFailures.
Context {platform : Platform}.

(** Claim C4, amended.  Discovery fails, with the error of the column
    discovery passed on, when the read of the header row returns no
    cells (no row, or a first row without cells).  When the header row
    has cells and the read of the label column returns no rows at all,
    discovery succeeds with the columns of the header and an empty label
    map. *)
Theorem DiscoverLayout_empty_reads :
  forall (now : Z) (srv : service) (spreadsheetID sheetName : string),
    let headerRead := srv spreadsheetID (formatSheetName sheetName +:+ "!1:1") in
    let labelRead := srv spreadsheetID (formatSheetName sheetName +:+ "!C:C") in
    (headerRead = Ok [] \/ (exists rest, headerRead = Ok ([] :: rest)) ->
     DiscoverLayout now srv spreadsheetID sheetName
     = Err "column discovery failed: header row is empty") /\
    (forall cell cells rest,
       headerRead = Ok ((cell :: cells) :: rest) -> labelRead = Ok [] ->
       DiscoverLayout now srv spreadsheetID sheetName
       = Ok {| MonthColumns := columnsLoop 0 (cell :: cells) ∅;
               KPIRows := ∅;
               LastRefresh := now |}).
Proof.
  intros now srv spreadsheetID sheetName headerRead labelRead. split.
  - intros [H | [rest H]]; unfold DiscoverLayout, discoverColumns;
      fold headerRead; rewrite H; reflexivity.
  - intros cell cells rest Hh Hl.
    unfold DiscoverLayout, discoverColumns, discoverRows.
    fold headerRead labelRead. rewrite Hh, Hl. reflexivity.
Qed.

End DiscoveryFailures.

(** ** Row resolution *)

Section RowResolution.
Context {platform : Platform}.

Lemma wrap64_small z : min_int <= z <= max_int -> wrap64 z = z.
Proof.
  unfold wrap64, min_int, max_int. intros H.
  rewrite Z.mod_small by lia. lia.
Qed.



Lemma buildRanges_active layout sheetName lastColLetter indicators :
  snd (buildRanges layout sheetName lastColLetter indicators)
  = List.filter
      (fun indicator =>
         IsActive indicator && snd (getIndicatorRow layout indicator))
      indicators.
Proof.
  induction indicators as [|indicator l IH]; simpl; [reflexivity|].
  destruct (buildRanges layout sheetName lastColLetter l) as [ranges active].
  simpl in IH. destruct (IsActive indicator); simpl; [|exact IH].
  destruct (getIndicatorRow layout indicator) as [row [|]]; simpl;
    [f_equal|]; exact IH.
Qed.

End RowResolution.

Section RowResolutionOutsideThePriority.
Import Samples.


End RowResolutionOutsideThePriority.

Section RowResolutionPriority.
Context {platform : Platform}.


End RowResolutionPriority.

(** ** Header matching does not depend on the iteration order *)

Section MonthTable.
Context {platform : Platform}.

Lemma find_unique_permutation {A} (P : A -> bool) (l l' : list A) :
  Permutation l l' ->
  (forall x y, In x l -> In y l -> P x = true -> P y = true -> x = y) ->
  List.find P l = List.find P l'.
Proof.
  induction 1 as [|x l l' Hperm IH|x y l|l l' l'' H1 IH1 H2 IH2];
    intros Huniq; simpl.
  - reflexivity.
  - destruct (P x); [reflexivity|]. apply IH.
    intros a b Ha Hb. apply Huniq; right; assumption.
  - destruct (P x) eqn:Px, (P y) eqn:Py; try reflexivity.
    f_equal. apply Huniq; simpl; auto.
  - rewrite IH1 by exact Huniq. apply IH2.
    intros a b Ha Hb.
    apply Huniq;
      [exact (Permutation_in a (Permutation_sym H1) Ha)
      |exact (Permutation_in b (Permutation_sym H1) Hb)].
Qed.

(** At most one month name completes to a given header, so whichever
    order Go ranges over [nameToMonth] in, the month found is the same. *)
Lemma rangeMonth_any_order (table : list (string * Z)) (lower suffix : string) :
  Permutation nameToMonth table ->
  snd <$> List.find (fun '(name, _) => (lower =? name +:+ suffix)%string) table
  = rangeMonth lower suffix.
Proof.
  intros Hperm. unfold rangeMonth. f_equal. symmetry.
  apply find_unique_permutation; [exact Hperm|].
  intros [n1 m1] [n2 m2] H1 H2 E1 E2.
  apply String.eqb_eq in E1, E2. rewrite E1 in E2. clear E1 Hperm.
  unfold nameToMonth in H1, H2. simpl in H1, H2.
  repeat (destruct H1 as [H1|H1]; [injection H1 as <- <-|]); try destruct H1;
    repeat (destruct H2 as [H2|H2]; [injection H2 as <- <-|]); try destruct H2;
    first [reflexivity | exfalso; cbv in E2; congruence].
Qed.

End MonthTable.

(** ** Column discovery *)

Section ColumnDiscovery.
Context {platform : Platform}.

Lemma setEntry_slot colType colIdx entry :
  setEntry colType colIdx entry
  = match slot colType with
    | Some k => <[k := colIdx]> entry
    | None => entry
    end.
Proof.
  unfold setEntry, slot.
  repeat match goal with
         | |- context [if ?b then _ else _] => destruct b
         end; reflexivity.
Qed.

Lemma setEntry_length colType colIdx entry :
  length (setEntry colType colIdx entry) = length entry.
Proof.
  rewrite setEntry_slot. destruct (slot colType); [apply length_insert|auto].
Qed.

(** Distinct column types never share a slot. *)
Lemma slot_inj t1 t2 k :
  slot t1 = Some k -> slot t2 = Some k -> t1 = t2.
Proof.
  unfold slot.
  destruct (String.eqb_spec t1 "target"), (String.eqb_spec t2 "target");
    destruct (String.eqb_spec t1 "lagging"), (String.eqb_spec t2 "lagging");
    destruct (String.eqb_spec t1 "percent"), (String.eqb_spec t2 "percent");
    destruct (String.eqb_spec t1 "perf"), (String.eqb_spec t2 "perf");
    congruence.
Qed.

Lemma slot_lt colType k : slot colType = Some k -> (k < 4)%nat.
Proof.
  unfold slot.
  repeat match goal with
         | |- context [if ?b then _ else _] => destruct b
         end; intros [= <-]; lia.
Qed.

Lemma headerHit_cons c cells month colType colIdx :
  headerHit (c :: cells) month colType colIdx <->
  (colIdx = 0%nat /\ month <> 0 /\
   exists headerText,
     c = CString headerText /\
     matchMonthFromHeader headerText = (month, colType)) \/
  (exists colIdx', colIdx = S colIdx' /\
                   headerHit cells month colType colIdx').
Proof.
  unfold headerHit. destruct colIdx as [|j]; simpl; split.
  - intros (h & [= ->] & Hm & Hz). left. eauto.
  - intros [(_ & Hz & h & -> & Hm)|(j & Hj & _)]; [eauto|discriminate].
  - intros H. right. eauto.
  - intros [(Hj & _)|(j' & [= <-] & H)]; [discriminate|exact H].
Qed.

Lemma headerCell_dom colIdx c result month :
  is_Some (headerCell colIdx c result !! month) <->
  is_Some (result !! month) \/
  exists colType, headerHit [c] month colType 0%nat.
Proof.
  unfold headerHit, headerCell. simpl.
  destruct c as [h| |].
  - destruct (matchMonthFromHeader h) as [m t] eqn:Hm.
    destruct (Z.eqb_spec m 0) as [->|Hz].
    + split; [auto|]. intros [H|(t' & h' & [= <-] & Hm' & Hnz)]; [exact H|].
      rewrite Hm in Hm'. congruence.
    + rewrite lookup_insert. destruct (decide (m = month)) as [->|Hne].
      * split; [|eauto]. intros _. right. exists t, h. auto.
      * split; [auto|].
        intros [H|(t' & h' & [= <-] & Hm' & Hnz)]; [exact H|].
        rewrite Hm in Hm'. congruence.
  - split; [auto|]. intros [H|(t' & h' & [=] & _)]. exact H.
  - split; [auto|]. intros [H|(t' & h' & [=] & _)]. exact H.
Qed.

Lemma headerHit_somewhere c cells month :
  (exists colType i, headerHit (c :: cells) month colType i) <->
  (exists colType, headerHit [c] month colType 0%nat) \/
  (exists colType i, headerHit cells month colType i).
Proof.
  split.
  - intros (t & i & Hi). apply headerHit_cons in Hi
      as [(-> & Hz & h & -> & Hm)|(i' & -> & Hi')].
    + left. exists t, h. auto.
    + right. eauto.
  - intros [(t & h & [= ->] & Hm & Hz)|(t & i & Hi)].
    + exists t, 0%nat. exists h. auto.
    + exists t, (S i). apply headerHit_cons. right. eauto.
Qed.

Lemma columnsLoop_dom cells : forall colIdx result month,
  is_Some (columnsLoop colIdx cells result !! month) <->
  is_Some (result !! month) \/
  exists colType i, headerHit cells month colType i.
Proof.
  induction cells as [|c cells IH]; intros colIdx result month.
  - simpl. split; [auto|]. intros [H|(t & i & h & Hh & _)]; [exact H|].
    rewrite lookup_nil in Hh. discriminate.
  - simpl columnsLoop.
    rewrite IH, headerCell_dom, headerHit_somewhere. tauto.
Qed.

Lemma columnsLoop_length cells : forall colIdx result,
  (forall month entry, result !! month = Some entry -> length entry = 4%nat) ->
  forall month entry,
    columnsLoop colIdx cells result !! month = Some entry ->
    length entry = 4%nat.
Proof.
  induction cells as [|c cells IH]; intros colIdx result Hres; [exact Hres|].
  simpl columnsLoop. apply IH. unfold headerCell.
  destruct c as [h| |]; try exact Hres.
  destruct (matchMonthFromHeader h) as [m t].
  destruct (m =? 0); [exact Hres|].
  intros month entry. rewrite lookup_insert.
  destruct (decide (m = month)) as [->|Hne]; [|apply Hres].
  intros [= <-]. rewrite setEntry_length.
  destruct (result !! month) as [e|] eqn:E; simpl; [eauto|reflexivity].
Qed.

Lemma columnsLoop_unmatched_zero cells colType k month :
  slot colType = Some k ->
  forall colIdx result,
    (forall i, ~ headerHit cells month colType i) ->
    (forall entry, result !! month = Some entry -> entry !! k = Some 0) ->
    forall entry,
      columnsLoop colIdx cells result !! month = Some entry ->
      entry !! k = Some 0.
Proof.
  intros Hk.
  induction cells as [|c cells IH]; intros colIdx result Hno Hres;
    [exact Hres|].
  simpl columnsLoop. apply IH.
  { intros i Hi. apply (Hno (S i)). apply headerHit_cons. right. eauto. }
  unfold headerCell. destruct c as [h| |]; try exact Hres.
  destruct (matchMonthFromHeader h) as [m t] eqn:Hm.
  destruct (Z.eqb_spec m 0) as [->|Hz]; [exact Hres|].
  intros entry. rewrite lookup_insert.
  destruct (decide (m = month)) as [->|Hne]; [|apply Hres].
  intros [= <-]. rewrite setEntry_slot.
  assert (H0 : default zeroEntry (result !! month) !! k = Some 0).
  { destruct (result !! month) as [e|] eqn:E; simpl; [eauto|].
    pose proof (slot_lt _ _ Hk).
    destruct k as [|[|[|[|k]]]]; try reflexivity; lia. }
  destruct (slot t) as [k'|] eqn:Ht; [|exact H0].
  rewrite list_lookup_insert_ne; [exact H0|].
  intros <-. apply (Hno 0%nat). apply headerHit_cons. left.
  rewrite (slot_inj _ _ _ Hk Ht). eauto 8.
Qed.

End ColumnDiscovery.

Section ColumnDiscoveryLayout.
Context {platform : Platform}.

(** Claim C10.  In every month map that column discovery produces from
    a header row: a month is a key as soon as - in fact exactly when -
    one of its four header patterns matches some header cell; its entry
    has all four column positions; and every column type whose pattern
    no header cell matches holds index 0 there, the index of column A.
    A header row with "January Target" in column B alone yields the
    entry [1; 0; 0; 0] for January. *)
Theorem discoverColumns_partial_month :
  (forall (srv : service) (spreadsheetID sheetName : string)
          (monthColumns : gmap Z (list Z)),
      discoverColumns srv spreadsheetID sheetName = Ok monthColumns ->
      exists header rest,
        srv spreadsheetID (formatSheetName sheetName +:+ "!1:1")
        = Ok (header :: rest) /\
        (forall month,
            is_Some (monthColumns !! month) <->
            exists colType colIdx, headerHit header month colType colIdx) /\
        (forall month entry,
            monthColumns !! month = Some entry ->
            length entry = 4%nat /\
            forall colType k,
              slot colType = Some k ->
              (forall colIdx, ~ headerHit header month colType colIdx) ->
              entry !! k = Some 0)) /\
  columnsLoop 0 [CString "Leading Indicators"; CString "January Target"] ∅
  = {[ 1 := [1; 0; 0; 0] ]}.
Proof.
  split; [|vm_compute; reflexivity].
  intros srv spreadsheetID sheetName monthColumns.
  unfold discoverColumns.
  destruct (srv spreadsheetID _) as [[|[|c cells] rest]|err] eqn:Hread;
    try discriminate.
  intros Hok.
  assert (monthColumns = columnsLoop 0 (c :: cells) ∅) as ->
    by (symmetry; injection Hok; auto).
  clear Hok. exists (c :: cells), rest. split; [reflexivity|]. split.
  - intros month. rewrite (columnsLoop_dom (c :: cells) 0 ∅ month).
    rewrite lookup_empty.
    split; [intros [[? [=]]|H]; exact H | auto].
  - intros month entry Hentry. split.
    + eapply columnsLoop_length; [|exact Hentry].
      intros m e. rewrite lookup_empty. discriminate.
    + intros colType k Hk Hno.
      eapply (columnsLoop_unmatched_zero (c :: cells) colType k month Hk);
        [exact Hno| |exact Hentry].
      intros e. rewrite lookup_empty. discriminate.
Qed.

End ColumnDiscoveryLayout.

(** ** The layout cache under concurrent callers *)

Section SingleFlight.
Context {platform : Platform}.
Import LayoutCache.

Lemma move_same t p f : move t p f t = p.
Proof. unfold move. rewrite Nat.eqb_refl. reflexivity. Qed.

Lemma move_other t t' p f : t' <> t -> move t p f t' = f t'.
Proof.
  unfold move. intros H. destruct (Nat.eqb_spec t' t); [contradiction|auto].
Qed.

Local Ltac moved :=
  repeat match goal with
  | H : context [move ?t _ _ ?t'] |- _ =>
      destruct (Nat.eq_dec t' t) as [->|?];
      [rewrite move_same in H | rewrite move_other in H by assumption]
  | |- context [move ?t _ _ ?t'] =>
      destruct (Nat.eq_dec t' t) as [->|?];
      [rewrite move_same | rewrite move_other by assumption]
  end.

(** A stale cache stays stale as time passes. *)
Lemma stale_later st d :
  0 <= d -> fresh st = false ->
  fresh {| clock := clock st + d; layout := layout st;
           readers := readers st; writer := writer st;
           points := points st; discoveries := discoveries st;
           SpreadsheetID := SpreadsheetID st; SheetName := SheetName st |}
  = false.
Proof.
  unfold fresh. simpl. intros Hd. destruct (layout st) as [l|]; [|auto].
  rewrite !Z.ltb_ge. lia.
Qed.

Lemma initial_exclusive st : initial st -> exclusive st.
Proof.
  intros (_ & _ & _ & Hidle & _). repeat split.
  - intros t. rewrite Hidle. discriminate.
  - intros t1 t2. rewrite Hidle. discriminate.
  - intros t. rewrite Hidle. discriminate.
Qed.

(** The first two parts of [exclusive]: mutual exclusion of the write
    section is kept by every step. *)
Lemma step_write_section st st' :
  step st st' ->
  (forall t, in_write_section (points st t) = true -> writer st = true) ->
  (forall t1 t2,
      in_write_section (points st t1) = true ->
      in_write_section (points st t2) = true -> t1 = t2) ->
  (forall t, in_write_section (points st' t) = true -> writer st' = true) /\
  (forall t1 t2,
      in_write_section (points st' t1) = true ->
      in_write_section (points st' t2) = true -> t1 = t2).
Proof.
  intros Hstep Hw Hone.
  assert (Hout : forall t, writer st = false ->
                           in_write_section (points st t) = false).
  { intros t Hf. destruct (in_write_section (points st t)) eqn:E; auto.
    rewrite (Hw t E) in Hf. discriminate. }
  destruct Hstep; unfold at_point; split; simpl; intros; moved;
    simpl in *; try congruence; eauto;
    try match goal with
        | H : ?t1 <> ?t2 |- _ =>
            exfalso; apply H; apply Hone;
            solve [ assumption
                  | match goal with
                    | E : points _ _ = _ |- _ => rewrite E; reflexivity
                    end ]
        end;
    try match goal with
        | Hf : writer ?s = false,
          Hin : in_write_section (points ?s ?t) = true |- _ =>
            rewrite (Hout t Hf) in Hin; discriminate
        end;
    match goal with
    | E : points ?s ?t = _ |- writer ?s = true =>
        apply (Hw t); rewrite E; reflexivity
    end.
Qed.

(** The third part: whoever refreshes found the cache stale under the
    write lock, and nobody else can have changed it since. *)
Lemma step_refreshing_stale st st' :
  step st st' -> exclusive st ->
  forall t, refreshing (points st' t) = true -> fresh st' = false.
Proof.
  intros Hstep (Hw & Hone & Hstale).
  assert (Hsection : forall t, refreshing (points st t) = true ->
                               in_write_section (points st t) = true).
  { intros t. destruct (points st t); auto. }
  assert (Halone : forall t t' p,
             points st t = p -> in_write_section p = true ->
             t' <> t -> refreshing (points st t') = true -> False).
  { intros t t' p Hp Hin Hne Hr. apply Hne. apply Hone.
    - apply Hsection. exact Hr.
    - rewrite Hp. exact Hin. }
  destruct Hstep; unfold at_point; simpl; intros t' Hr; moved;
    simpl in *; try discriminate;
    try (apply (Hstale t'); assumption);
    try (apply stale_later; [assumption | apply (Hstale t'); assumption]);
    try assumption;
    try match goal with
        | E : points ?s ?t = ?p |- _ =>
            apply (Hstale t); rewrite E; reflexivity
        end;
    try reflexivity;
    exfalso;
    match goal with
    | E : points st ?t = ?p, Hne : t' <> ?t |- _ =>
        apply (Halone t t' p E); [reflexivity | exact Hne | exact Hr]
    end.
Qed.

Lemma step_exclusive st st' : step st st' -> exclusive st -> exclusive st'.
Proof.
  intros Hstep Hex. pose proof Hex as (Hw & Hone & Hstale).
  destruct (step_write_section st st' Hstep Hw Hone) as [Hw' Hone'].
  split; [exact Hw'|]. split; [exact Hone'|].
  exact (step_refreshing_stale st st' Hstep Hex).
Qed.

Lemma steps_exclusive st0 st :
  initial st0 -> rtc step st0 st -> exclusive st.
Proof.
  intros Hinit Hrun. apply initial_exclusive in Hinit.
  induction Hrun as [|st0 mid st Hstep _ IH]; [assumption|].
  apply IH. exact (step_exclusive st0 mid Hstep Hinit).
Qed.

Lemma initial_held st : initial st -> held st.
Proof.
  intros (_ & _ & Hw & Hidle & _). split.
  - rewrite Hw. discriminate.
  - intros t. rewrite Hidle. discriminate.
Qed.

(** Whoever holds the write lock is in the write section. *)
Lemma step_holder st st' :
  step st st' ->
  (writer st = true -> exists t, in_write_section (points st t) = true) ->
  writer st' = true -> exists t, in_write_section (points st' t) = true.
Proof.
  intros Hstep Hheld.
  destruct Hstep; unfold at_point; cbn [writer points]; intros Hw';
    try discriminate Hw';
    try solve [ exact (Hheld Hw') ];
    try solve [ exists t; rewrite move_same; reflexivity ];
    destruct (Hheld Hw') as [t0 Ht0]; exists t0;
    match goal with
    | |- context [move ?t1 _ _ _] =>
        destruct (Nat.eq_dec t0 t1) as [->|Hne];
        [ exfalso;
          repeat match goal with
                 | E : _ \/ _ |- _ => destruct E
                 | E : exists _, _ |- _ => destruct E
                 end;
          match goal with
          | E : points st t1 = _ |- _ => rewrite E in Ht0; discriminate Ht0
          end
        | rewrite move_other by exact Hne; exact Ht0 ]
    end.
Qed.

(** A cache that [InvalidateLayout] cleared is empty while the lock is
    still held. *)
Lemma step_cleared st st' :
  step st st' -> exclusive st ->
  (forall t, points st t = InvReturning -> layout st = None) ->
  forall t, points st' t = InvReturning -> layout st' = None.
Proof.
  intros Hstep (_ & Hone & _) Hclear.
  destruct Hstep; unfold at_point; cbn [layout points]; intros t' Hp;
    moved; try discriminate; try reflexivity;
    try solve [ exact (Hclear t' Hp) ].
  exfalso.
  match goal with
  | Hne : t' <> ?t0, E : points st ?t0 = Discovering _ _ |- _ =>
      apply Hne; apply Hone; [rewrite Hp|rewrite E]; reflexivity
  end.
Qed.

Lemma steps_held st0 st :
  initial st0 -> rtc step st0 st -> exclusive st /\ held st.
Proof.
  intros Hinit Hrun.
  assert (H0 : exclusive st0 /\ held st0)
    by (split; [apply initial_exclusive|apply initial_held]; exact Hinit).
  clear Hinit.
  induction Hrun as [|st0 mid st Hstep _ IH]; [assumption|].
  apply IH. destruct H0 as [Hex [Hh Hc]].
  split; [exact (step_exclusive st0 mid Hstep Hex)|]. split.
  - exact (step_holder st0 mid Hstep Hh).
  - exact (step_cleared st0 mid Hstep Hex Hc).
Qed.

(** Inside the window no step starts a discovery or changes the cache. *)
Lemma fresh_step_window l n watched st st' :
  fresh_step st st' -> window l n watched st -> window l n watched st'.
Proof.
  intros [Hstep Hfresh'] (Hl & Hn & Hfresh & Hquiet & Hpts).
  assert (Hnot : forall t p, points st t = p -> refreshing p = false).
  { intros t p <-. apply Hquiet. }
  destruct Hstep; unfold at_point in *; simpl in *;
    try (rewrite Hfresh in *; discriminate);
    try match goal with
        | E : points ?s ?t = Creating |- _ =>
            specialize (Hnot t _ E); discriminate
        | E : points ?s ?t = Configuring _ |- _ =>
            specialize (Hnot t _ E); discriminate
        | E : points ?s ?t = Discovering _ _ |- _ =>
            specialize (Hnot t _ E); discriminate
        end;
    try (unfold fresh in Hfresh'; simpl in Hfresh'; discriminate);
    (split; [assumption|]; split; [assumption|]; split; [assumption|]);
    (split;
     [ intros t'; unfold quiet in Hquiet; simpl; try apply Hquiet;
       moved; try apply Hquiet; reflexivity
     | intros t' Ht'; simpl; try (apply Hpts; assumption);
       moved; try (apply Hpts; assumption); try exact I; try congruence;
       match goal with
       | E : points ?s ?t = _ |- _ =>
           specialize (Hpts t Ht'); rewrite E in Hpts; congruence
       end ]).
Qed.

Lemma fresh_steps_window l n watched st st' :
  rtc fresh_step st st' -> window l n watched st -> window l n watched st'.
Proof.
  induction 1 as [|st mid st' Hstep _ IH]; [auto|].
  intros Hw. apply IH. exact (fresh_step_window l n watched st mid Hstep Hw).
Qed.

(** A call only gets to [CreateSheetsClient] from the second check, and
    a discovery only starts from there, with the configuration read on
    the way. *)
Lemma step_into_refresh st st' t :
  step st st' ->
  (points st' t = Creating -> points st t <> Creating ->
   points st t = WriteChecking /\ fresh st = false) /\
  (forall spreadsheetID sheetName,
      points st' t = Discovering spreadsheetID sheetName ->
      points st t <> Discovering spreadsheetID sheetName ->
      points st t = Configuring spreadsheetID /\
      sheetName = SheetName st /\
      discoveries st' = S (discoveries st)).
Proof.
  intros Hstep.
  destruct Hstep; unfold at_point; simpl; split; intros;
    moved; try congruence; auto.
  match goal with
  | H : Discovering _ _ = Discovering _ _ |- _ => injection H as <- <-
  end.
  auto.
Qed.

(** A step that leaves clock and cache alone leaves the cache as fresh
    as it was. *)
Lemma fresh_unchanged st st' :
  layout st' = layout st -> clock st' = clock st -> fresh st' = fresh st.
Proof. unfold fresh. intros -> ->. reflexivity. Qed.

(** With the lock free and the cache fresh, a caller that has entered
    [GetLayout] can take the read lock and return the cached layout. *)
Lemma reader_returns st t l :
  writer st = false -> fresh st = true -> layout st = Some l ->
  points st t = Enter ->
  exists st',
    rtc fresh_step st st' /\ points st' t = Done (Ok l) /\
    discoveries st' = discoveries st /\ layout st' = Some l.
Proof.
  intros Hw Hfresh Hl Hp.
  set (st1 := {| clock := clock st; layout := layout st;
                 readers := S (readers st); writer := writer st;
                 points := move t ReadChecking (points st);
                 discoveries := discoveries st;
                 SpreadsheetID := SpreadsheetID st;
                 SheetName := SheetName st |}).
  set (st2 := at_point st1 t (ReadReturning l)).
  set (st3 := {| clock := clock st2; layout := layout st2;
                 readers := pred (readers st2); writer := writer st2;
                 points := move t (Done (Ok l)) (points st2);
                 discoveries := discoveries st2;
                 SpreadsheetID := SpreadsheetID st2;
                 SheetName := SheetName st2 |}).
  exists st3. split.
  - apply (rtc_l _ st st1);
      [split; [exact (step_rlock st t Hp Hw)|exact Hfresh]|].
    apply (rtc_l _ st1 st2).
    { split; [|exact Hfresh].
      apply (step_read_fresh st1 t l);
        [apply move_same|exact Hfresh|exact Hl]. }
    apply (rtc_l _ st2 st3); [|apply rtc_refl].
    split; [|exact Hfresh].
    apply (step_read_return st2 t l). apply move_same.
  - split; [apply move_same|]. split; [reflexivity|exact Hl].
Qed.

(** With the cache fresh, whoever holds the write lock - not being about
    to clear the cache - can release it, leaving cache, clock and the
    other goroutines as they are. *)
Lemma writer_leaves st t0 l :
  exclusive st -> held st -> fresh st = true -> layout st = Some l ->
  in_write_section (points st t0) = true -> points st t0 <> InvHeld ->
  exists st',
    rtc fresh_step st st' /\ writer st' = false /\
    (forall t, t <> t0 -> points st' t = points st t) /\
    layout st' = layout st /\ clock st' = clock st /\
    discoveries st' = discoveries st.
Proof.
  intros (_ & _ & Hstale) (_ & Hclear) Hfresh Hl Hin Hinv.
  assert (Hreturn : forall st1 r,
            points st1 t0 = WriteReturning r -> fresh st1 = true ->
            exists st',
              rtc fresh_step st1 st' /\ writer st' = false /\
              (forall t, t <> t0 -> points st' t = points st1 t) /\
              layout st' = layout st1 /\ clock st' = clock st1 /\
              discoveries st' = discoveries st1).
  { intros st1 r Hp Hf. eexists. split.
    - eapply rtc_l; [|apply rtc_refl].
      split; [exact (step_write_return st1 t0 r Hp)|exact Hf].
    - cbn [writer points layout clock discoveries].
      split; [reflexivity|]. split; [|auto].
      intros t Hne. apply move_other. exact Hne. }
  destruct (points st t0) eqn:Hp; try discriminate Hin.
  - (* at the second check: the cache is fresh *)
    destruct (Hreturn (at_point st t0 (WriteReturning (Ok l))) (Ok l))
      as (st' & Hrun & Hw & Hpts & Hl' & Hc & Hd);
      [apply move_same|exact Hfresh|].
    exists st'. split.
    + eapply rtc_l; [|exact Hrun].
      split; [exact (step_write_fresh st t0 l Hp Hfresh Hl)|exact Hfresh].
    + split; [exact Hw|]. split; [|auto].
      intros t Hne. rewrite (Hpts t Hne). apply move_other. exact Hne.
  - rewrite (Hstale t0) in Hfresh; [discriminate|rewrite Hp; reflexivity].
  - rewrite (Hstale t0) in Hfresh; [discriminate|rewrite Hp; reflexivity].
  - rewrite (Hstale t0) in Hfresh; [discriminate|rewrite Hp; reflexivity].
  - exact (Hreturn st r Hp Hfresh).
  - contradiction.
  - rewrite (Hclear t0 Hp) in Hl. discriminate.
Qed.

(** Claim C5.  In every state the service can reach from its creation -
    whatever the goroutines and the settings handler did - at most one
    goroutine has a discovery in flight, and it holds the write lock; a
    call goes on to refresh only from the freshness check it repeats
    under the write lock, having found the cache stale or absent there,
    and every discovery call starts from there; and while the cache is
    fresh nobody is refreshing.  From there on, as long as the cached
    layout stays fresh, whatever the number of goroutines calling
    GetLayout and however their steps interleave, no discovery call is
    made, the cache is unchanged, and every call that had not fixed its
    result before and returns, returns the cached layout.  And a call
    does return: a goroutine that has entered GetLayout while the cache
    is fresh and no InvalidateLayout is about to clear it can run to its
    return of the cached layout without the cache going stale or any
    discovery call being made. *)
Theorem GetLayout_single_flight :
  (forall st0 st,
      initial st0 -> rtc step st0 st ->
      (forall t1 t2 id1 name1 id2 name2,
          points st t1 = Discovering id1 name1 ->
          points st t2 = Discovering id2 name2 ->
          t1 = t2) /\
      (forall t spreadsheetID sheetName,
          points st t = Discovering spreadsheetID sheetName ->
          writer st = true) /\
      (forall st' t,
          step st st' ->
          points st' t = Creating -> points st t <> Creating ->
          points st t = WriteChecking /\ fresh st = false /\
          writer st = true) /\
      (forall st' t spreadsheetID sheetName,
          step st st' ->
          points st' t = Discovering spreadsheetID sheetName ->
          points st t <> Discovering spreadsheetID sheetName ->
          points st t = Configuring spreadsheetID /\
          sheetName = SheetName st /\
          discoveries st' = S (discoveries st)) /\
      (fresh st = true -> quiet st)) /\
  (forall st st' l,
      quiet st -> fresh st = true -> layout st = Some l ->
      rtc fresh_step st st' ->
      discoveries st' = discoveries st /\
      layout st' = Some l /\
      quiet st' /\
      (forall t r,
          decided (points st t) = false ->
          points st' t = Done r -> r = Ok l)) /\
  (forall st0 st l t,
      initial st0 -> rtc step st0 st ->
      fresh st = true -> layout st = Some l ->
      points st t = Enter ->
      (forall t', points st t' <> InvHeld) ->
      exists st',
        rtc fresh_step st st' /\
        points st' t = Done (Ok l) /\
        discoveries st' = discoveries st /\
        layout st' = Some l).
Proof.
  split; [|split].
  - intros st0 st Hinit Hrun.
    destruct (steps_exclusive st0 st Hinit Hrun) as (Hw & Hone & Hstale).
    split; [|split; [|split; [|split]]].
    + intros t1 t2 id1 name1 id2 name2 H1 H2.
      apply Hone; [rewrite H1|rewrite H2]; reflexivity.
    + intros t spreadsheetID sheetName Ht. apply (Hw t). rewrite Ht.
      reflexivity.
    + intros st' t Hstep Hafter Hbefore.
      destruct (step_into_refresh st st' t Hstep) as [Hc _].
      destruct (Hc Hafter Hbefore) as [Hpt Hst].
      split; [exact Hpt|]. split; [exact Hst|].
      apply (Hw t). rewrite Hpt. reflexivity.
    + intros st' t spreadsheetID sheetName Hstep Hafter Hbefore.
      destruct (step_into_refresh st st' t Hstep) as [_ Hd].
      exact (Hd _ _ Hafter Hbefore).
    + intros Hfresh t.
      destruct (refreshing (points st t)) eqn:Hr; [|reflexivity].
      rewrite (Hstale t Hr) in Hfresh. discriminate.
  - intros st st' l Hquiet Hfresh Hl Hrun.
    assert (Hstart : window l (discoveries st)
                       (fun t => decided (points st t) = false) st).
    { repeat split; auto. intros t Ht. destruct (points st t); try exact I;
        discriminate. }
    pose proof (fresh_steps_window l (discoveries st) _ st st' Hrun Hstart)
      as (Hl' & Hn' & _ & Hquiet' & Hpts).
    split; [exact Hn'|]. split; [exact Hl'|]. split; [exact Hquiet'|].
    intros t r Hund Ht. specialize (Hpts t Hund). rewrite Ht in Hpts.
    exact Hpts.
  - intros st0 st l t Hinit Hrun Hfresh Hl Hp Hinv.
    destruct (steps_held st0 st Hinit Hrun) as [Hex Hheld].
    destruct (writer st) eqn:Hw.
    + destruct Hheld as [Hholder Hclear].
      destruct (Hholder Hw) as [t0 Ht0].
      assert (Hne : t <> t0).
      { intros ->. rewrite Hp in Ht0. discriminate. }
      destruct (writer_leaves st t0 l Hex (conj Hholder Hclear) Hfresh Hl
                  Ht0 (Hinv t0))
        as (st1 & Hrun1 & Hw1 & Hpts & Hl1 & Hc1 & Hd1).
      assert (Hfresh1 : fresh st1 = true).
      { rewrite (fresh_unchanged st st1 Hl1 Hc1). exact Hfresh. }
      destruct (reader_returns st1 t l Hw1 Hfresh1)
        as (st2 & Hrun2 & Hp2 & Hd2 & Hl2).
      { rewrite Hl1. exact Hl. }
      { rewrite (Hpts t Hne). exact Hp. }
      exists st2. split; [exact (rtc_trans st st1 st2 Hrun1 Hrun2)|].
      split; [exact Hp2|]. split; [congruence|exact Hl2].
    + exact (reader_returns st t l Hw Hfresh Hl Hp).
Qed.

End SingleFlight.

(** * Part III: the properties at the sample data *)

Section Instances.
Import Samples MoreSamples LayoutCache.

(** Claim C2 at a reading of -5 against a target of 10: -50. *)
Lemma percentage_capped_not_floored_sample :
  calculatedPercentage overdrawn = (-50)%float.
Proof.
  destruct (percentage_capped_not_floored 15 [overdrawn] ∅ 4 2025)
    as [_ Hk].
  destruct (Hk overdrawn) as (_ & _ & Hneg & _).
  rewrite Hneg; vm_compute; reflexivity.
Defined.

(** Claim C3 at target 100, actual 90, day 7 of April: the expectation
    23.333... is reported as 23.33, and the variance 285.714... as
    285.7, ten times the value being rounded to 2857. *)
Lemma calculateVariance_schedule_sample :
  let expected := (100 * (float64_of_int 7 / float64_of_int 30))%float in
  let raw := ((90 - expected) / expected * 100)%float in
  calculateVariance 7 100 90 false 4 2025
  = (23.33%float, 285.7%float, "ahead") /\
  fgt 285.7 5 = true /\
  (forall tenths,
      roundedHalfAway (raw * 10) tenths -> tenths = 2857%float) /\
  exists tenths,
    roundedHalfAway (raw * 10) tenths /\ 285.7%float = (tenths / 10)%float.
Proof.
  assert (Hrun : calculateVariance 7 100 90 false 4 2025
                 = (23.33%float, 285.7%float, "ahead"))
    by (vm_compute; reflexivity).
  split; [exact Hrun|].
  destruct calculateVariance_schedule as (Hall & Hunique & _).
  destruct (Hall 7 100%float 90%float false 4 2025 _ _ _ Hrun)
    as [_ Hsched].
  destruct Hsched as (_ & _ & Htenths & _ & Hahead & _);
    [vm_compute; reflexivity | vm_compute; reflexivity|].
  split; [apply Hahead; reflexivity|].
  split; [|exact Htenths].
  intros tenths Ht. apply (Hunique _ _ _ Ht).
  replace 2857%float
    with (Round ((90 - 100 * (float64_of_int 7 / float64_of_int 30))
                 / (100 * (float64_of_int 7 / float64_of_int 30))
                 * 100 * 10))
    by (vm_compute; reflexivity).
  apply Round_nearest.
Defined.

(** Claim C4 (amended) at a sheet whose header row has no cells. *)
Lemma DiscoverLayout_empty_reads_sample :
  DiscoverLayout 0 blankSheet "sheet-id" "KPI"
  = Err "column discovery failed: header row is empty".
Proof.
  destruct (DiscoverLayout_empty_reads 0 blankSheet "sheet-id" "KPI")
    as [Hempty _].
  apply Hempty. right. exists []. reflexivity.
Defined.

(** The run of the first goroutine, from the creation of the service to
    its discovery call and on to its return with the layout discovered. *)
Lemma sample_discovery_call : rtc step created discovering.
Proof.
  apply (rtc_l _ created entered);
    [apply (step_call created 0%nat); left; reflexivity|].
  apply (rtc_l _ entered readLocked);
    [apply (step_rlock entered 0%nat); reflexivity|].
  apply (rtc_l _ readLocked foundStale);
    [apply (step_read_stale readLocked 0%nat); reflexivity|].
  apply (rtc_l _ foundStale readUnlocked);
    [apply (step_runlock foundStale 0%nat); reflexivity|].
  apply (rtc_l _ readUnlocked writeLocked);
    [apply (step_lock readUnlocked 0%nat); reflexivity|].
  apply (rtc_l _ writeLocked stillStale);
    [apply (step_write_stale writeLocked 0%nat); reflexivity|].
  apply (rtc_l _ stillStale configuring);
    [apply (step_create_ok stillStale 0%nat); reflexivity|].
  apply (rtc_l _ configuring discovering);
    [apply (step_discover_call configuring 0%nat "sheet-id"); reflexivity|].
  apply rtc_refl.
Qed.

Lemma sample_refresh : rtc step created oneCalls.
Proof.
  apply (rtc_trans _ discovering); [exact sample_discovery_call|].
  apply (rtc_l _ discovering cached).
  { apply (step_discover_ok discovering 0%nat "sheet-id" "KPI" januarySheet
             januaryLayout); [reflexivity|vm_compute; reflexivity]. }
  apply (rtc_l _ cached released);
    [apply (step_write_return cached 0%nat (Ok januaryLayout)); reflexivity|].
  apply (rtc_l _ released oneCalls); [|apply rtc_refl].
  apply (step_call released 1%nat). left. reflexivity.
Qed.

(** Two goroutines read the fresh cache side by side. *)
Lemma sample_readers : rtc fresh_step released twoReturned.
Proof.
  apply (rtc_l _ released oneCalls).
  { split; [|vm_compute; reflexivity].
    apply (step_call released 1%nat). left. reflexivity. }
  apply (rtc_l _ oneCalls twoCall).
  { split; [|vm_compute; reflexivity].
    apply (step_call oneCalls 2%nat). left. reflexivity. }
  apply (rtc_l _ twoCall oneReads).
  { split; [|vm_compute; reflexivity].
    apply (step_rlock twoCall 1%nat); reflexivity. }
  apply (rtc_l _ oneReads twoRead).
  { split; [|vm_compute; reflexivity].
    apply (step_rlock oneReads 2%nat); reflexivity. }
  apply (rtc_l _ twoRead oneFixed).
  { split; [|vm_compute; reflexivity].
    apply (step_read_fresh twoRead 1%nat januaryLayout); reflexivity. }
  apply (rtc_l _ oneFixed twoFixed).
  { split; [|vm_compute; reflexivity].
    apply (step_read_fresh oneFixed 2%nat januaryLayout); reflexivity. }
  apply (rtc_l _ twoFixed oneReturned).
  { split; [|vm_compute; reflexivity].
    apply (step_read_return twoFixed 2%nat januaryLayout); reflexivity. }
  apply (rtc_l _ oneReturned twoReturned); [|apply rtc_refl].
  split; [|vm_compute; reflexivity].
  apply (step_read_return oneReturned 1%nat januaryLayout); reflexivity.
Qed.

(** Claim C5 at a run of three goroutines.  The first finds no layout
    and has the one discovery in flight under the write lock.  After its
    return the two others call GetLayout while the cache is fresh, hold
    the read lock together and return: no further discovery call is
    made, and what each returns is the cached layout.  And from the
    point where the second goroutine has entered, it can run to a
    return of the cached layout. *)
Lemma GetLayout_single_flight_sample :
  writer discovering = true /\
  discoveries twoReturned = 1%nat /\
  (exists r, points twoReturned 1 = Done r /\ r = Ok januaryLayout) /\
  (exists r, points twoReturned 2 = Done r /\ r = Ok januaryLayout) /\
  exists st',
    rtc fresh_step oneCalls st' /\
    points st' 1 = Done (Ok januaryLayout) /\
    discoveries st' = 1%nat.
Proof.
  destruct GetLayout_single_flight as (Hreach & Hwindow & Hreturns).
  split.
  { destruct (Hreach created discovering) as (_ & Hlock & _).
    - repeat split.
    - exact sample_discovery_call.
    - apply (Hlock 0%nat "sheet-id" "KPI"). reflexivity. }
  destruct (Hwindow released twoReturned januaryLayout)
    as (Hcalls & _ & _ & Hresults).
  { intros [|[|t]]; reflexivity. }
  { vm_compute. reflexivity. }
  { reflexivity. }
  { exact sample_readers. }
  split; [exact Hcalls|].
  split.
  { exists (Ok januaryLayout). split; [reflexivity|].
    apply (Hresults 1%nat); reflexivity. }
  split.
  { exists (Ok januaryLayout). split; [reflexivity|].
    apply (Hresults 2%nat); reflexivity. }
  destruct (Hreturns created oneCalls januaryLayout 1%nat)
    as (st' & Hrun & Hdone & Hcalls' & _).
  { repeat split. }
  { exact sample_refresh. }
  { vm_compute. reflexivity. }
  { reflexivity. }
  { reflexivity. }
  { intros [|[|t']]; discriminate. }
  exists st'. split; [exact Hrun|]. split; [exact Hdone|exact Hcalls'].
Defined.

(** Claim C6 at two saves of week 1 of January 2025. *)
Lemma SaveSnapshot_last_write_wins_sample :
  List.filter (sameWeek 1 2025 1)
    (weekly_snapshots
       (snd (SaveSnapshot 20 [response "KPI-05" 75] 1 2025 1
               (snd (SaveSnapshot 10
                       [response "KPI-01" 88; response "KPI-05" 70]
                       1 2025 1 emptyStore)))))
  = [snapshotOf 20 1 2025 1 (response "KPI-05" 75)].
Proof.
  destruct (SaveSnapshot_last_write_wins emptyStore 10 20
              [response "KPI-01" 88; response "KPI-05" 70]
              [response "KPI-05" 75] 1 2025 1) as (_ & Hkey & _).
  - vm_compute. constructor.
  - exact Hkey.
Defined.


(** Claim C8 at a store with two weeks of KPI-01: the newest,
    92 percent, is compared with the current 95. *)
Lemma wow_change_from_latest_snapshot_sample :
  exists latest,
    In latest (snapshotsOf "KPI-01" 1 2025 twoWeeks) /\
    SnapshotDate latest = 20 /\
    calculateWoWChange "KPI-01" 95
      (fst (getPreviousWeekSnapshots 1 2025 twoWeeks))
    = (3%float, "up").
Proof.
  destruct (wow_change_from_latest_snapshot twoWeeks 1 2025 "KPI-01" 95
              eq_refl) as [_ Hsome].
  destruct Hsome as (latest & Hin & Hmax & _).
  - vm_compute. discriminate.
  - exists latest. split; [exact Hin|]. split.
    + pose proof (Hmax (snapshotOf 20 1 2025 2 (response "KPI-01" 92))) as H20.
      assert (Hle : 20 <= SnapshotDate latest).
      { apply H20. vm_compute. right. left. reflexivity. }
      assert (Hge : SnapshotDate latest <= 20).
      { vm_compute in Hin. destruct Hin as [<-|[<-|[]]]; vm_compute;
          discriminate. }
      lia.
    + vm_compute. reflexivity.
Defined.

(** Claim C10 at a header row with two of January's four headers. *)
Lemma discoverColumns_partial_month_sample :
  exists header rest,
    januarySheet "sheet-id" (formatSheetName "KPI" +:+ "!1:1")
    = Ok (header :: rest) /\
    is_Some (columnsLoop 0 header ∅ !! 1).
Proof.
  destruct discoverColumns_partial_month as [Hall _].
  destruct (Hall januarySheet "sheet-id" "KPI"
              (columnsLoop 0 [CString "Leading Indicators";
                              CString "January Target"; CString "January"] ∅)
              eq_refl) as (header & rest & Hread & Hdom & _).
  exists header, rest. split; [exact Hread|].
  injection Hread as <- _. apply Hdom.
  exists "target", 1%nat, "January Target".
  split; [reflexivity|]. split; [vm_compute; reflexivity|discriminate].
Defined.

End Instances.

(** * Part IV: further properties of the services *)

Import SheetsRead DashboardMore Handlers SpecMore.

(** ** Column letters *)

Section ColumnLetters.
Context {platform : Platform}.

Lemma append_assoc_string (a b c : string) :
  (a +:+ b) +:+ c = a +:+ (b +:+ c).
Proof.
  induction a as [|x a IH]; [reflexivity|].
  change (String x ((a +:+ b) +:+ c) = String x (a +:+ (b +:+ c))).
  rewrite IH. reflexivity.
Qed.

Lemma indexToColLoop_acc rounds : forall index acc,
  indexToColLoop rounds index acc = indexToColLoop rounds index "" +:+ acc.
Proof.
  induction rounds as [|rounds IH]; intros index acc; simpl.
  - reflexivity.
  - destruct (index >=? 0); [|reflexivity].
    set (c := ascii_of_nat _).
    rewrite (IH _ (String c acc)), (IH _ (String c "")).
    rewrite append_assoc_string. reflexivity.
Qed.

Lemma colToIndexLoop_app s1 : forall s2 result,
  colToIndexLoop (s1 +:+ s2) result
  = colToIndexLoop s2 (colToIndexLoop s1 result).
Proof.
  induction s1 as [|c s1 IH]; intros s2 result; [reflexivity|].
  change (String c s1 +:+ s2) with (String c (s1 +:+ s2)).
  cbn [colToIndexLoop]. apply IH.
Qed.

(** The letter of a remainder. *)
Lemma letter_byte r :
  0 <= r < 26 -> byteOf (ascii_of_nat (65 + Z.to_nat r)) = 65 + r.
Proof.
  intros Hr. unfold byteOf. rewrite nat_ascii_embedding by lia. lia.
Qed.

(** What [colToIndex] accumulates on the letters of [index], with rounds
    to spare. *)
Lemma colToIndexLoop_indexToColLoop rounds : forall index,
  -1 <= index < max_int -> index < Z.of_nat rounds ->
  colToIndexLoop (indexToColLoop rounds index "") 0 = index + 1.
Proof.
  induction rounds as [|rounds IH]; intros index Hrange Hrounds;
    cbn [indexToColLoop].
  - cbn in *. lia.
  - destruct (Z.geb_spec index 0) as [Hpos|Hneg]; [|cbn; lia].
    rewrite indexToColLoop_acc, colToIndexLoop_app.
    pose proof (Z.quot_rem' index 26) as Hqr.
    pose proof (Z.rem_bound_pos index 26 ltac:(lia) ltac:(lia)) as Hr.
    assert (Hq : 0 <= Z.quot index 26 <= index).
    { split; [apply Z.quot_pos; lia|].
      rewrite Z.quot_div_nonneg by lia.
      apply Z.div_le_upper_bound; lia. }
    assert (Hq' : index = 0 \/ Z.quot index 26 < index).
    { destruct (Z.eq_dec index 0); [auto|right].
      rewrite Z.quot_div_nonneg by lia. apply Z.div_lt; lia. }
    rewrite IH by (unfold max_int in *; lia).
    cbn [colToIndexLoop]. rewrite letter_byte by lia.
    replace ((65 + Z.rem index 26 - 65 + 1) mod 256)
      with (Z.rem index 26 + 1) by (rewrite Z.mod_small; lia).
    replace (Z.quot index 26 - 1 + 1) with (Z.quot index 26) by lia.
    rewrite (wrap64_small (Z.quot index 26 * 26))
      by (unfold min_int, max_int in *; lia).
    rewrite wrap64_small by (unfold min_int, max_int in *; lia).
    lia.
Qed.

(** [colToIndex] undoes [indexToCol] on every column index. *)
Theorem colToIndex_indexToCol :
  forall index, 0 <= index < max_int -> colToIndex (indexToCol index) = index.
Proof.
  intros index Hrange. unfold colToIndex, indexToCol.
  rewrite colToIndexLoop_indexToColLoop by lia.
  rewrite wrap64_small by (unfold min_int, max_int in *; lia). lia.
Qed.

Lemma indexToColLoop_letters rounds : forall index acc c,
  In c (list_ascii_of_string (indexToColLoop rounds index acc)) ->
  In c (list_ascii_of_string acc) \/ 65 <= byteOf c <= 90.
Proof.
  induction rounds as [|rounds IH]; intros index acc c;
    cbn [indexToColLoop]; [auto|].
  destruct (Z.geb_spec index 0) as [Hpos|Hneg]; [|auto].
  intros Hin. apply IH in Hin as [Hin|Hin]; [|auto].
  cbn [list_ascii_of_string] in Hin. destruct Hin as [<-|Hin]; [|auto].
  right.
  pose proof (Z.rem_bound_pos index 26 ltac:(lia) ltac:(lia)) as Hr.
  rewrite letter_byte by lia. lia.
Qed.

(** For a column index [indexToCol] is a word of capital letters, and
    not the empty one; for a negative number it is empty. *)
Theorem indexToCol_capital_letters :
  forall index,
    (forall c, In c (list_ascii_of_string (indexToCol index)) ->
               65 <= byteOf c <= 90) /\
    (indexToCol index = "" <-> index < 0).
Proof.
  intros index. split.
  - intros c Hin. apply indexToColLoop_letters in Hin as [[]|H]. exact H.
  - unfold indexToCol. cbn [indexToColLoop].
    destruct (Z.geb_spec index 0) as [Hpos|Hneg].
    + rewrite indexToColLoop_acc. split; [|lia].
      destruct (indexToColLoop _ _ ""); discriminate.
    + split; [lia|reflexivity].
Qed.

End ColumnLetters.

(** ** Header matching *)

Section HeaderMatching.
Context {platform : Platform}.
Import DashboardMore.

Lemma nameToMonth_range name m :
  In (name, m) nameToMonth -> 1 <= m <= 12.
Proof.
  unfold nameToMonth. simpl.
  intros H. repeat (destruct H as [H|H]; [injection H as _ <-; lia|]).
  destruct H.
Qed.

Lemma lookupMonth_range key m : lookupMonth key = Some m -> 1 <= m <= 12.
Proof.
  unfold lookupMonth.
  destruct (List.find _ nameToMonth) as [[name m']|] eqn:Hf; [|discriminate].
  intros [= <-]. apply find_some in Hf as [Hin _].
  exact (nameToMonth_range name m' Hin).
Qed.

Lemma rangeMonth_range lower suffix m :
  rangeMonth lower suffix = Some m -> 1 <= m <= 12.
Proof.
  unfold rangeMonth.
  destruct (List.find _ nameToMonth) as [[name m']|] eqn:Hf; [|discriminate].
  intros [= <-]. apply find_some in Hf as [Hin _].
  exact (nameToMonth_range name m' Hin).
Qed.

(** A header either matches nothing - month 0 and no column type - or
    names a month of the year and one of the four column types. *)
Theorem matchMonthFromHeader_result :
  forall header,
    matchMonthFromHeader header = (0, "") \/
    exists month colType,
      matchMonthFromHeader header = (month, colType) /\
      1 <= month <= 12 /\
      (colType = "percent" \/ colType = "target" \/ colType = "lagging" \/
       colType = "perf").
Proof.
  intros header. unfold matchMonthFromHeader.
  set (lower := ToLower (TrimSpace header)).
  destruct (if HasPrefix lower "% " && HasSuffix lower " performance"
            then _ else None) as [m|] eqn:Hp.
  { right. exists m, "percent". split; [reflexivity|]. split; [|auto].
    destruct (HasPrefix lower "% " && HasSuffix lower " performance");
      [|discriminate].
    exact (lookupMonth_range _ _ Hp). }
  destruct (rangeMonth lower " target") as [m|] eqn:Ht.
  { right. exists m, "target". split; [reflexivity|]. split; [|auto].
    exact (rangeMonth_range _ _ _ Ht). }
  destruct (rangeMonth lower " lagging") as [m|] eqn:Hl.
  { right. exists m, "lagging". split; [reflexivity|]. split; [|auto].
    exact (rangeMonth_range _ _ _ Hl). }
  destruct (lookupMonth lower) as [m|] eqn:Hm.
  { right. exists m, "perf". split; [reflexivity|]. split; [|auto 6].
    exact (lookupMonth_range _ _ Hm). }
  left. reflexivity.
Qed.

(** The four header shapes of every month, written with the month names
    the dashboard displays, are recognised with their month and column
    type. *)
Theorem matchMonthFromHeader_month_names :
  forall month,
    1 <= month <= 12 ->
    matchMonthFromHeader (getMonthName month +:+ " Target") = (month, "target") /\
    matchMonthFromHeader (getMonthName month +:+ " Lagging")
    = (month, "lagging") /\
    matchMonthFromHeader ("% " +:+ getMonthName month +:+ " Performance")
    = (month, "percent") /\
    matchMonthFromHeader (getMonthName month) = (month, "perf").
Proof.
  intros month Hm.
  assert (Hcases : month = 1 \/ month = 2 \/ month = 3 \/ month = 4 \/
                   month = 5 \/ month = 6 \/ month = 7 \/ month = 8 \/
                   month = 9 \/ month = 10 \/ month = 11 \/ month = 12) by lia.
  repeat (destruct Hcases as [->|Hcases]); [..|subst month];
    repeat split; vm_compute; reflexivity.
Qed.

End HeaderMatching.

(** ** Normalising text: lower case and trimmed *)

Section Trimming.
Variable two : ascii -> ascii -> bool.
Variable three : ascii -> ascii -> ascii -> bool.
Hypothesis two_lower : forall c1 c2, two (lower c1) (lower c2) = two c1 c2.
Hypothesis three_lower :
  forall c1 c2 c3, three (lower c1) (lower c2) (lower c3) = three c1 c2 c3.

Lemma trimWith_id s : untrimmed two three s -> trimWith two three s = s.
Proof.
  destruct s as [|c1 [|c2 [|c3 s3]]]; simpl; auto.
  - intros [-> _]. reflexivity.
  - intros [-> [-> _]]. reflexivity.
  - intros [-> [-> ->]]. reflexivity.
Qed.

Lemma trimWith_shape (n : nat) : forall s,
  (String.length s <= n)%nat ->
  untrimmed two three (trimWith two three s) /\
  exists ws, s = ws +:+ trimWith two three s.
Proof.
  induction n as [|n IH]; intros s Hn.
  { destruct s; simpl in Hn; [|lia]. split; [exact I|]. exists "". reflexivity. }
  destruct s as [|c1 s1]; [split; [exact I|exists ""; reflexivity]|].
  cbn [trimWith]. destruct (Ascii.is_space c1) eqn:E1.
  { destruct (IH s1) as [Hu [ws Hws]]; [simpl in Hn; lia|].
    split; [exact Hu|]. exists (String c1 ws).
    change (String c1 ws +:+ ?t) with (String c1 (ws +:+ t)).
    rewrite <- Hws. reflexivity. }
  destruct s1 as [|c2 s2].
  { split; [simpl; auto|exists ""; reflexivity]. }
  destruct (two c1 c2) eqn:E2.
  { destruct (IH s2) as [Hu [ws Hws]]; [simpl in Hn; lia|].
    split; [exact Hu|]. exists (String c1 (String c2 ws)).
    change (String c1 (String c2 ws) +:+ ?t)
      with (String c1 (String c2 (ws +:+ t))).
    rewrite <- Hws. reflexivity. }
  destruct s2 as [|c3 s3].
  { split; [simpl; auto|exists ""; reflexivity]. }
  destruct (three c1 c2 c3) eqn:E3.
  { destruct (IH s3) as [Hu [ws Hws]]; [simpl in Hn; lia|].
    split; [exact Hu|]. exists (String c1 (String c2 (String c3 ws))).
    change (String c1 (String c2 (String c3 ws)) +:+ ?t)
      with (String c1 (String c2 (String c3 (ws +:+ t)))).
    rewrite <- Hws. reflexivity. }
  split; [simpl; auto|exists ""; reflexivity].
Qed.

Lemma trimWith_untrimmed s : untrimmed two three (trimWith two three s).
Proof. exact (proj1 (trimWith_shape (String.length s) s (le_n _))). Qed.

Lemma trimWith_suffix s : exists ws, s = ws +:+ trimWith two three s.
Proof. exact (proj2 (trimWith_shape (String.length s) s (le_n _))). Qed.

Lemma untrimmed_prefix p w :
  untrimmed two three (p +:+ w) -> untrimmed two three p.
Proof.
  destruct p as [|c1 [|c2 [|c3 p3]]]; simpl; auto.
  - intros [H _]. auto.
  - intros [H1 [H2 _]]. auto.
Qed.

Lemma trimWith_app (e : string) (He : separate two three e) (n : nat) : forall s,
  (String.length s <= n)%nat ->
  trimWith two three (s +:+ e)
  = match trimWith two three s with
    | EmptyString => EmptyString
    | t => t +:+ e
    end.
Proof.
  destruct He as [Hnil Hb].
  induction n as [|n IH]; intros s Hn.
  { destruct s; simpl in Hn; [|lia]. exact Hnil. }
  destruct s as [|c1 s1]; [exact Hnil|].
  change (String c1 s1 +:+ e) with (String c1 (s1 +:+ e)).
  cbn [trimWith]. destruct (Ascii.is_space c1) eqn:E1.
  { apply IH. simpl in Hn. lia. }
  destruct s1 as [|c2 s2].
  { change ("" +:+ e) with e. destruct e as [|b e']; [destruct Hb|].
    destruct Hb as (H2 & H3 & H3'). rewrite H2.
    destruct e' as [|c3 e'']; [reflexivity|]. rewrite H3'. reflexivity. }
  change (String c2 s2 +:+ e) with (String c2 (s2 +:+ e)). cbv iota.
  destruct (two c1 c2) eqn:E2.
  { apply IH. simpl in Hn. lia. }
  destruct s2 as [|c3 s3].
  { change ("" +:+ e) with e. destruct e as [|b e']; [destruct Hb|].
    destruct Hb as (H2 & H3 & H3'). rewrite H3. reflexivity. }
  change (String c3 s3 +:+ e) with (String c3 (s3 +:+ e)). cbv iota.
  destruct (three c1 c2 c3) eqn:E3.
  { apply IH. simpl in Hn. lia. }
  reflexivity.
Qed.

Lemma lower_space c : Ascii.is_space (lower c) = Ascii.is_space c.
Proof. destruct c as [[] [] [] [] [] [] [] []]; reflexivity. Qed.

Lemma lowerASCII_trimWith s :
  lowerASCII (trimWith two three s) = trimWith two three (lowerASCII s).
Proof.
  assert (Hn : forall n s, (String.length s <= n)%nat ->
                 lowerASCII (trimWith two three s)
                 = trimWith two three (lowerASCII s)).
  { clear s. induction n as [|n IH]; intros s Hn.
    { destruct s; simpl in Hn; [reflexivity|lia]. }
    destruct s as [|c1 s1]; [reflexivity|].
    cbn [trimWith lowerASCII]. rewrite lower_space.
    destruct (Ascii.is_space c1); [apply IH; simpl in Hn; lia|].
    destruct s1 as [|c2 s2]; [reflexivity|].
    cbn [lowerASCII]. rewrite two_lower.
    destruct (two c1 c2); [apply IH; simpl in Hn; lia|].
    destruct s2 as [|c3 s3]; [reflexivity|].
    cbn [lowerASCII]. rewrite three_lower.
    destruct (three c1 c2 c3); [apply IH; simpl in Hn; lia|reflexivity]. }
  exact (Hn (String.length s) s (le_n _)).
Qed.

End Trimming.

Section Normalising.
Context {platform : Platform}.

Lemma list_of_app a : forall b,
  list_ascii_of_string (a +:+ b)
  = list_ascii_of_string a ++ list_ascii_of_string b.
Proof.
  induction a as [|x a IH]; intros b; [reflexivity|].
  change (String x a +:+ b) with (String x (a +:+ b)).
  cbn [list_ascii_of_string]. rewrite IH. reflexivity.
Qed.

Lemma rev_app_list s : forall acc,
  list_ascii_of_string (String.rev_app s acc)
  = List.rev (list_ascii_of_string s) ++ list_ascii_of_string acc.
Proof.
  induction s as [|c s IH]; intros acc; simpl; [reflexivity|].
  rewrite IH. simpl. rewrite <- app_assoc. reflexivity.
Qed.

Lemma rev_list s :
  list_ascii_of_string (String.rev s) = List.rev (list_ascii_of_string s).
Proof. unfold String.rev. rewrite rev_app_list. simpl. apply app_nil_r. Qed.

Lemma string_of_list_inj s1 s2 :
  list_ascii_of_string s1 = list_ascii_of_string s2 -> s1 = s2.
Proof.
  intros H. rewrite <- (string_of_list_ascii_of_string s1),
    <- (string_of_list_ascii_of_string s2), H. reflexivity.
Qed.

Lemma rev_rev_string s : String.rev (String.rev s) = s.
Proof.
  apply string_of_list_inj. rewrite !rev_list. apply rev_involutive.
Qed.

Lemma rev_app_string a b :
  String.rev (a +:+ b) = String.rev b +:+ String.rev a.
Proof.
  apply string_of_list_inj.
  rewrite rev_list, !list_of_app, !rev_list. apply rev_app_distr.
Qed.

(** What [trimRight] keeps is a prefix. *)
Lemma trimRight_prefix s : exists ws, s = trimRight s +:+ ws.
Proof.
  unfold trimRight.
  destruct (trimWith_suffix (fun c2 c1 => spaceRune2 c1 c2)
              (fun c3 c2 c1 => spaceRune3 c1 c2 c3) (String.rev s))
    as [ws Hws].
  exists (String.rev ws).
  rewrite <- rev_app_string, <- Hws, rev_rev_string. reflexivity.
Qed.

Lemma trimRight_idempotent s : trimRight (trimRight s) = trimRight s.
Proof.
  unfold trimRight. rewrite rev_rev_string.
  rewrite (trimWith_id _ _ _ (trimWith_untrimmed _ _ _)). reflexivity.
Qed.

(** A trimmed string begins and ends without white space. *)
Lemma TrimSpace_untrimmed s :
  untrimmed spaceRune2 spaceRune3 (TrimSpace s) /\
  untrimmed (fun c2 c1 => spaceRune2 c1 c2)
    (fun c3 c2 c1 => spaceRune3 c1 c2 c3) (String.rev (TrimSpace s)).
Proof.
  unfold TrimSpace. split.
  - destruct (trimRight_prefix (trimLeft s)) as [ws Hws].
    apply (untrimmed_prefix _ _ _ ws). rewrite <- Hws.
    apply trimWith_untrimmed.
  - unfold trimRight. rewrite rev_rev_string. apply trimWith_untrimmed.
Qed.

Lemma TrimSpace_idempotent s : TrimSpace (TrimSpace s) = TrimSpace s.
Proof.
  destruct (TrimSpace_untrimmed s) as [H1 H2].
  unfold TrimSpace at 1. unfold trimLeft.
  rewrite (trimWith_id _ _ _ H1). unfold trimRight.
  rewrite (trimWith_id _ _ _ H2). apply rev_rev_string.
Qed.

Lemma spaceRunes_separate e :
  In e spaceRunes -> separate spaceRune2 spaceRune3 e.
Proof.
  intros He. unfold spaceRunes in He. cbn in He.
  repeat (destruct He as [<-|He];
          [split; [reflexivity|];
           split; [|split]; intros; unfold spaceRune2, spaceRune3; cbn;
           rewrite ?andb_false_r, ?orb_false_r; reflexivity|]).
  destruct He.
Qed.

Lemma trimLeft_leading e s :
  In e spaceRunes -> trimLeft (e +:+ s) = trimLeft s.
Proof.
  intros He. unfold spaceRunes in He. cbn in He.
  repeat (destruct He as [<-|He]; [reflexivity|]). destruct He.
Qed.

Lemma trimRight_trailing e s :
  In e spaceRunes -> trimRight (s +:+ e) = trimRight s.
Proof.
  intros He. unfold trimRight. rewrite rev_app_string.
  unfold spaceRunes in He. cbn in He.
  repeat (destruct He as [<-|He]; [reflexivity|]). destruct He.
Qed.

Lemma TrimSpace_leading e s :
  In e spaceRunes -> TrimSpace (e +:+ s) = TrimSpace s.
Proof.
  intros He. unfold TrimSpace. rewrite (trimLeft_leading e s He).
  reflexivity.
Qed.

Lemma TrimSpace_trailing e s :
  In e spaceRunes -> TrimSpace (s +:+ e) = TrimSpace s.
Proof.
  intros He. unfold TrimSpace, trimLeft.
  rewrite (trimWith_app _ _ e (spaceRunes_separate e He) (String.length s) s
             (le_n _)).
  destruct (trimWith spaceRune2 spaceRune3 s) as [|c t] eqn:E; [reflexivity|].
  apply (trimRight_trailing e _ He).
Qed.

Lemma append_assoc a : forall b c, (a +:+ b) +:+ c = a +:+ (b +:+ c).
Proof.
  induction a as [|x a IH]; intros b c; [reflexivity|].
  change (String x a +:+ b) with (String x (a +:+ b)).
  change (String x (a +:+ b) +:+ c) with (String x ((a +:+ b) +:+ c)).
  rewrite IH. reflexivity.
Qed.

Lemma append_empty a : a +:+ "" = a.
Proof.
  induction a as [|x a IH]; [reflexivity|].
  change (String x a +:+ "") with (String x (a +:+ "")).
  rewrite IH. reflexivity.
Qed.

(** White space before and after a text is trimmed away. *)
Lemma TrimSpace_padding before after s :
  whiteSpace before -> whiteSpace after ->
  TrimSpace (before +:+ s +:+ after) = TrimSpace s.
Proof.
  intros Hb Ha.
  assert (Hleft : forall t, TrimSpace (before +:+ t) = TrimSpace t).
  { induction Hb as [|rune w Hrune _ IH]; intros t; [reflexivity|].
    rewrite append_assoc, (TrimSpace_leading _ _ Hrune). apply IH. }
  rewrite Hleft. clear Hleft Hb. revert s.
  induction Ha as [|rune w Hrune _ IH]; intros s.
  - rewrite append_empty. reflexivity.
  - rewrite <- append_assoc, IH. apply (TrimSpace_trailing _ _ Hrune).
Qed.

Lemma lower_high c b0 b1 b2 b3 b4 b5 b6 :
  Ascii.eqb (lower c) (Ascii b0 b1 b2 b3 b4 b5 b6 true)
  = Ascii.eqb c (Ascii b0 b1 b2 b3 b4 b5 b6 true).
Proof.
  destruct c as [[] [] [] [] [] [] [] []]; try reflexivity;
    destruct b0, b1, b2, b3, b4, b5, b6; reflexivity.
Qed.

Lemma spaceRune2_lower c1 c2 :
  spaceRune2 (lower c1) (lower c2) = spaceRune2 c1 c2.
Proof. unfold spaceRune2. rewrite !lower_high. reflexivity. Qed.

Lemma spaceRune3_lower c1 c2 c3 :
  spaceRune3 (lower c1) (lower c2) (lower c3) = spaceRune3 c1 c2 c3.
Proof. unfold spaceRune3. cbn [existsb]. rewrite !lower_high. reflexivity. Qed.

Lemma lowerASCII_rev_app s : forall acc,
  lowerASCII (String.rev_app s acc)
  = String.rev_app (lowerASCII s) (lowerASCII acc).
Proof.
  induction s as [|c s IH]; intros acc; simpl; [reflexivity|].
  rewrite IH. reflexivity.
Qed.

(** Lowering the capital letters of ASCII and trimming commute. *)
Lemma lowerASCII_TrimSpace s :
  lowerASCII (TrimSpace s) = TrimSpace (lowerASCII s).
Proof.
  unfold TrimSpace, trimRight, trimLeft, String.rev.
  rewrite lowerASCII_rev_app, lowerASCII_trimWith, lowerASCII_rev_app,
    lowerASCII_trimWith;
    auto using spaceRune2_lower, spaceRune3_lower.
Qed.

Lemma isASCII_app a : forall b, isASCII (a +:+ b) = isASCII a && isASCII b.
Proof.
  induction a as [|c a IH]; intros b; [reflexivity|].
  change (String c a +:+ b) with (String c (a +:+ b)). cbn [isASCII].
  rewrite IH, andb_assoc. reflexivity.
Qed.

Lemma isASCII_TrimSpace s : isASCII s = true -> isASCII (TrimSpace s) = true.
Proof.
  intros Hs. unfold TrimSpace.
  destruct (trimWith_suffix spaceRune2 spaceRune3 s) as [ws1 H1].
  fold (trimLeft s) in H1.
  destruct (trimRight_prefix (trimLeft s)) as [ws2 H2].
  rewrite H1, H2, !isASCII_app in Hs.
  apply andb_prop in Hs as [_ Hs]. apply andb_prop in Hs as [Hs _].
  exact Hs.
Qed.

(** On ASCII text, lower-casing and trimming commute. *)
Lemma ToLower_TrimSpace s :
  isASCII s = true -> ToLower (TrimSpace s) = TrimSpace (ToLower s).
Proof.
  intros Hs. unfold ToLower.
  rewrite Hs, (isASCII_TrimSpace s Hs). apply lowerASCII_TrimSpace.
Qed.

End Normalising.

Section HeaderMatchingInsensitive.
Context {platform : Platform}.

(** Header matching looks at the header trimmed and in lower case only.
    White space around a header is ignored, however many and whichever
    code points of Unicode's white space it is made of: a header that
    begins and ends with a no-break space matches as the header between
    them.  Two
    headers of ASCII text that differ in the case of their letters match
    alike. *)
Theorem matchMonthFromHeader_insensitive :
  (forall header1 header2,
      ToLower (TrimSpace header1) = ToLower (TrimSpace header2) ->
      matchMonthFromHeader header1 = matchMonthFromHeader header2) /\
  (forall header1 header2,
      isASCII header1 = true -> isASCII header2 = true ->
      ToLower header1 = ToLower header2 ->
      matchMonthFromHeader header1 = matchMonthFromHeader header2) /\
  (forall header,
      matchMonthFromHeader (TrimSpace header) = matchMonthFromHeader header) /\
  (forall header before after,
      whiteSpace before -> whiteSpace after ->
      matchMonthFromHeader (before +:+ header +:+ after)
      = matchMonthFromHeader header) /\
  (forall header space,
      In space spaceRunes ->
      matchMonthFromHeader (space +:+ header) = matchMonthFromHeader header /\
      matchMonthFromHeader (header +:+ space) = matchMonthFromHeader header) /\
  In (String "194" (String "160" "")) spaceRunes /\
  matchMonthFromHeader
    (String "194" (String "160" ("January Target"
                                 +:+ String "194" (String "160" ""))))
  = (1, "target").
Proof.
  split; [|split; [|split; [|split; [|split; [|split]]]]].
  - intros header1 header2 Hsame. unfold matchMonthFromHeader.
    rewrite Hsame. reflexivity.
  - intros header1 header2 H1 H2 Hcase. unfold matchMonthFromHeader.
    rewrite (ToLower_TrimSpace _ H1), (ToLower_TrimSpace _ H2), Hcase.
    reflexivity.
  - intros header. unfold matchMonthFromHeader.
    rewrite TrimSpace_idempotent. reflexivity.
  - intros header before after Hb Ha. unfold matchMonthFromHeader.
    rewrite (TrimSpace_padding _ _ _ Hb Ha). reflexivity.
  - intros header space Hs. unfold matchMonthFromHeader.
    rewrite (TrimSpace_leading _ _ Hs), (TrimSpace_trailing _ _ Hs).
    split; reflexivity.
  - unfold spaceRunes. cbn. auto 10.
  - vm_compute. reflexivity.
Qed.

End HeaderMatchingInsensitive.

(** ** Row discovery *)

Section RowDiscovery.
Context {platform : Platform}.

Lemma rowsLoop_lookup values : forall rowIdx result key,
  default [] (rowsLoop rowIdx values result !! key)
  = default [] (result !! key) ++ labelHits key rowIdx values /\
  (rowsLoop rowIdx values result !! key = None <->
   result !! key = None /\ labelHits key rowIdx values = []).
Proof.
  induction values as [|row values IH]; intros rowIdx result key.
  - simpl. rewrite app_nil_r. intuition auto.
  - cbn [rowsLoop labelHits].
    destruct (IH (rowIdx + 1)
                match row with
                | CString cellStr :: _ =>
                    if (cellStr =? "")%string then result
                    else <[ToLower (TrimSpace cellStr) :=
                             default [] (result !! ToLower (TrimSpace cellStr))
                             ++ [rowIdx + 1]]> result
                | _ => result
                end key) as [IH1 IH2].
    rewrite IH1, IH2. clear IH IH1 IH2. unfold labelOf.
    destruct row as [|[cellStr| |] rest]; try (split; [reflexivity|tauto]).
    destruct (String.eqb_spec cellStr ""); [split; [reflexivity|tauto]|].
    destruct (String.eqb_spec (ToLower (TrimSpace cellStr)) key) as [->|Hne].
    + rewrite lookup_insert_eq. simpl. rewrite <- app_assoc. simpl.
      split; [reflexivity|]. split; [intros [[=] _]|intros [_ [=]]].
    + rewrite lookup_insert_ne by exact Hne. split; [reflexivity|tauto].
Qed.

Lemma labelHits_In key values : forall rowIdx r,
  In r (labelHits key rowIdx values) <->
  exists (i : nat) row,
    values !! i = Some row /\ labelOf row = Some key /\
    r = rowIdx + Z.of_nat i + 1.
Proof.
  induction values as [|row values IH]; intros rowIdx r.
  - simpl. split; [intros []|]. intros (i & row & H & _).
    rewrite lookup_nil in H. discriminate.
  - assert (Htail :
      In r (labelHits key (rowIdx + 1) values) <->
      exists (i : nat) row',
        (row :: values) !! S i = Some row' /\ labelOf row' = Some key /\
        r = rowIdx + Z.of_nat (S i) + 1).
    { rewrite IH. split; intros (i & row' & H1 & H2 & H3);
        exists i, row'; simpl in *; repeat split; auto; lia. }
    cbn [labelHits].
    destruct (labelOf row) as [label|] eqn:Hl;
      [destruct (String.eqb_spec label key) as [->|Hne]|].
    + simpl. rewrite Htail. split.
      * intros [<-|(i & row' & H)].
        -- exists 0%nat, row. simpl. repeat split; auto. lia.
        -- exists (S i), row'. exact H.
      * intros ([|i] & row' & H1 & H2 & H3).
        -- left. lia.
        -- right. exists i, row'. auto.
    + rewrite Htail. split.
      * intros (i & row' & H). exists (S i), row'. exact H.
      * intros ([|i] & row' & H1 & H2 & H3).
        -- simpl in H1. injection H1 as <-. congruence.
        -- exists i, row'. auto.
    + rewrite Htail. split.
      * intros (i & row' & H). exists (S i), row'. exact H.
      * intros ([|i] & row' & H1 & H2 & H3).
        -- simpl in H1. injection H1 as <-. congruence.
        -- exists i, row'. auto.
Qed.

Lemma labelHits_sorted key values : forall rowIdx,
  StronglySorted Z.lt (labelHits key rowIdx values) /\
  Forall (fun r => rowIdx < r) (labelHits key rowIdx values).
Proof.
  induction values as [|row values IH]; intros rowIdx.
  - simpl. split; constructor.
  - destruct (IH (rowIdx + 1)) as [IHs IHb].
    assert (Hb : Forall (fun r => rowIdx < r)
                   (labelHits key (rowIdx + 1) values)).
    { eapply Forall_impl; [exact IHb|]. simpl. intros; lia. }
    cbn [labelHits]. destruct (labelOf row) as [label|]; [|auto].
    destruct (label =? key)%string; [|auto].
    split.
    + constructor; [exact IHs|]. exact IHb.
    + constructor; [lia|exact Hb].
Qed.

Lemma discoverRows_labelHits srv spreadsheetID sheetName kpiRows :
  discoverRows srv spreadsheetID sheetName = Ok kpiRows ->
  exists values,
    srv spreadsheetID (formatSheetName sheetName +:+ "!C:C") = Ok values /\
    forall key,
      default [] (kpiRows !! key) = labelHits key 0 values /\
      (kpiRows !! key = None <-> labelHits key 0 values = []).
Proof.
  unfold discoverRows.
  destruct (srv spreadsheetID _) as [values|err] eqn:Hread; [|discriminate].
  intros Hok.
  assert (kpiRows = rowsLoop 0 values ∅) as ->.
  { destruct values; injection Hok; auto. }
  clear Hok. exists values. split; [reflexivity|]. intros key.
  destruct (rowsLoop_lookup values 0 ∅ key) as [Hl Hnone].
  rewrite lookup_empty in Hl, Hnone. simpl in Hl.
  split; [exact Hl|]. rewrite Hnone. tauto.
Qed.

(** The label map of row discovery: under each key stand exactly the row
    numbers, counted from 1, of the rows whose first cell is a non-empty
    text with that normalised form; they stand in sheet order, each row
    once; and a key with no such row is not in the map. *)
Theorem discoverRows_positions :
  forall (srv : service) (spreadsheetID sheetName : string)
         (kpiRows : gmap string (list Z)),
    discoverRows srv spreadsheetID sheetName = Ok kpiRows ->
    exists values,
      srv spreadsheetID (formatSheetName sheetName +:+ "!C:C") = Ok values /\
      forall key,
        let rows := default [] (kpiRows !! key) in
        (forall r, In r rows <->
                   exists (i : nat) row,
                     values !! i = Some row /\ labelOf row = Some key /\
                     r = Z.of_nat i + 1) /\
        StronglySorted Z.lt rows /\
        (kpiRows !! key = None <-> rows = []).
Proof.
  intros srv spreadsheetID sheetName kpiRows Hok.
  destruct (discoverRows_labelHits _ _ _ _ Hok) as (values & Hread & Hkeys).
  exists values. split; [exact Hread|]. intros key. cbv zeta.
  destruct (Hkeys key) as [-> Hnone]. split; [|split].
  - intros r. rewrite labelHits_In. split; intros (i & row & H1 & H2 & H3);
      exists i, row; repeat split; auto; lia.
  - apply labelHits_sorted.
  - exact Hnone.
Qed.

End RowDiscovery.

(** ** Column discovery: the last match wins *)

Section ColumnLastMatch.
Context {platform : Platform}.

Lemma In_insert (l : list Z) (k : nat) (x v : Z) :
  In v (<[k := x]> l) -> v = x \/ In v l.
Proof.
  revert k. induction l as [|y l IH]; intros [|k]; simpl; auto.
  - intros [<-|H]; auto.
  - intros [<-|H]; auto. apply IH in H as [->|H]; auto.
Qed.

Lemma headerCell_length colIdx c result :
  (forall month entry, result !! month = Some entry -> length entry = 4%nat) ->
  forall month entry,
    headerCell colIdx c result !! month = Some entry -> length entry = 4%nat.
Proof.
  intros Hres. unfold headerCell. destruct c as [h| |]; try exact Hres.
  destruct (matchMonthFromHeader h) as [m t].
  destruct (m =? 0); [exact Hres|].
  intros month entry. rewrite lookup_insert.
  destruct (decide (m = month)) as [->|Hne]; [|apply Hres].
  intros [= <-]. rewrite setEntry_length.
  destruct (result !! month) as [e|] eqn:E; simpl; [eauto|reflexivity].
Qed.

(** Cells that do not match a column type of a month leave its position
    as it is. *)
Lemma columnsLoop_unmatched_keeps cells colType k month :
  slot colType = Some k ->
  forall colIdx result entry0 v,
    (forall i, ~ headerHit cells month colType i) ->
    result !! month = Some entry0 -> entry0 !! k = Some v ->
    exists entry,
      columnsLoop colIdx cells result !! month = Some entry /\
      entry !! k = Some v.
Proof.
  intros Hk.
  induction cells as [|c cells IH]; intros colIdx result entry0 v Hno H0 Hv.
  - exists entry0. auto.
  - cbn [columnsLoop].
    assert (Hno' : forall i, ~ headerHit cells month colType i).
    { intros i Hi. apply (Hno (S i)). apply headerHit_cons. right. eauto. }
    assert (Hstep : exists entry1,
               headerCell colIdx c result !! month = Some entry1 /\
               entry1 !! k = Some v).
    { unfold headerCell.
      destruct c as [h| |]; try solve [exists entry0; auto].
      destruct (matchMonthFromHeader h) as [m t] eqn:Hm.
      destruct (Z.eqb_spec m 0) as [->|Hz]; [exists entry0; auto|].
      rewrite lookup_insert.
      destruct (decide (m = month)) as [->|Hne]; [|exists entry0; auto].
      rewrite H0. simpl. eexists. split; [reflexivity|].
      rewrite setEntry_slot. destruct (slot t) as [k'|] eqn:Ht; [|exact Hv].
      rewrite list_lookup_insert_ne; [exact Hv|].
      intros <-. apply (Hno 0%nat). apply headerHit_cons. left.
      rewrite (slot_inj _ _ _ Hk Ht). eauto 8. }
    destruct Hstep as (entry1 & H1 & Hv1).
    exact (IH (colIdx + 1) _ entry1 v Hno' H1 Hv1).
Qed.

Lemma columnsLoop_last_hit cells colType k month :
  slot colType = Some k ->
  forall colIdx result (i : nat),
    (forall m entry, result !! m = Some entry -> length entry = 4%nat) ->
    headerHit cells month colType i ->
    (forall j, (i < j)%nat -> ~ headerHit cells month colType j) ->
    exists entry,
      columnsLoop colIdx cells result !! month = Some entry /\
      entry !! k = Some (colIdx + Z.of_nat i).
Proof.
  intros Hk.
  induction cells as [|c cells IH]; intros colIdx result i Hlen Hhit Hlast.
  - destruct Hhit as (h & Hh & _). rewrite lookup_nil in Hh. discriminate.
  - cbn [columnsLoop].
    apply headerHit_cons in Hhit
      as [(-> & Hz & h & -> & Hm)|(i' & -> & Hhit)].
    + assert (Hno : forall j, ~ headerHit cells month colType j).
      { intros j Hj. apply (Hlast (S j)); [lia|].
        apply headerHit_cons. right. eauto. }
      replace (colIdx + Z.of_nat 0) with colIdx by lia.
      eapply (columnsLoop_unmatched_keeps cells colType k month Hk);
        [exact Hno| |].
      * unfold headerCell. rewrite Hm.
        destruct (Z.eqb_spec month 0); [contradiction|].
        apply lookup_insert_eq.
      * rewrite setEntry_slot, Hk. apply list_lookup_insert_eq.
        pose proof (slot_lt _ _ Hk).
        destruct (result !! month) as [e|] eqn:E; simpl.
        -- rewrite (Hlen month e E). lia.
        -- simpl. lia.
    + destruct (IH (colIdx + 1) (headerCell colIdx c result) i')
        as (entry & He & Hv).
      * apply headerCell_length. exact Hlen.
      * exact Hhit.
      * intros j Hj Hjh. apply (Hlast (S j)); [lia|].
        apply headerHit_cons. right. eauto.
      * exists entry. split; [exact He|]. rewrite Hv. f_equal. lia.
Qed.

Lemma columnsLoop_bounds cells : forall colIdx result hi,
  0 <= colIdx -> colIdx + Z.of_nat (length cells) <= hi -> 0 < hi ->
  (forall m entry v, result !! m = Some entry -> In v entry -> 0 <= v < hi) ->
  forall m entry v,
    columnsLoop colIdx cells result !! m = Some entry -> In v entry ->
    0 <= v < hi.
Proof.
  induction cells as [|c cells IH]; intros colIdx result hi H0 Hhi Hpos Hres;
    [exact Hres|].
  cbn [columnsLoop]. cbn [length] in Hhi.
  apply (IH (colIdx + 1)); try lia.
  unfold headerCell. destruct c as [h| |]; try exact Hres.
  destruct (matchMonthFromHeader h) as [m t].
  destruct (m =? 0); [exact Hres|].
  intros m' entry v. rewrite lookup_insert.
  destruct (decide (m = m')) as [->|Hne]; [|apply Hres].
  intros [= <-] Hin. rewrite setEntry_slot in Hin.
  assert (Hold : In v (default zeroEntry (result !! m')) -> 0 <= v < hi).
  { destruct (result !! m') as [e|] eqn:E; simpl.
    - apply (Hres m' e v E).
    - intros [<-|[<-|[<-|[<-|[]]]]]; lia. }
  destruct (slot t); [|auto].
  apply In_insert in Hin as [->|Hin]; [lia|auto].
Qed.

Lemma discoverColumns_loop srv spreadsheetID sheetName monthColumns :
  discoverColumns srv spreadsheetID sheetName = Ok monthColumns ->
  exists header rest,
    srv spreadsheetID (formatSheetName sheetName +:+ "!1:1")
    = Ok (header :: rest) /\
    header <> [] /\ monthColumns = columnsLoop 0 header ∅.
Proof.
  unfold discoverColumns.
  destruct (srv spreadsheetID _) as [[|[|c cells] rest]|err] eqn:Hread;
    try discriminate.
  intros Hok. exists (c :: cells), rest.
  split; [reflexivity|]. split; [discriminate|].
  symmetry; injection Hok; auto.
Qed.

Lemma discoverColumns_bounds srv spreadsheetID sheetName monthColumns :
  discoverColumns srv spreadsheetID sheetName = Ok monthColumns ->
  exists header rest,
    srv spreadsheetID (formatSheetName sheetName +:+ "!1:1")
    = Ok (header :: rest) /\
    forall month entry v,
      monthColumns !! month = Some entry -> In v entry ->
      0 <= v < Z.of_nat (length header).
Proof.
  intros Hok.
  destruct (discoverColumns_loop _ _ _ _ Hok)
    as (header & rest & Hread & Hne & ->).
  exists header, rest. split; [exact Hread|]. intros month entry v.
  apply (columnsLoop_bounds header 0 ∅); try lia.
  - destruct header; [contradiction|cbn [length]; lia].
  - intros m e v'. rewrite lookup_empty. discriminate.
Qed.

(** In the month map of column discovery, a column type that the header
    row names for a month holds the position of the last header cell that
    names it: a later header overwrites an earlier one.  Every position of
    every entry lies inside the header row. *)
Theorem discoverColumns_last_match_wins :
  forall (srv : service) (spreadsheetID sheetName : string)
         (monthColumns : gmap Z (list Z)),
    discoverColumns srv spreadsheetID sheetName = Ok monthColumns ->
    exists header rest,
      srv spreadsheetID (formatSheetName sheetName +:+ "!1:1")
      = Ok (header :: rest) /\
      (forall month colType k (i : nat),
          slot colType = Some k ->
          headerHit header month colType i ->
          (forall j, (i < j)%nat -> ~ headerHit header month colType j) ->
          exists entry,
            monthColumns !! month = Some entry /\
            entry !! k = Some (Z.of_nat i)) /\
      (forall month entry v,
          monthColumns !! month = Some entry -> In v entry ->
          0 <= v < Z.of_nat (length header)).
Proof.
  intros srv spreadsheetID sheetName monthColumns Hok.
  destruct (discoverColumns_bounds _ _ _ _ Hok)
    as (header & rest & Hread & Hbounds).
  destruct (discoverColumns_loop _ _ _ _ Hok)
    as (header' & rest' & Hread' & _ & Hloop).
  rewrite Hread in Hread'. injection Hread' as <- <-.
  exists header, rest. split; [exact Hread|]. split; [|exact Hbounds].
  intros month colType k i Hk Hhit Hlast. rewrite Hloop.
  destruct (columnsLoop_last_hit header colType k month Hk 0 ∅ i)
    as (entry & He & Hv); [|exact Hhit|exact Hlast|].
  - intros m e. rewrite lookup_empty. discriminate.
  - exists entry. split; [exact He|]. rewrite Hv. f_equal.
Qed.

End ColumnLastMatch.

(** ** Row resolution on a discovered layout *)

Section RowResolutionDiscovered.
Context {platform : Platform}.

Lemma closestLoop_In fallbackRow rows : forall best bestDiff,
  closestLoop fallbackRow rows best bestDiff = best \/
  In (closestLoop fallbackRow rows best bestDiff) rows.
Proof.
  induction rows as [|r rows IH]; intros best bestDiff; simpl; [auto|].
  destruct (_ <? bestDiff).
  - destruct (IH r (Sheets.abs (wrap64 (r - fallbackRow)))) as [->|H]; auto.
  - destruct (IH best bestDiff) as [->|H]; auto.
Qed.

(** The row [getIndicatorRow] returns, in every layout: a row recorded
    under the label of the indicator or its fallback row when found, and
    row 0 when not found - which only happens without a positive fallback
    row. *)
Lemma getIndicatorRow_provenance layout indicator :
  let key := ToLower (TrimSpace (SpreadsheetName indicator)) in
  let result := getIndicatorRow layout indicator in
  (snd result = true ->
   In (fst result) (default [] (KPIRows layout !! key)) \/
   (fst result = SpreadsheetRow indicator /\ 0 < SpreadsheetRow indicator)) /\
  (snd result = false -> fst result = 0 /\ SpreadsheetRow indicator <= 0).
Proof.
  intros key result. unfold result, getIndicatorRow. fold key.
  assert (Hfb :
    let fb := if SpreadsheetRow indicator >? 0
              then (SpreadsheetRow indicator, true) else (0, false) in
    (snd fb = true ->
     In (fst fb) (default [] (KPIRows layout !! key)) \/
     (fst fb = SpreadsheetRow indicator /\ 0 < SpreadsheetRow indicator)) /\
    (snd fb = false -> fst fb = 0 /\ SpreadsheetRow indicator <= 0)).
  { destruct (Z.gtb_spec (SpreadsheetRow indicator) 0); simpl; split;
      try discriminate; intros _; auto. }
  cbv zeta in Hfb.
  destruct (negb _); [|exact Hfb].
  destruct (KPIRows layout !! key) as [[|r0 [|r1 rest]]|] eqn:Hk;
    try exact Hfb; cbn [fst snd default]; split; try discriminate;
    intros _; left; [left; reflexivity|].
  destruct (closestLoop_In (SpreadsheetRow indicator) (r1 :: rest) r0
              (Sheets.abs (wrap64 (r0 - SpreadsheetRow indicator))))
    as [->|H]; [left; reflexivity|right; exact H].
Qed.

(** On a discovered layout a row that is found is a row number of the
    sheet or the positive fallback row: at least 1 in both cases. *)
Theorem getIndicatorRow_discovered_row_positive :
  forall (now : Z) (srv : service) (spreadsheetID sheetName : string)
         (layout : DiscoveredLayout) (indicator : Indicator),
    DiscoverLayout now srv spreadsheetID sheetName = Ok layout ->
    (snd (getIndicatorRow layout indicator) = true ->
     1 <= fst (getIndicatorRow layout indicator)) /\
    (snd (getIndicatorRow layout indicator) = false ->
     fst (getIndicatorRow layout indicator) = 0).
Proof.
  intros now srv spreadsheetID sheetName layout indicator Hd.
  destruct (getIndicatorRow_provenance layout indicator) as [Hfound Hnot].
  cbv zeta in Hfound, Hnot. split; [|intros H; apply Hnot, H].
  intros Hf. destruct (Hfound Hf) as [Hin|[-> Hpos]]; [|lia].
  unfold DiscoverLayout in Hd.
  destruct (discoverColumns _ _ _) as [cols|]; [|discriminate].
  destruct (discoverRows srv spreadsheetID sheetName) as [kpiRows|] eqn:Hr;
    [|discriminate].
  injection Hd as <-. simpl in Hin.
  destruct (discoverRows_labelHits _ _ _ _ Hr) as (values & _ & Hkeys).
  destruct (Hkeys (ToLower (TrimSpace (SpreadsheetName indicator))))
    as (Hrows & _).
  rewrite Hrows in Hin.
  apply labelHits_In in Hin as (i & row & _ & _ & ->). lia.
Qed.

(** A strictly increasing list whose members are all the same row is
    that one row. *)
Lemma sorted_single (l : list Z) (x : Z) :
  StronglySorted Z.lt l -> In x l -> (forall y, In y l -> y = x) -> l = [x].
Proof.
  intros Hs Hin Hall. destruct l as [|a [|b l]]; simpl in *.
  - destruct Hin.
  - destruct Hin as [->|[]]. reflexivity.
  - exfalso. inversion Hs as [|? ? _ Hlt]; subst.
    inversion Hlt as [|? ? Hab _]; subst.
    rewrite (Hall a), (Hall b) in Hab by auto. lia.
Qed.

(** Discovery and resolution fit together: an indicator whose sheet label
    is not empty and - trimmed and lower-cased as the program does it,
    Unicode white space and letters included - is the label of exactly
    one row of the label column resolves to that row, however the label
    is capitalised or padded on either side. *)
Theorem getIndicatorRow_finds_discovered_label :
  forall (now : Z) (srv : service) (spreadsheetID sheetName : string)
         (layout : DiscoveredLayout) (values : list (list cell))
         (indicator : Indicator) (i : nat) (row : list cell),
    DiscoverLayout now srv spreadsheetID sheetName = Ok layout ->
    srv spreadsheetID (formatSheetName sheetName +:+ "!C:C") = Ok values ->
    SpreadsheetName indicator <> "" ->
    values !! i = Some row ->
    labelOf row = Some (ToLower (TrimSpace (SpreadsheetName indicator))) ->
    (forall (j : nat) row',
        values !! j = Some row' -> labelOf row' = labelOf row -> j = i) ->
    getIndicatorRow layout indicator = (Z.of_nat i + 1, true).
Proof.
  intros now srv spreadsheetID sheetName layout values indicator i row
         Hd Hread Hname Hi Hlabel Huniq.
  unfold DiscoverLayout in Hd.
  destruct (discoverColumns _ _ _) as [cols|]; [|discriminate].
  destruct (discoverRows srv spreadsheetID sheetName) as [kpiRows|] eqn:Hr;
    [|discriminate].
  injection Hd as <-.
  destruct (discoverRows_labelHits _ _ _ _ Hr) as (values' & Hread' & Hkeys).
  rewrite Hread in Hread'. injection Hread' as <-.
  set (key := ToLower (TrimSpace (SpreadsheetName indicator))) in *.
  destruct (Hkeys key) as (Hrows & _).
  assert (Hone : default [] (kpiRows !! key) = [Z.of_nat i + 1]).
  { rewrite Hrows. apply sorted_single; [apply labelHits_sorted| |].
    - apply labelHits_In. exists i, row. repeat split; auto.
    - intros y Hy. apply labelHits_In in Hy as (j & row' & Hj & Hl & ->).
      rewrite (Huniq j row' Hj) by congruence. reflexivity. }
  unfold getIndicatorRow. simpl. fold key.
  destruct (String.eqb_spec (SpreadsheetName indicator) ""); [contradiction|].
  simpl. destruct (kpiRows !! key) as [l|]; simpl in Hone; [|discriminate].
  rewrite Hone. reflexivity.
Qed.

End RowResolutionDiscovered.

(** ** Reading the metric rows *)

Section CellParsing.
Context {platform : Platform}.
Variable ParseFloat : string -> option float.

Lemma removeByte_app old a : forall b,
  removeByte old (a +:+ b) = removeByte old a +:+ removeByte old b.
Proof.
  induction a as [|c a IH]; intros b; [reflexivity|].
  change (String c a +:+ b) with (String c (a +:+ b)). cbn [removeByte].
  rewrite IH. destruct (Ascii.eqb c old); reflexivity.
Qed.

Lemma removeByte_comm x y s :
  removeByte x (removeByte y s) = removeByte y (removeByte x s).
Proof.
  induction s as [|c s IH]; [reflexivity|]. cbn [removeByte].
  destruct (Ascii.eqb c y) eqn:Ey, (Ascii.eqb c x) eqn:Ex;
    cbn [removeByte]; rewrite ?Ey, ?Ex, IH; reflexivity.
Qed.

(** No encoding of white space holds a percent sign or a comma. *)
Lemma space_kept e :
  In e spaceRunes -> removeByte "," (removeByte "%" e) = e.
Proof.
  intros He. unfold spaceRunes in He. cbn in He.
  repeat (destruct He as [<-|He]; [reflexivity|]). destruct He.
Qed.

Lemma whiteSpace_kept w :
  whiteSpace w -> removeByte "," (removeByte "%" w) = w.
Proof.
  induction 1 as [|rune w Hrune _ IH]; [reflexivity|].
  rewrite !removeByte_app, (space_kept _ Hrune), IH. reflexivity.
Qed.

(** A text cell is read without regard to percent signs and commas,
    wherever they stand, and to white space around it - any code points
    of Unicode's white space, a no-break space for one - whatever
    [strconv.ParseFloat] makes of the rest; and a cell that is only such
    decoration, or a lone dash, reads 0 without being parsed. *)
Theorem parseFloat_ignores_decoration :
  forall (a b : string),
    parseFloat ParseFloat (Some (CString (a +:+ "%" +:+ b)))
    = parseFloat ParseFloat (Some (CString (a +:+ b))) /\
    parseFloat ParseFloat (Some (CString (a +:+ "," +:+ b)))
    = parseFloat ParseFloat (Some (CString (a +:+ b))) /\
    (forall before after, whiteSpace before -> whiteSpace after ->
       parseFloat ParseFloat (Some (CString (before +:+ a +:+ after)))
       = parseFloat ParseFloat (Some (CString a))) /\
    (forall space, In space spaceRunes ->
       parseFloat ParseFloat (Some (CString (space +:+ a)))
       = parseFloat ParseFloat (Some (CString a)) /\
       parseFloat ParseFloat (Some (CString (a +:+ space)))
       = parseFloat ParseFloat (Some (CString a))) /\
    (forall c, Ascii.is_space c = true -> In (String c "") spaceRunes) /\
    In (String "194" (String "160" "")) spaceRunes /\
    parseFloat ParseFloat (Some (CString "")) = 0%float /\
    parseFloat ParseFloat (Some (CString " -% ")) = 0%float /\
    parseFloat ParseFloat
      (Some (CString (String "194" (String "160" "-")))) = 0%float.
Proof.
  intros a b. unfold parseFloat.
  split; [|split; [|split; [|split; [|split; [|split; [|split; [|split]]]]]]].
  - rewrite !removeByte_app. reflexivity.
  - rewrite !removeByte_app. reflexivity.
  - intros before after Hb Ha.
    rewrite !removeByte_app, (whiteSpace_kept _ Hb), (whiteSpace_kept _ Ha),
      (TrimSpace_padding _ _ _ Hb Ha). reflexivity.
  - intros space Hs. split.
    + rewrite !removeByte_app, (space_kept space Hs),
        (TrimSpace_leading _ _ Hs). reflexivity.
    + rewrite !removeByte_app, (space_kept space Hs),
        (TrimSpace_trailing _ _ Hs). reflexivity.
  - intros c Hc. unfold spaceRunes. cbn.
    destruct c as [[] [] [] [] [] [] [] []]; try discriminate Hc; auto 10.
  - unfold spaceRunes. cbn. auto 10.
  - reflexivity.
  - reflexivity.
  - reflexivity.
Qed.

Lemma readField_cases (row : list cell) (idx : Z) :
  (readField ParseFloat row idx = None <-> idx < 0) /\
  (forall v, readField ParseFloat row idx = Some v ->
             Z.of_nat (length row) <= idx -> v = 0%float).
Proof.
  unfold readField, at_index.
  destruct (Z.gtb_spec (Z.of_nat (length row)) idx) as [Hgt|Hle].
  - destruct (Z.ltb_spec idx 0) as [Hneg|Hpos].
    + split; [|discriminate]. split; [intros _; exact Hneg|reflexivity].
    + destruct (row !! Z.to_nat idx) as [c|] eqn:Hc.
      * split; [split; [discriminate|lia]|]. intros; lia.
      * apply lookup_ge_None in Hc. lia.
  - split; [split; [discriminate|lia]|intros v [= <-] _; reflexivity].
Qed.

(** [parseKPIRow] panics exactly on a row that has cells and is read at
    a negative position; otherwise it returns a reading that carries the
    indicator and has 0 in every field whose position lies beyond the
    row. *)
Theorem parseKPIRow_panics_iff :
  forall (values : list (list cell)) (indicator : Indicator)
         (targetIdx percentIdx perfIdx : Z),
    (parseKPIRow ParseFloat values indicator targetIdx percentIdx perfIdx
     = None <->
     exists row rest,
       values = row :: rest /\ row <> [] /\
       (targetIdx < 0 \/ percentIdx < 0 \/ perfIdx < 0)) /\
    (forall kpiData,
        parseKPIRow ParseFloat values indicator targetIdx percentIdx perfIdx
        = Some kpiData ->
        kIndicatorCode kpiData = Code indicator /\
        kDepartment kpiData = Department indicator /\
        kName kpiData = Name indicator /\
        kIsInverse kpiData = IsInverse indicator /\
        let rowLen := Z.of_nat (length (default [] (head values))) in
        (rowLen <= targetIdx -> kTarget kpiData = 0%float) /\
        (rowLen <= percentIdx -> kPercentage kpiData = 0%float) /\
        (rowLen <= perfIdx -> kPerformance kpiData = 0%float)).
Proof.
  intros values indicator targetIdx percentIdx perfIdx.
  pose proof readField_cases as Hfield.
  unfold parseKPIRow.
  destruct values as [|[|c row] rest].
  - split; [split; [discriminate|intros (? & ? & [=] & _)]|].
    intros k [= <-]. simpl. auto 10.
  - split; [split; [discriminate|intros (? & ? & [= <- <-] & Hne & _);
                                  contradiction]|].
    intros k [= <-]. simpl. auto 10.
  - destruct (Hfield (c :: row) targetIdx) as [Ht Ht0],
             (Hfield (c :: row) percentIdx) as [Hp Hp0],
             (Hfield (c :: row) perfIdx) as [Hf Hf0].
    destruct (readField ParseFloat (c :: row) targetIdx) as [t|].
    2:{ split; [|discriminate]. split; [intros _|reflexivity].
        exists (c :: row), rest. split; [reflexivity|].
        split; [discriminate|]. left. apply Ht. reflexivity. }
    destruct (readField ParseFloat (c :: row) percentIdx) as [p|].
    2:{ split; [|discriminate]. split; [intros _|reflexivity].
        exists (c :: row), rest. split; [reflexivity|].
        split; [discriminate|]. right; left. apply Hp. reflexivity. }
    destruct (readField ParseFloat (c :: row) perfIdx) as [f|].
    2:{ split; [|discriminate]. split; [intros _|reflexivity].
        exists (c :: row), rest. split; [reflexivity|].
        split; [discriminate|]. right; right. apply Hf. reflexivity. }
    split.
    + split; [discriminate|].
      intros (row' & rest' & _ & _ & [H|[H|H]]); exfalso.
      * assert (Some t = None) by (apply Ht; exact H). discriminate.
      * assert (Some p = None) by (apply Hp; exact H). discriminate.
      * assert (Some f = None) by (apply Hf; exact H). discriminate.
    + intros k [= <-]. cbn [kIndicatorCode kDepartment kName kIsInverse
                             kTarget kPercentage kPerformance head default].
      repeat split; auto.
Qed.

End CellParsing.

Section Fetching.
Context {platform : Platform}.
Variable ParseFloat : string -> option float.

Lemma buildRanges_lengths layout sheetName lastColLetter indicators :
  length (fst (buildRanges layout sheetName lastColLetter indicators))
  = length (snd (buildRanges layout sheetName lastColLetter indicators)).
Proof.
  induction indicators as [|indicator l IH]; simpl; [reflexivity|].
  destruct (buildRanges layout sheetName lastColLetter l) as [ranges active].
  simpl in IH. destruct (IsActive indicator); simpl; [|exact IH].
  destruct (getIndicatorRow layout indicator) as [row [|]]; simpl;
    [f_equal|]; exact IH.
Qed.

Lemma parseKPIRow_describes values indicator targetIdx percentIdx perfIdx k :
  parseKPIRow ParseFloat values indicator targetIdx percentIdx perfIdx
  = Some k ->
  describes k indicator.
Proof.
  unfold parseKPIRow, describes.
  destruct values as [|[|c row] rest]; try (intros [= <-]; simpl; auto).
  destruct (readField ParseFloat (c :: row) targetIdx),
           (readField ParseFloat (c :: row) percentIdx),
           (readField ParseFloat (c :: row) perfIdx); try discriminate.
  intros [= <-]. simpl. auto.
Qed.

Lemma parseKPIRow_returns values indicator targetIdx percentIdx perfIdx :
  0 <= targetIdx -> 0 <= percentIdx -> 0 <= perfIdx ->
  exists k,
    parseKPIRow ParseFloat values indicator targetIdx percentIdx perfIdx
    = Some k.
Proof.
  intros Ht Hp Hf. unfold parseKPIRow.
  destruct values as [|[|c row] rest]; eauto.
  destruct (readField ParseFloat (c :: row) targetIdx) eqn:E1;
    [|apply (readField_cases ParseFloat) in E1; lia].
  destruct (readField ParseFloat (c :: row) percentIdx) eqn:E2;
    [|apply (readField_cases ParseFloat) in E2; lia].
  destruct (readField ParseFloat (c :: row) perfIdx) eqn:E3;
    [|apply (readField_cases ParseFloat) in E3; lia].
  eauto.
Qed.

Lemma parseBatch_describes targetIdx percentIdx perfIdx valueRanges :
  forall activeIndicators l,
    parseBatch ParseFloat valueRanges activeIndicators
      targetIdx percentIdx perfIdx = Some l ->
    Forall2 describes l (firstn (length valueRanges) activeIndicators).
Proof.
  induction valueRanges as [|values valueRanges IH];
    intros [|indicator active] l; simpl;
    try (intros [= <-]; constructor).
  destruct (parseKPIRow _ _ _ _ _ _) as [k|] eqn:Hk; [|discriminate].
  destruct (parseBatch _ _ _ _ _ _) as [l'|] eqn:Hl; [|discriminate].
  intros [= <-]. constructor; [|apply IH; exact Hl].
  eapply parseKPIRow_describes; exact Hk.
Qed.

Lemma parseBatch_returns targetIdx percentIdx perfIdx valueRanges :
  0 <= targetIdx -> 0 <= percentIdx -> 0 <= perfIdx ->
  forall activeIndicators,
    exists l, parseBatch ParseFloat valueRanges activeIndicators
                targetIdx percentIdx perfIdx = Some l.
Proof.
  intros Ht Hp Hf.
  induction valueRanges as [|values valueRanges IH];
    intros [|indicator active]; simpl; eauto.
  destruct (parseKPIRow_returns values indicator _ _ _ Ht Hp Hf) as [k ->].
  destruct (IH active) as [l ->]. eauto.
Qed.

Lemma zeroReading_describes l : Forall2 describes (map zeroReading l) l.
Proof.
  induction l; simpl; constructor; [|assumption].
  unfold describes; simpl; auto.
Qed.

Lemma buildRanges_fetched layout sheetName lastColLetter indicators :
  exists ranges,
    buildRanges layout sheetName lastColLetter indicators
    = (ranges, fetched layout indicators) /\
    length ranges = length (fetched layout indicators).
Proof.
  pose proof (buildRanges_active layout sheetName lastColLetter indicators)
    as Ha.
  pose proof (buildRanges_lengths layout sheetName lastColLetter indicators)
    as Hl.
  destruct (buildRanges layout sheetName lastColLetter indicators)
    as [ranges active].
  simpl in Ha, Hl. exists ranges. unfold fetched. rewrite <- Ha. auto.
Qed.

(** Whatever the sheet answers, a successful [FetchKPIData] returns
    readings of the catalogue's own indicators: the active ones whose row
    was found, in catalogue order, one reading per value range of the
    answer and none beyond the last such indicator.  A reading is paired
    with its indicator by position alone. *)
Theorem FetchKPIData_readings_follow_catalogue :
  forall (getLayout : result DiscoveredLayout)
         (createClient : result batchService)
         (spreadsheetID sheetName : string) (indicators : list Indicator)
         (month : Z) (kpiDataList : list KPIData),
    FetchKPIData ParseFloat getLayout createClient spreadsheetID sheetName
      indicators month = Some (Ok kpiDataList) ->
    exists layout (n : nat),
      getLayout = Ok layout /\
      Forall2 describes kpiDataList (firstn n (fetched layout indicators)).
Proof.
  intros getLayout createClient spreadsheetID sheetName indicators month l.
  unfold FetchKPIData.
  destruct getLayout as [layout|]; [|discriminate].
  destruct (MonthColumns layout !! month) as [monthCols|]; [|discriminate].
  destruct createClient as [srv|]; [|discriminate].
  destruct (buildRanges_fetched layout sheetName
              (indexToCol (maxColumn (default 0 (monthCols !! 0%nat))
                             (default 0 (monthCols !! 2%nat))
                             (default 0 (monthCols !! 3%nat)))) indicators)
    as (ranges & -> & Hlen).
  destruct ranges as [|range ranges].
  - intros [= <-]. exists layout, 0%nat. split; [reflexivity|]. constructor.
  - destruct (srv spreadsheetID (range :: ranges)) as [valueRanges|].
    + destruct (parseBatch _ _ _ _ _ _) as [l'|] eqn:Hp; [|discriminate].
      intros [= <-]. exists layout, (length valueRanges).
      split; [reflexivity|]. eapply parseBatch_describes; exact Hp.
    + intros [= <-]. exists layout, (length (fetched layout indicators)).
      split; [reflexivity|]. rewrite firstn_all. apply zeroReading_describes.
Qed.

(** A batch read that fails is not an error of [FetchKPIData]: with a
    layout that has the month and a client, every indicator that was
    asked for gets a reading with zero target, performance and
    percentage, and the caller cannot tell it from a sheet of zeros. *)
Theorem FetchKPIData_failed_read_gives_zeros :
  forall (layout : DiscoveredLayout) (srv : batchService)
         (spreadsheetID sheetName : string) (indicators : list Indicator)
         (month : Z) (err : string),
    MonthColumns layout !! month <> None ->
    (forall ranges, srv spreadsheetID ranges = Err err) ->
    FetchKPIData ParseFloat (Ok layout) (Ok srv) spreadsheetID sheetName
      indicators month
    = Some (Ok (map zeroReading (fetched layout indicators))).
Proof.
  intros layout srv spreadsheetID sheetName indicators month err Hm Hsrv.
  unfold FetchKPIData.
  destruct (MonthColumns layout !! month) as [monthCols|]; [|contradiction].
  destruct (buildRanges_fetched layout sheetName
              (indexToCol (maxColumn (default 0 (monthCols !! 0%nat))
                             (default 0 (monthCols !! 2%nat))
                             (default 0 (monthCols !! 3%nat)))) indicators)
    as (ranges & -> & Hlen).
  destruct ranges as [|range ranges].
  - destruct (fetched layout indicators); [reflexivity|discriminate].
  - rewrite Hsrv. reflexivity.
Qed.

(** The only errors of [FetchKPIData] are a layout that cannot be had, a
    month the layout does not have, and a client that cannot be made -
    the client's error is passed on as it is, and the month is looked up
    before the client is made. *)
Theorem FetchKPIData_errors :
  forall (getLayout : result DiscoveredLayout)
         (createClient : result batchService)
         (spreadsheetID sheetName : string) (indicators : list Indicator)
         (month : Z) (msg : string),
    FetchKPIData ParseFloat getLayout createClient spreadsheetID sheetName
      indicators month = Some (Err msg) <->
    (exists err, getLayout = Err err /\
                 msg = "failed to get layout: " +:+ err) \/
    (exists layout, getLayout = Ok layout /\
                    MonthColumns layout !! month = None /\
                    msg = "month " +:+ pretty month
                          +:+ " not found in discovered layout") \/
    (exists layout, getLayout = Ok layout /\
                    MonthColumns layout !! month <> None /\
                    createClient = Err msg).
Proof.
  intros getLayout createClient spreadsheetID sheetName indicators month msg.
  unfold FetchKPIData.
  destruct getLayout as [layout|err].
  2:{ split.
      - intros [= <-]. left. eauto.
      - intros [(e & [= <-] & ->)|[(l & [=] & _)|(l & [=] & _)]]. reflexivity. }
  destruct (MonthColumns layout !! month) as [monthCols|] eqn:Hm.
  2:{ split.
      - intros [= <-]. right; left. eauto.
      - intros [(e & [=] & _)|[(l & _ & _ & ->)|(l & [= <-] & Hne & _)]];
          [reflexivity|congruence]. }
  destruct createClient as [srv|err].
  2:{ split.
      - intros [= <-]. right; right. exists layout. rewrite Hm. auto.
      - intros [(e & [=] & _)|[(l & [= <-] & Hn & _)|(l & _ & _ & [= <-])]];
          [congruence|reflexivity]. }
  split.
  - destruct (buildRanges _ _ _ _) as [[|range ranges] active];
      [discriminate|].
    destruct (srv spreadsheetID _); [|discriminate].
    destruct (parseBatch _ _ _ _ _ _); discriminate.
  - intros [(e & [=] & _)|[(l & [= <-] & Hn & _)|(l & _ & _ & [=])]].
    congruence.
Qed.

(** With a layout that discovery produced, [FetchKPIData] returns: the
    positions it reads lie inside the header row, so no row is ever
    indexed out of range. *)
Theorem FetchKPIData_returns_on_discovered_layout :
  forall (now : Z) (sheet : service) (createClient : result batchService)
         (spreadsheetID sheetName : string) (layout : DiscoveredLayout)
         (indicators : list Indicator) (month : Z),
    DiscoverLayout now sheet spreadsheetID sheetName = Ok layout ->
    exists answer,
      FetchKPIData ParseFloat (Ok layout) createClient spreadsheetID
        sheetName indicators month = Some answer.
Proof.
  intros now sheet createClient spreadsheetID sheetName layout indicators
         month Hd.
  unfold DiscoverLayout in Hd.
  destruct (discoverColumns sheet spreadsheetID sheetName)
    as [cols|] eqn:Hc; [|discriminate].
  destruct (discoverRows sheet spreadsheetID sheetName) as [kpiRows|];
    [|discriminate].
  injection Hd as <-.
  destruct (discoverColumns_bounds _ _ _ _ Hc) as (header & rest & _ & Hb).
  unfold FetchKPIData. cbn [MonthColumns].
  destruct (cols !! month) as [monthCols|] eqn:Hm; [|eauto].
  assert (Hpos : forall k : nat, 0 <= default 0 (monthCols !! k)).
  { intros k. destruct (monthCols !! k) as [v|] eqn:Hk; simpl; [|lia].
    assert (In v monthCols).
    { apply list_elem_of_In. eapply list_elem_of_lookup_2. exact Hk. }
    destruct (Hb month monthCols v Hm H). lia. }
  destruct createClient as [srv|]; [|eauto].
  destruct (buildRanges _ _ _ _) as [[|range ranges] active]; [eauto|].
  destruct (srv spreadsheetID _) as [valueRanges|]; [|eauto].
  destruct (parseBatch_returns _ _ _ valueRanges
              (Hpos 0%nat) (Hpos 2%nat) (Hpos 3%nat) active) as [l ->].
  eauto.
Qed.

End Fetching.

(** ** The dashboard response *)

Section ScheduleSummaryOfResponses.
Context {platform : Platform}.

Lemma calculateVariance_status currentDay target actual isInverse month year :
  let status :=
    snd (calculateVariance currentDay target actual isInverse month year) in
  status = "ahead" \/ status = "on_schedule" \/ status = "behind".
Proof.
  unfold calculateVariance. cbv zeta.
  destruct (feq target 0); [simpl; auto|].
  destruct (feq _ 0); [simpl; auto|].
  cbn [snd].
  destruct (fgt _ 5); [auto|]. destruct (flt _ (-5)); auto.
Qed.

Lemma loopBody_schedule_status currentDay month year prevSnapshots acc kpiData :
  exists response,
    indicatorResponses (loopBody currentDay month year prevSnapshots acc kpiData)
    = indicatorResponses acc ++ [response] /\
    (rScheduleStatus response = "ahead" \/
     rScheduleStatus response = "on_schedule" \/
     rScheduleStatus response = "behind").
Proof.
  unfold loopBody. cbv zeta.
  pose proof (calculateVariance_status currentDay (kTarget kpiData)
                (kPerformance kpiData) (kIsInverse kpiData) month year) as Hs.
  cbv zeta in Hs.
  destruct (calculateVariance _ _ _ _ _ _) as [[expected variance] status].
  destruct (calculateWoWChange _ _ _) as [change direction].
  destruct (if _ : bool then _ else _) as [[green yellow] red].
  eexists. split; [reflexivity|]. exact Hs.
Qed.

Lemma loop_schedule_statuses currentDay month year prevSnapshots kpiDataList :
  forall acc,
    Forall (fun r => rScheduleStatus r = "ahead" \/
                     rScheduleStatus r = "on_schedule" \/
                     rScheduleStatus r = "behind")
      (indicatorResponses acc) ->
    Forall (fun r => rScheduleStatus r = "ahead" \/
                     rScheduleStatus r = "on_schedule" \/
                     rScheduleStatus r = "behind")
      (indicatorResponses
         (fold_left (loopBody currentDay month year prevSnapshots)
            kpiDataList acc)) /\
    length (indicatorResponses
              (fold_left (loopBody currentDay month year prevSnapshots)
                 kpiDataList acc))
    = (length (indicatorResponses acc) + length kpiDataList)%nat.
Proof.
  induction kpiDataList as [|kpiData l IH]; intros acc Hacc; simpl.
  - split; [exact Hacc|lia].
  - destruct (loopBody_schedule_status currentDay month year prevSnapshots acc
                kpiData) as (response & Hr & Hs).
    destruct (IH (loopBody currentDay month year prevSnapshots acc kpiData))
      as [IH1 IH2].
    { rewrite Hr. apply Forall_app. split; [exact Hacc|]. constructor; auto. }
    split; [exact IH1|]. rewrite IH2, Hr, length_app. simpl. lia.
Qed.

Lemma scheduleLoop_counts responses : forall acc,
  let s := fold_left scheduleLoop responses acc in
  sAheadCount s = sAheadCount acc + scheduled "ahead" responses /\
  sOnScheduleCount s
  = sOnScheduleCount acc + scheduled "on_schedule" responses /\
  sBehindCount s = sBehindCount acc + scheduled "behind" responses.
Proof.
  unfold scheduled.
  induction responses as [|r l IH]; intros acc; cbn [fold_left].
  - simpl. lia.
  - destruct (IH (scheduleLoop acc r)) as (IH1 & IH2 & IH3).
    cbv zeta. rewrite IH1, IH2, IH3. clear IH IH1 IH2 IH3.
    unfold scheduleLoop. cbn [List.filter].
    destruct (String.eqb_spec (rScheduleStatus r) "ahead") as [->|H1].
    { cbn. lia. }
    destruct (String.eqb_spec (rScheduleStatus r) "on_schedule") as [->|H2].
    { cbn. lia. }
    destruct (String.eqb_spec (rScheduleStatus r) "behind") as [_|_];
      cbn; lia.
Qed.

(** The schedule summary of a dashboard counts every indicator once:
    each counter is the number of responses with its status, and the
    three add up to the number of readings - no response has a schedule
    status outside the three. *)
Theorem GetDashboardData_schedule_summary :
  forall (currentDay : Z) (kpiDataList : list KPIData)
         (prevSnapshots : gmap string float) (month year : Z),
    let responses :=
      snd (GetDashboardData currentDay kpiDataList prevSnapshots month year) in
    let summary := scheduleSummary responses in
    sAheadCount summary = scheduled "ahead" responses /\
    sOnScheduleCount summary = scheduled "on_schedule" responses /\
    sBehindCount summary = scheduled "behind" responses /\
    sAheadCount summary + sOnScheduleCount summary + sBehindCount summary
    = Z.of_nat (length kpiDataList).
Proof.
  intros currentDay kpiDataList prevSnapshots month year responses summary.
  destruct (scheduleLoop_counts responses
              {| sAheadCount := 0; sOnScheduleCount := 0;
                 sBehindCount := 0 |}) as (Ha & Ho & Hb).
  fold (scheduleSummary responses) in Ha, Ho, Hb. fold summary in Ha, Ho, Hb.
  cbn [sAheadCount sOnScheduleCount sBehindCount] in Ha, Ho, Hb.
  rewrite Ha, Ho, Hb. repeat split; try lia.
  destruct (loop_schedule_statuses currentDay month year prevSnapshots
              kpiDataList
              {| indicatorResponses := []; greenCount := 0;
                 yellowCount := 0; redCount := 0 |}) as [Hall Hlen].
  { constructor. }
  change (Forall (fun r => rScheduleStatus r = "ahead" \/
                           rScheduleStatus r = "on_schedule" \/
                           rScheduleStatus r = "behind") responses) in Hall.
  change (length responses = length kpiDataList) in Hlen.
  rewrite <- Hlen. clear Hlen Ha Ho Hb summary.
  unfold scheduled. induction Hall as [|r l Hr _ IH]; [reflexivity|].
  cbn [List.filter length].
  destruct Hr as [-> | [-> | ->]]; cbn [String.eqb Ascii.eqb Bool.eqb];
    cbn [length]; lia.
Qed.

(** Without readings the dashboard is empty and red: when the requested
    year is not the configured one, or the fetch fails, there is no
    indicator, every counter is 0, the overall percentage is 0 and the
    overall status is red - the failure is not reported. *)
Theorem GetDashboardData_without_readings :
  forall (currentDay spreadsheetYear : Z) (fetch : result (list KPIData))
         (prevSnapshots : gmap string float) (month year : Z),
    year <> spreadsheetYear \/ (exists err, fetch = Err err) ->
    GetDashboardData currentDay (readingsFor spreadsheetYear year fetch)
      prevSnapshots month year
    = ({| oPercentage := 0; oStatus := "red"; oGreenCount := 0;
          oYellowCount := 0; oRedCount := 0 |}, []) /\
    scheduleSummary
      (snd (GetDashboardData currentDay
              (readingsFor spreadsheetYear year fetch)
              prevSnapshots month year))
    = {| sAheadCount := 0; sOnScheduleCount := 0; sBehindCount := 0 |}.
Proof.
  intros currentDay spreadsheetYear fetch prevSnapshots month year Hcase.
  assert (Hnil : readingsFor spreadsheetYear year fetch = []).
  { unfold readingsFor. destruct (Z.eqb_spec year spreadsheetYear) as [He|];
      [|reflexivity].
    destruct Hcase as [Hne|[err ->]]; [contradiction|reflexivity]. }
  rewrite Hnil. split; vm_compute; reflexivity.
Qed.

End ScheduleSummaryOfResponses.

(** ** Saving and reading snapshots *)

Section SnapshotWrites.
Context {platform : Platform}.

Lemma createAll_fails msg fs rows : forall (k : nat) db,
  (k < length rows)%nat ->
  faults db = repeat None k ++ Some msg :: fs ->
  createAll rows db
  = (Err msg, {| weekly_snapshots := weekly_snapshots db ++ firstn k rows;
                 faults := fs |}).
Proof.
  induction rows as [|row rows IH]; intros k db Hk Hf; simpl in Hk; [lia|].
  cbn [createAll]. unfold Create, next_fault. rewrite Hf.
  destruct k as [|k]; cbn [repeat app firstn].
  - rewrite app_nil_r. reflexivity.
  - rewrite (IH k); [|lia|reflexivity].
    cbn [weekly_snapshots]. rewrite <- app_assoc. reflexivity.
Qed.

(** The inserts of [SaveSnapshot] are not one transaction: when the
    delete and the first [k] inserts succeed and the next insert fails,
    the save returns that error, the old rows of the week are gone, and
    the week is left with the first [k] new rows only. *)
Theorem SaveSnapshot_failed_insert_is_not_rolled_back :
  forall (db : store) (date : Z) (B : list IndicatorResponse)
         (month year week : Z) (k : nat) (msg : string)
         (fs : list (option string)),
    (k < length B)%nat ->
    faults db = None :: repeat None k ++ Some msg :: fs ->
    let saved := SaveSnapshot date B month year week db in
    fst saved = Err msg /\
    List.filter (sameWeek month year week) (weekly_snapshots (snd saved))
    = map (snapshotOf date month year week) (firstn k B) /\
    List.filter (fun r => negb (sameWeek month year week r))
      (weekly_snapshots (snd saved))
    = List.filter (fun r => negb (sameWeek month year week r))
        (weekly_snapshots db) /\
    faults (snd saved) = fs.
Proof.
  intros db date B month year week k msg fs Hk Hf saved.
  assert (Hsaved :
    saved
    = (Err msg,
       {| weekly_snapshots :=
            List.filter (fun r => negb (sameWeek month year week r))
              (weekly_snapshots db)
            ++ map (snapshotOf date month year week) (firstn k B);
          faults := fs |})).
  { unfold saved, SaveSnapshot, Delete, next_fault. rewrite Hf.
    cbn [weekly_snapshots faults].
    rewrite (createAll_fails msg fs _ k); cbn [weekly_snapshots faults];
      [|rewrite length_map; exact Hk|reflexivity].
    rewrite firstn_map. reflexivity. }
  rewrite Hsaved. cbn [fst snd weekly_snapshots faults].
  destruct (filter_sameWeek_snapshotOf date month year week (firstn k B))
    as [HB1 HB2].
  destruct (filter_filter_negb (sameWeek month year week)
              (weekly_snapshots db)) as [HF1 HF2].
  cbv zeta in HB1, HB2.
  rewrite !List.filter_app, HF1, HF2, HB1, HB2, app_nil_r.
  auto.
Qed.

Lemma succeeds_fewer (m n : nat) db :
  (m <= n)%nat -> succeeds n db -> succeeds m db.
Proof.
  unfold succeeds. generalize (faults db) as fs. revert n.
  induction m as [|m IH]; intros n fs Hle H; [constructor|].
  destruct n as [|n]; [lia|]. destruct fs as [|f fs]; [constructor|].
  cbn [firstn] in *. inversion H; subst.
  constructor; [auto|]. apply (IH n); [lia|assumption].
Qed.

Lemma createAll_succeeds_store rows : forall db,
  succeeds (length rows) db ->
  createAll rows db
  = (Ok tt, {| weekly_snapshots := weekly_snapshots db ++ rows;
               faults := skipn (length rows) (faults db) |}).
Proof.
  induction rows as [|row rows IH]; intros db Hok.
  - simpl. rewrite app_nil_r. destruct db; reflexivity.
  - cbn [createAll length]. unfold Create.
    rewrite (next_fault_succeeds _ _ Hok).
    rewrite IH by (apply (succeeds_tail _ _ db Hok)).
    cbn [weekly_snapshots faults]. rewrite <- app_assoc.
    destruct (faults db); [destruct (length rows)|]; reflexivity.
Qed.

Lemma succeeds_then_next (n : nat) rows : forall fs,
  Forall (fun fault : option string => fault = None) (firstn (S n) fs) ->
  fst (next_fault {| weekly_snapshots := rows; faults := skipn n fs |})
  = None.
Proof.
  induction n as [|n IH]; intros [|f fs] H; try reflexivity.
  - inversion H; subst. reflexivity.
  - apply IH. inversion H; subst. assumption.
Qed.

Lemma SaveSnapshot_succeeds_store db date B month year week :
  succeeds (S (length B)) db ->
  SaveSnapshot date B month year week db
  = (Ok tt,
     {| weekly_snapshots :=
          List.filter (fun r => negb (sameWeek month year week r))
            (weekly_snapshots db)
          ++ map (snapshotOf date month year week) B;
        faults := skipn (S (length B)) (faults db) |}).
Proof.
  intros Hok. unfold SaveSnapshot, Delete.
  rewrite (next_fault_succeeds _ _ Hok).
  rewrite createAll_succeeds_store
    by (rewrite length_map; apply (succeeds_tail _ _ db Hok)).
  cbn [weekly_snapshots faults]. rewrite length_map.
  destruct (faults db) as [|f fs]; [destruct (length B)|]; reflexivity.
Qed.

(** A run of inserts that reports success has appended every row. *)
Lemma createAll_ok_rows rows : forall db,
  fst (createAll rows db) = Ok tt ->
  weekly_snapshots (snd (createAll rows db)) = weekly_snapshots db ++ rows.
Proof.
  induction rows as [|row rows IH]; intros db Hok.
  - simpl. rewrite app_nil_r. reflexivity.
  - cbn [createAll] in *. unfold Create in *.
    destruct (next_fault db) as [[msg|] db1] eqn:Hnext;
      [discriminate Hok|].
    rewrite (IH _ Hok). cbn [weekly_snapshots].
    pose proof (next_fault_rows db) as Hrows. rewrite Hnext in Hrows.
    cbn [snd] in Hrows. rewrite Hrows, <- app_assoc. reflexivity.
Qed.

(** A save that reports success has appended its rows to what its
    delete left: the rows of the other weeks, or - the delete having
    failed - all the rows there were. *)
Lemma SaveSnapshot_ok_rows db date B month year week :
  fst (SaveSnapshot date B month year week db) = Ok tt ->
  exists kept,
    (forall r, In r kept -> In r (weekly_snapshots db)) /\
    weekly_snapshots (snd (SaveSnapshot date B month year week db))
    = kept ++ map (snapshotOf date month year week) B.
Proof.
  unfold SaveSnapshot, Delete.
  pose proof (next_fault_rows db) as Hrows.
  destruct (next_fault db) as [[msg|] db1]; cbn [snd] in Hrows; intros Hok.
  - exists (weekly_snapshots db). split; [auto|].
    rewrite (createAll_ok_rows _ _ Hok), Hrows. reflexivity.
  - exists (List.filter (fun r => negb (sameWeek month year week r))
              (weekly_snapshots db)).
    split; [intros r Hr; apply filter_In in Hr as [Hr _]; exact Hr|].
    rewrite (createAll_ok_rows _ _ Hok). cbn [weekly_snapshots].
    rewrite Hrows. reflexivity.
Qed.

(** Saving and reading back: after a save that reports success - its
    inserts succeeded, its delete may have failed - and is newer than
    every stored snapshot of the month, the next dashboard of the month,
    when its read of the stored snapshots succeeds, compares each saved
    indicator with a row of that save: the older snapshots of the month
    no longer count.  When that read fails, the dashboard compares with
    nothing. *)
Theorem saved_snapshot_is_the_previous_week :
  forall (db : store) (date : Z) (B : list IndicatorResponse)
         (month year week : Z) (b : IndicatorResponse),
    let saved := SaveSnapshot date B month year week db in
    let db' := snd saved in
    let prevSnapshots := fst (getPreviousWeekSnapshots month year db') in
    fst saved = Ok tt ->
    (forall r, In r (weekly_snapshots db) ->
               sameMonthYear month year r = true -> SnapshotDate r < date) ->
    In b B ->
    (fst (next_fault db') = None ->
     exists row,
       In row (weekly_snapshots db') /\
       ~ In row (weekly_snapshots db) /\
       SnapshotDate row = date /\
       WeekNumber row = week /\
       IndicatorID row = rCode b /\
       prevSnapshots !! rCode b = Some (SnapPercentage row)) /\
    (forall msg, fst (next_fault db') = Some msg -> prevSnapshots = ∅).
Proof.
  intros db date B month year week b saved db' prevSnapshots Hok Hold Hb.
  split.
  - intros Hnext.
    destruct (SaveSnapshot_ok_rows db date B month year week Hok)
      as (kept & Hkept & Hdb').
    fold saved in Hdb'. fold db' in Hdb'.
    destruct (getPreviousWeekSnapshots_latest db' month year (rCode b) Hnext)
      as [_ Hsome].
    fold prevSnapshots in Hsome. cbv zeta in Hsome.
    assert (Hmine : In (snapshotOf date month year week b)
                      (snapshotsOf (rCode b) month year db')).
    { unfold snapshotsOf. apply filter_In. split.
      - rewrite Hdb'. apply in_or_app. right. apply in_map. exact Hb.
      - unfold sameMonthYear. cbn [snapshotOf Month Year IndicatorID].
        rewrite !Z.eqb_refl, String.eqb_refl. reflexivity. }
    destruct Hsome as (latest & Hin & Hmax & Hprev).
    { intros Hnil. rewrite Hnil in Hmine. destruct Hmine. }
    specialize (Hmax _ Hmine). cbn [snapshotOf SnapshotDate] in Hmax.
    unfold snapshotsOf in Hin. apply filter_In in Hin as [Hin Hcond].
    apply andb_true_iff in Hcond as [Hmonth Hcode].
    apply String.eqb_eq in Hcode.
    exists latest. split; [exact Hin|].
    rewrite Hdb' in Hin. apply in_app_or in Hin as [Hin|Hin].
    + specialize (Hold latest (Hkept _ Hin) Hmonth). lia.
    + apply in_map_iff in Hin as (b' & <- & Hb').
      cbn [snapshotOf IndicatorID SnapPercentage SnapshotDate WeekNumber]
        in *.
      repeat split; auto.
      intros Hin. specialize (Hold _ Hin Hmonth).
      cbn [snapshotOf SnapshotDate] in Hold. lia.
  - intros msg Hnext. unfold prevSnapshots, getPreviousWeekSnapshots,
      FindOrdered.
    destruct (next_fault db') as [fault db'']. cbn [fst] in Hnext.
    subst fault. reflexivity.
Qed.

End SnapshotWrites.

(** ** The status of a percentage *)

Module F64Order.

Local Ltac cmp_cases :=
  repeat match goal with
  | |- context [Z.compare ?a ?b] => destruct (Z.compare_spec a b)
  | H : context [Z.compare ?a ?b] |- _ => destruct (Z.compare_spec a b)
  | |- context [Pos.compare_cont Eq ?a ?b] =>
      change (Pos.compare_cont Eq a b) with (Pos.compare a b);
      destruct (Pos.compare_spec a b)
  | H : context [Pos.compare_cont Eq ?a ?b] |- _ =>
      change (Pos.compare_cont Eq a b) with (Pos.compare a b) in H;
      destruct (Pos.compare_spec a b)
  end.

Lemma SFltb_leb_trans (x y z : spec_float) :
  SFltb x y = true -> SFleb y z = true -> SFltb x z = true.
Proof.
  unfold SFltb, SFleb.
  destruct x as [sx|sx| |sx mx ex], y as [sy|sy| |sy my ey],
           z as [sz|sz| |sz mz ez];
    simpl; try discriminate; try reflexivity;
    repeat match goal with s : bool |- _ => destruct s end;
    simpl; try discriminate; try reflexivity;
    cmp_cases; simpl; subst; try discriminate; try reflexivity;
    intros _ _; exfalso; lia.
Qed.

Lemma SFleb_trans (x y z : spec_float) :
  SFleb x y = true -> SFleb y z = true -> SFleb x z = true.
Proof.
  unfold SFleb.
  destruct x as [sx|sx| |sx mx ex], y as [sy|sy| |sy my ey],
           z as [sz|sz| |sz mz ez];
    simpl; try discriminate; try reflexivity;
    repeat match goal with s : bool |- _ => destruct s end;
    simpl; try discriminate; try reflexivity;
    cmp_cases; simpl; subst; try discriminate; try reflexivity;
    intros _ _; exfalso; lia.
Qed.

Lemma ltb_leb_trans (x y z : float) :
  PrimFloat.ltb x y = true -> PrimFloat.leb y z = true ->
  PrimFloat.ltb x z = true.
Proof. rewrite !ltb_spec, leb_spec. apply SFltb_leb_trans. Qed.

Lemma leb_trans (x y z : float) :
  PrimFloat.leb x y = true -> PrimFloat.leb y z = true ->
  PrimFloat.leb x z = true.
Proof. rewrite !leb_spec. apply SFleb_trans. Qed.

End F64Order.

Section StatusOrder.
Context {platform : Platform}.

(** The status never gets worse as a normal metric's percentage grows,
    and never gets better as an inverse metric's percentage grows. *)
Theorem calculateStatus_monotone :
  forall (p q : float),
    PrimFloat.leb p q = true ->
    statusRank (calculateStatus p false)
    <= statusRank (calculateStatus q false) /\
    statusRank (calculateStatus q true)
    <= statusRank (calculateStatus p true).
Proof.
  intros p q Hpq.
  assert (Hgt : forall c, fgt p c = true -> fgt q c = true).
  { intros c H. unfold fgt in *. exact (F64Order.ltb_leb_trans c p q H Hpq). }
  assert (Hge : forall c, fge p c = true -> fge q c = true).
  { intros c H. unfold fge in *. exact (F64Order.leb_trans c p q H Hpq). }
  unfold calculateStatus. split.
  - pose proof (Hgt 100%float) as H100. pose proof (Hgt 85%float) as H85.
    pose proof (Hgt 55%float) as H55.
    destruct (fgt p 100); [rewrite H100 by reflexivity; vm_compute; discriminate|].
    destruct (fgt p 85).
    { rewrite H85 by reflexivity. destruct (fgt q 100); vm_compute; discriminate. }
    destruct (fgt p 55).
    { rewrite H55 by reflexivity.
      destruct (fgt q 100), (fgt q 85); vm_compute; discriminate. }
    destruct (fgt q 100), (fgt q 85), (fgt q 55); vm_compute; discriminate.
  - pose proof (Hge 100%float) as H100. pose proof (Hge 85%float) as H85.
    pose proof (Hge 55%float) as H55.
    destruct (fge p 100); [rewrite H100 by reflexivity; vm_compute; discriminate|].
    destruct (fge p 85).
    { rewrite H85 by reflexivity. destruct (fge q 100); vm_compute; discriminate. }
    destruct (fge p 55).
    { rewrite H55 by reflexivity.
      destruct (fge q 100), (fge q 85); vm_compute; discriminate. }
    destruct (fge q 100), (fge q 85), (fge q 55); vm_compute; discriminate.
Qed.

End StatusOrder.

(** ** The comparison period *)

Section Comparison.
Context {platform : Platform}.

(** For a period that passed the checks of the handler: the previous
    month is the calendar month before (December of the year before for
    January), the previous year is the same month a year earlier, and any
    other comparison type compares the period with itself.  The year of
    the comparison period is not checked again: it can be 2019. *)
Theorem comparisonPeriod_calendar :
  forall (compareWith : string) (month year : Z),
    validPeriod month year = true ->
    let '(compareMonth, compareYear) :=
      comparisonPeriod compareWith month year in
    1 <= compareMonth <= 12 /\
    (compareWith = "previous_month" ->
     12 * compareYear + compareMonth = 12 * year + month - 1) /\
    (compareWith = "previous_year" ->
     compareMonth = month /\ compareYear = year - 1) /\
    (compareWith <> "previous_month" -> compareWith <> "previous_year" ->
     compareMonth = month /\ compareYear = year) /\
    (validPeriod compareMonth compareYear = false <->
     year = 2020 /\
     (compareWith = "previous_year" \/
      compareWith = "previous_month" /\ month = 1)).
Proof.
  intros compareWith month year Hvalid.
  unfold validPeriod in Hvalid.
  apply andb_true_iff in Hvalid as [Hm Hy].
  apply negb_true_iff, orb_false_iff in Hm as [Hm1 Hm2].
  apply negb_true_iff, orb_false_iff in Hy as [Hy1 Hy2].
  apply Z.ltb_ge in Hm1, Hy1.
  assert (month <= 12 /\ year <= 2100) as [Hm3 Hy3].
  { destruct (Z.gtb_spec month 12), (Z.gtb_spec year 2100);
      try discriminate. lia. }
  clear Hm2 Hy2.
  assert (Hwm : wrap64 (month - 1) = month - 1).
  { unfold wrap64, min_int, max_int. 
    rewrite Z.mod_small; lia. }
  assert (Hwy : wrap64 (year - 1) = year - 1).
  { unfold wrap64, min_int, max_int. rewrite Z.mod_small; lia. }
  unfold comparisonPeriod. rewrite Hwm, Hwy.
  assert (Hv : forall m y, validPeriod m y = false <->
                           (m < 1 \/ 12 < m \/ y < 2020 \/ 2100 < y)).
  { intros m y. unfold validPeriod.
    destruct (Z.ltb_spec m 1), (Z.gtb_spec m 12), (Z.ltb_spec y 2020),
             (Z.gtb_spec y 2100); simpl; split; intros; try discriminate;
      try reflexivity; lia. }
  destruct (String.eqb_spec compareWith "previous_month") as [->|Hpm].
  - destruct (Z.ltb_spec (month - 1) 1).
    + rewrite Hv. split; [lia|]. split; [intros _; lia|].
      split; [discriminate|]. split; [congruence|]. split.
      * intros Hout. split; [lia|]. right. split; [reflexivity|lia].
      * intros [-> _]. lia.
    + rewrite Hv. split; [lia|]. split; [intros _; lia|].
      split; [discriminate|]. split; [congruence|]. split.
      * intros Hout. lia.
      * intros [_ [Hc|[_ ->]]]; [discriminate Hc|lia].
  - destruct (String.eqb_spec compareWith "previous_year") as [->|Hpy].
    + rewrite Hv. split; [lia|]. split; [discriminate|].
      split; [intros _; lia|]. split; [congruence|]. split.
      * intros Hout. split; [lia|]. left. reflexivity.
      * intros [-> _]. lia.
    + rewrite Hv. split; [lia|]. split; [congruence|].
      split; [congruence|]. split; [intros _ _; lia|]. split.
      * intros Hout. lia.
      * intros [_ [Hc|[Hc _]]]; contradiction.
Qed.

End Comparison.

(** ** Saving a dashboard without readings, and deleting a week *)

Section WeekRemoval.
Context {platform : Platform}.

(** Saving the dashboard of a period whose readings could not be had -
    the fetch failed, or the year is not the configured one - writes no
    snapshot and reports success, whatever the database does.  It
    deletes the stored snapshots of the week, the snapshots of other
    weeks staying, when its delete succeeds; when the delete fails the
    table is as it was. *)
Theorem SaveSnapshot_without_readings_empties_week :
  forall (db : store) (date currentDay spreadsheetYear : Z)
         (fetch : result (list KPIData)) (prevSnapshots : gmap string float)
         (month year week : Z),
    year <> spreadsheetYear \/ (exists err, fetch = Err err) ->
    let dashboard :=
      GetDashboardData currentDay (readingsFor spreadsheetYear year fetch)
        prevSnapshots month year in
    let saved := SaveSnapshot date (snd dashboard) month year week db in
    fst saved = Ok tt /\
    (fst (next_fault db) = None ->
     List.filter (sameWeek month year week) (weekly_snapshots (snd saved))
     = [] /\
     weekly_snapshots (snd saved)
     = List.filter (fun r => negb (sameWeek month year week r))
         (weekly_snapshots db)) /\
    (forall msg,
        fst (next_fault db) = Some msg ->
        weekly_snapshots (snd saved) = weekly_snapshots db).
Proof.
  intros db date currentDay spreadsheetYear fetch prevSnapshots month year
         week Hcase dashboard saved.
  assert (Hnil : readingsFor spreadsheetYear year fetch = []).
  { unfold readingsFor. destruct (Z.eqb_spec year spreadsheetYear) as [He|];
      [|reflexivity].
    destruct Hcase as [Hne|[err ->]]; [contradiction|reflexivity]. }
  unfold saved, dashboard. rewrite Hnil.
  unfold SaveSnapshot, Delete.
  pose proof (next_fault_rows db) as Hrows.
  destruct (next_fault db) as [[msg|] db1]; cbn [fst snd] in *;
    cbn [GetDashboardData fold_left snd map createAll fst weekly_snapshots
         indicatorResponses].
  - split; [reflexivity|]. split; [discriminate|].
    intros _ _. exact Hrows.
  - split; [reflexivity|]. split; [|discriminate].
    intros _. rewrite Hrows.
    destruct (filter_filter_negb (sameWeek month year week)
                (weekly_snapshots db)) as [HF1 _].
    rewrite HF1. auto.
Qed.

(** [DeleteSnapshotWeek] fails only when the delete of the snapshots
    fails, and then no screenshot is touched.  When it succeeds no
    snapshot of the week is left and the other snapshots stay as they
    were; the screenshots of the week are removed too, the others
    staying - unless their delete failed, in which case the call still
    succeeds and every screenshot stays. *)
Theorem DeleteSnapshotWeek_outcomes :
  forall (month year week : Z) (db : store) (screenshots : list Screenshot),
    let '(result, db', screenshots') :=
      DeleteSnapshotWeek month year week db screenshots in
    match result with
    | Err msg =>
        head (faults db) = Some (Some msg) /\
        weekly_snapshots db' = weekly_snapshots db /\
        screenshots' = screenshots /\
        faults db' = tail (faults db)
    | Ok _ =>
        default None (head (faults db)) = None /\
        weekly_snapshots db'
        = List.filter (fun r => negb (sameWeek month year week r))
            (weekly_snapshots db) /\
        List.filter (sameWeek month year week) (weekly_snapshots db') = [] /\
        (screenshots' = screenshots \/
         screenshots'
         = List.filter (fun shot => negb (sameShot month year week shot))
             screenshots) /\
        (forall msg,
            head (tail (faults db)) = Some (Some msg) ->
            screenshots' = screenshots) /\
        (default None (head (tail (faults db))) = None ->
         screenshots'
         = List.filter (fun shot => negb (sameShot month year week shot))
             screenshots) /\
        (default None (head (tail (faults db))) = None ->
         List.filter (sameShot month year week) screenshots' = [])
    end.
Proof.
  intros month year week db screenshots.
  unfold DeleteSnapshotWeek, Delete, next_fault.
  destruct (filter_filter_negb (sameWeek month year week)
              (weekly_snapshots db)) as [HF1 _].
  destruct (filter_filter_negb (sameShot month year week) screenshots)
    as [HS1 _].
  destruct db as [rows [|[msg|] [|[msg'|] fs]]]; cbn; auto 10;
    cbn in HF1; rewrite ?HF1, ?HS1;
    repeat split; auto; try discriminate.
Qed.

End WeekRemoval.

(** ** One indicator and the batch *)

Section SingleAndBatch.
Context {platform : Platform}.
Variable ParseFloat : string -> option float.

(** The two fetches agree on an indicator they both read: with the same
    layout, an active indicator whose row is found, and a sheet that
    answers the one range alike to both requests, [FetchKPIData] on that
    indicator alone returns the reading of [FetchSingleKPIData].  They
    part where the read fails: the single fetch reports the error, the
    batch returns a reading of zeros. *)
Theorem FetchSingleKPIData_agrees_with_batch :
  forall (layout : DiscoveredLayout) (single : service)
         (batch : batchService) (spreadsheetID sheetName : string)
         (indicator : Indicator) (month : Z),
    IsActive indicator = true ->
    snd (getIndicatorRow layout indicator) = true ->
    MonthColumns layout !! month <> None ->
    (forall range,
        batch spreadsheetID [range]
        = match single spreadsheetID range with
          | Ok values => Ok [values]
          | Err err => Err err
          end) ->
    match FetchSingleKPIData ParseFloat (Ok layout) (Ok single)
            spreadsheetID sheetName indicator month with
    | Some (Ok data) =>
        FetchKPIData ParseFloat (Ok layout) (Ok batch) spreadsheetID
          sheetName [indicator] month = Some (Ok [data])
    | Some (Err msg) =>
        (exists err, msg = "failed to fetch data: " +:+ err) /\
        FetchKPIData ParseFloat (Ok layout) (Ok batch) spreadsheetID
          sheetName [indicator] month = Some (Ok [zeroReading indicator])
    | None =>
        FetchKPIData ParseFloat (Ok layout) (Ok batch) spreadsheetID
          sheetName [indicator] month = None
    end.
Proof.
  intros layout single batch spreadsheetID sheetName indicator month
         Hactive Hfound Hmonth Hsame.
  unfold FetchSingleKPIData, FetchKPIData.
  destruct (MonthColumns layout !! month) as [monthCols|]; [|contradiction].
  cbn [buildRanges]. rewrite Hactive. cbn [negb].
  destruct (getIndicatorRow layout indicator) as [row found].
  cbn [snd] in Hfound. subst found. cbn [negb].
  rewrite Hsame.
  destruct (single spreadsheetID _) as [values|err].
  - cbn [parseBatch].
    destruct (parseKPIRow ParseFloat values indicator _ _ _);
      reflexivity.
  - split; [eauto|reflexivity].
Qed.

End SingleAndBatch.

(** ** The layout cache: what is handed out *)

Section LayoutProvenance.
Context {platform : Platform}.
Import LayoutCache.

Local Ltac moved :=
  repeat match goal with
  | H : context [move ?t _ _ ?t'] |- _ =>
      destruct (Nat.eq_dec t' t) as [->|?];
      [rewrite move_same in H | rewrite move_other in H by assumption]
  | |- context [move ?t _ _ ?t'] =>
      destruct (Nat.eq_dec t' t) as [->|?];
      [rewrite move_same | rewrite move_other by assumption]
  end.

Lemma DiscoverLayout_LastRefresh now srv spreadsheetID sheetName l :
  DiscoverLayout now srv spreadsheetID sheetName = Ok l ->
  LastRefresh l = now.
Proof.
  unfold DiscoverLayout.
  destruct (discoverColumns _ _ _); [|discriminate].
  destruct (discoverRows _ _ _); [|discriminate].
  intros [= <-]. reflexivity.
Qed.

Lemma discovered_later st st' l :
  clock st <= clock st' -> discovered st l -> discovered st' l.
Proof.
  intros Hc (now & srv & spreadsheetID & sheetName & Hnow & Hl & Hd).
  exists now, srv, spreadsheetID, sheetName. split; [lia|auto].
Qed.

Lemma step_provenance st st' :
  step st st' -> provenance st -> provenance st'.
Proof.
  intros Hstep [Hcache Hout].
  assert (Hstale : forall err l,
            staleOr st err = Ok l -> discovered st l).
  { intros err l. unfold staleOr.
    destruct (layout st) as [l'|] eqn:E; [|discriminate].
    intros [= <-]. apply Hcache. reflexivity. }
  unfold provenance.
  destruct Hstep; unfold at_point; split; cbn [layout points clock];
    intros; moved; cbn [handedOut] in *;
    try discriminate;
    try match goal with
        | H : Some _ = Some _ |- _ => injection H as <-
        end;
    try match goal with
        | |- discovered {| clock := clock ?s + ?d |} ?l =>
            apply (discovered_later s); [cbn; lia|]
        | |- discovered {| clock := clock ?s |} ?l =>
            apply (discovered_later s); [cbn; lia|]
        end;
    try solve [ apply Hcache; assumption
              | eapply Hout; eassumption
              | eapply Hout; 
                match goal with
                | E : points _ _ = _ |- _ => rewrite E; reflexivity
                end ].
  all: try match goal with
       | H : handedOut (WriteReturning (staleOr _ _)) = Some _ |- _ =>
           cbn [handedOut] in H
       end.
  all: try solve [
       match goal with
       | H : match staleOr ?s ?e with Ok _ => _ | Err _ => _ end = Some ?l |- _ =>
           destruct (staleOr s e) as [l0|] eqn:Es; [|discriminate];
           injection H as <-; exact (Hstale _ _ Es)
       end ].
  all: try solve [
       match goal with
       | Hd : DiscoverLayout (clock ?s) ?srv ?id ?name = Ok ?l
         |- discovered _ ?l =>
           exists (clock s), srv, id, name; split; [cbn; lia|];
           split; [exact (DiscoverLayout_LastRefresh _ _ _ _ _ Hd)|exact Hd]
       end ].
  match goal with
  | E : points st ?t0 = WriteReturning ?r,
    H : match ?r with Ok _ => _ | Err _ => _ end = Some _ |- _ =>
      destruct r as [l0|]; [|discriminate]; injection H as <-;
      apply (Hout t0); rewrite E; reflexivity
  end.
Qed.

Lemma steps_provenance st0 st :
  initial st0 -> rtc step st0 st -> provenance st.
Proof.
  intros Hinit Hrun.
  assert (H0 : provenance st0).
  { destruct Hinit as (Hl & _ & _ & Hidle & _). split.
    - intros l. rewrite Hl. discriminate.
    - intros t l. rewrite Hidle. discriminate. }
  clear Hinit.
  induction Hrun as [|st0 mid st Hstep _ IH]; [assumption|].
  apply IH. exact (step_provenance st0 mid Hstep H0).
Qed.

(** Whatever the interleaving of callers, invalidations and settings
    changes, a layout that [GetLayout] returns - and the layout in the
    cache - is one that a call of [DiscoverLayout] returned, stamped
    with the time of that discovery, which is not in the future.  It
    need not be a layout of the sheet configured now: a settings change
    leaves the cache as it is. *)
Theorem GetLayout_returns_discovered_layouts :
  forall (st0 st : state) (t : nat) (l : DiscoveredLayout),
    initial st0 -> rtc step st0 st ->
    points st t = Done (Ok l) \/ layout st = Some l ->
    (exists (now : Z) (srv : service) (spreadsheetID sheetName : string),
        DiscoverLayout now srv spreadsheetID sheetName = Ok l /\
        LastRefresh l = now /\ now <= clock st) /\
    (forall st' spreadsheetID sheetName,
        SpreadsheetID st' = spreadsheetID -> SheetName st' = sheetName ->
        clock st' = clock st -> layout st' = layout st ->
        readers st' = readers st -> writer st' = writer st ->
        points st' = points st -> discoveries st' = discoveries st ->
        rtc step st st').
Proof.
  intros st0 st t l Hinit Hrun Hcase. split.
  - destruct (steps_provenance st0 st Hinit Hrun) as [Hcache Hout].
    assert (Hd : discovered st l).
    { destruct Hcase as [Hp|Hl]; [|exact (Hcache l Hl)].
      apply (Hout t). rewrite Hp. reflexivity. }
    destruct Hd as (now & srv & spreadsheetID & sheetName & Hnow & Hl & Hd).
    eauto 10.
  - intros st' spreadsheetID sheetName Hid Hname Hc Hl Hr Hw Hp Hd.
    destruct st' as [c' l' r' w' p' d' id' name']. simpl in *. subst.
    eapply rtc_l; [apply (step_set_spreadsheet st spreadsheetID)|].
    eapply rtc_l; [|apply rtc_refl].
    exact (step_set_sheet
             {| clock := clock st; layout := layout st;
                readers := readers st; writer := writer st;
                points := points st; discoveries := discoveries st;
                SpreadsheetID := spreadsheetID;
                SheetName := SheetName st |} sheetName).
Qed.

(** A refresh that fails falls back on the cache: whatever the
    interleaving, a [GetLayout] call fixes an error as its result only
    while the cache is empty, and the cache stays empty until it has
    released the lock. *)
Theorem GetLayout_fails_only_without_cache :
  forall (st0 st : state) (t : nat) (err : string),
    initial st0 -> rtc step st0 st ->
    points st t = WriteReturning (Err err) ->
    layout st = None /\ writer st = true.
Proof.
  intros st0 st t err Hinit Hrun.
  assert (Hex : exclusive st)
    by exact (steps_exclusive st0 st Hinit Hrun).
  assert (H0 : forall t e, points st0 t = WriteReturning (Err e) ->
                           layout st0 = None).
  { destruct Hinit as (_ & _ & _ & Hidle & _). intros t' e.
    rewrite Hidle. discriminate. }
  assert (Hex0 : exclusive st0) by (apply initial_exclusive; exact Hinit).
  clear Hinit. intros Hp. split.
  2:{ destruct Hex as (Hw & _). apply (Hw t). rewrite Hp. reflexivity. }
  revert t err Hp. clear Hex.
  induction Hrun as [st|st0 mid st Hstep Hrun IH]; [exact H0|].
  apply IH; [|exact (step_exclusive st0 mid Hstep Hex0)].
  clear IH Hrun st.
  destruct Hex0 as (_ & Hone & _).
  assert (Hstale : forall e e', staleOr st0 e = Err e' -> layout st0 = None).
  { intros e e'. unfold staleOr. destruct (layout st0); [discriminate|auto]. }
  destruct Hstep; unfold at_point; cbn [layout points];
    intros t' e Hp; moved;
    try discriminate;
    try solve [ eapply H0; eassumption
              | reflexivity
              | injection Hp as Hp; eapply Hstale; exact Hp ].
  exfalso.
  match goal with
  | Hne : t' <> ?t0, E : points st ?t0 = Discovering _ _ |- _ =>
      apply Hne; apply Hone; [rewrite Hp|rewrite E]; reflexivity
  end.
Qed.

End LayoutProvenance.

(** ** The monthly view of the snapshots *)

Section MonthlySnapshots.
Context {platform : Platform}.

Lemma list_of_append a b :
  list_ascii_of_string (a +:+ b)
  = list_ascii_of_string a ++ list_ascii_of_string b.
Proof.
  induction a as [|x a IH]; [reflexivity|].
  change (String x a +:+ b) with (String x (a +:+ b)).
  cbn [list_ascii_of_string]. rewrite IH. reflexivity.
Qed.

Lemma app_two_inj {A} (l1 l2 : list A) (a b c d : A) :
  l1 ++ [a; b] = l2 ++ [c; d] -> l1 = l2 /\ a = c /\ b = d.
Proof.
  intros H. change [a; b] with ([a] ++ [b]) in H.
  change [c; d] with ([c] ++ [d]) in H. rewrite !app_assoc in H.
  apply app_inj_tail in H as [H ->]. apply app_inj_tail in H as [-> ->].
  auto.
Qed.

Lemma pretty_week w :
  1 <= w <= 5 ->
  list_ascii_of_string ("-" +:+ pretty w)
  = ["-"%char; ascii_of_nat (48 + Z.to_nat w)].
Proof.
  intros H.
  assert (C : w = 1 \/ w = 2 \/ w = 3 \/ w = 4 \/ w = 5) by lia.
  destruct C as [-> | [-> | [-> | [-> | ->]]]]; vm_compute; reflexivity.
Qed.

(** The key of the deduplication tells weeks 1 to 5 of any two
    indicators apart. *)
Lemma weekKey_inj id1 w1 id2 w2 :
  1 <= w1 <= 5 -> 1 <= w2 <= 5 ->
  weekKey id1 w1 = weekKey id2 w2 -> id1 = id2 /\ w1 = w2.
Proof.
  intros H1 H2 Hk. apply (f_equal list_ascii_of_string) in Hk.
  unfold weekKey in Hk.
  rewrite (list_of_append id1), (list_of_append id2),
    (pretty_week w1 H1), (pretty_week w2 H2) in Hk.
  apply app_two_inj in Hk as (Hl & _ & Hd).
  split; [apply string_of_list_inj; exact Hl|].
  apply (f_equal nat_of_ascii) in Hd.
  rewrite !nat_ascii_embedding in Hd by lia. lia.
Qed.

Lemma NoDup_snoc {A} (l : list A) (x : A) :
  List.NoDup l -> ~ In x l -> List.NoDup (l ++ [x]).
Proof.
  induction l as [|a l IH]; intros Hnd Hx; simpl.
  - constructor; [intros []|constructor].
  - inversion Hnd as [|? ? Ha Hl]; subst. constructor.
    + rewrite in_app_iff. simpl. intros [H|[H|[]]]; [auto|].
      apply Hx. left. auto.
    + apply IH; [exact Hl|]. intros H. apply Hx. right. exact H.
Qed.

Lemma groupStep_grouped done g snap :
  Forall (fun s => 1 <= WeekNumber s <= 5) done ->
  1 <= WeekNumber snap <= 5 ->
  grouped done g -> grouped (done ++ [snap]) (groupStep g snap).
Proof.
  intros Hdone Hw [Ho Hn Hm Hc Hwn Hwf Hwa Hs Hws].
  set (id := IndicatorID snap). set (w := WeekNumber snap).
  set (eb := default {| iCode := id; iDepartment := SnapDepartment snap;
                        iName := IndicatorName snap; iWeeks := [] |}
               (indicatorMap g !! id)).
  set (m1 := match indicatorMap g !! id with
             | Some _ => indicatorMap g
             | None => <[id := eb]> (indicatorMap g)
             end).
  set (o1 := match indicatorMap g !! id with
             | Some _ => indicatorOrder g
             | None => indicatorOrder g ++ [id]
             end).
  set (seen := default false (seenWeeks g !! weekKey id w)).
  set (ef := if seen then eb else addWeek snap eb).
  set (m2 := if seen then m1 else alter (addWeek snap) id m1).
  assert (Hg : groupStep g snap
    = {| indicatorMap := m2; indicatorOrder := o1;
         weekSet := <[w := true]> (weekSet g);
         seenWeeks := if seen then seenWeeks g
                      else <[weekKey id w := true]> (seenWeeks g) |}).
  { unfold groupStep, m2, m1, o1, eb, seen, id, w.
    destruct (indicatorMap g !! IndicatorID snap);
      destruct (default false _); reflexivity. }
  rewrite Hg. clear Hg.
  assert (Hm1 : m1 !! id = Some eb /\
                forall id', id' <> id -> m1 !! id' = indicatorMap g !! id').
  { unfold m1, eb. destruct (indicatorMap g !! id) eqn:E; simpl.
    - auto.
    - rewrite lookup_insert_eq. split; [reflexivity|]. intros id' Hne.
      rewrite lookup_insert_ne by auto. reflexivity. }
  assert (Hm2 : m2 !! id = Some ef /\
                forall id', id' <> id -> m2 !! id' = indicatorMap g !! id').
  { destruct Hm1 as [H1 H2]. unfold m2, ef. destruct seen.
    - auto.
    - rewrite lookup_alter_eq, H1. split; [reflexivity|]. intros id' Hne.
      rewrite lookup_alter_ne by auto. auto. }
  clearbody m2. clear Hm1.
  assert (Ho1 : forall id',
            In id' o1 <-> In id' (indicatorOrder g) \/ id' = id).
  { intros id'. unfold o1. destruct (indicatorMap g !! id) eqn:E.
    - split; [auto|]. intros [H| ->]; [auto|].
      destruct (in_dec string_dec id (indicatorOrder g)) as [|Hnot];
        [auto|]. apply Hm in Hnot. congruence.
    - rewrite in_app_iff. simpl. split; [intros [?|[?|[]]]; auto|].
      intros [?| ->]; auto. }
  assert (Hrange : forall s, In s done -> 1 <= WeekNumber s <= 5).
  { exact (proj1 (List.Forall_forall _ _) Hdone). }
  assert (Heb : iCode eb = id /\
    List.NoDup (map wWeek (iWeeks eb)) /\
    (forall week, In week (iWeeks eb) ->
       exists s, In s done /\ IndicatorID s = id /\ shows s week) /\
    (forall s, In s done -> IndicatorID s = id ->
       In (WeekNumber s) (map wWeek (iWeeks eb)))).
  { unfold eb. destruct (indicatorMap g !! id) as [e0|] eqn:E; simpl.
    - split; [eapply Hc; eauto|]. split; [eapply Hwn; eauto|].
      split; [intros; eapply Hwf; eauto|]. intros s Hs' Hid.
      apply Hwa; [auto|]. rewrite Hid. exact E.
    - split; [reflexivity|]. split; [constructor|]. split; [intros _ []|].
      intros s Hs' Hid. exfalso. apply Hm in E. apply E. apply Ho. eauto. }
  destruct Heb as (Heb1 & Heb2 & Heb3 & Heb4).
  assert (Hseen : seen = true <->
            exists s, In s done /\ IndicatorID s = id /\ WeekNumber s = w).
  { unfold seen. rewrite Hs. split.
    - intros (s & Hin & Hk). exists s. split; [auto|].
      apply weekKey_inj in Hk; [tauto|auto|exact Hw].
    - intros (s & Hin & Hi & Hw'). exists s. split; [auto|].
      rewrite Hi, Hw'. reflexivity. }
  assert (Hno1 : List.NoDup o1).
  { unfold o1. destruct (indicatorMap g !! id) eqn:E; [exact Hn|].
    apply NoDup_snoc; [exact Hn|]. apply Hm. exact E. }
  assert (Hef : seen = true /\ iWeeks ef = iWeeks eb \/
                seen = false /\
                iWeeks ef = iWeeks eb ++
                  [{| wWeek := w; wPercentage := SnapPercentage snap |}]).
  { unfold ef. destruct seen; [left|right]; auto. }
  assert (Hefc : iCode ef = id).
  { unfold ef. destruct seen; exact Heb1. }
  destruct Hm2 as [Hm2 Hm2'].
  clearbody ef eb o1 seen.
  constructor; cbn [indicatorMap indicatorOrder weekSet seenWeeks].
  - intros id'. rewrite Ho1, Ho. split.
    + intros [(s & Hin & Hid)| ->].
      * exists s. rewrite in_app_iff. auto.
      * exists snap. rewrite in_app_iff. simpl. auto.
    + intros (s & Hin & Hid). apply in_app_iff in Hin as [Hin|[<-|[]]].
      * left. eauto.
      * right. symmetry. exact Hid.
  - exact Hno1.
  - intros id'. destruct (string_dec id' id) as [->|Hne].
    + rewrite Hm2, Ho1. split; [discriminate|]. intros H. exfalso.
      apply H. auto.
    + rewrite (Hm2' _ Hne), Hm, Ho1.
      split; intros H; [intros [?|?]; auto|intros ?; apply H; auto].
  - intros id' e. destruct (string_dec id' id) as [->|Hne].
    + rewrite Hm2. intros [= <-]. exact Hefc.
    + rewrite (Hm2' _ Hne). apply Hc.
  - intros id' e. destruct (string_dec id' id) as [->|Hne].
    + rewrite Hm2. intros [= <-].
      destruct Hef as [[_ ->]|[Hnot ->]]; [exact Heb2|].
      rewrite map_app. apply NoDup_snoc; [exact Heb2|]. cbn [map wWeek].
      intros Hin. apply in_map_iff in Hin as (week & Hweek & Hin).
      destruct (Heb3 week Hin) as (s & Hs1 & Hs2 & Hs3 & _).
      assert (seen = true) by (apply Hseen; exists s; intuition congruence).
      congruence.
    + rewrite (Hm2' _ Hne). apply Hwn.
  - intros id' e week. destruct (string_dec id' id) as [->|Hne].
    + rewrite Hm2. intros [= <-] Hin.
      assert (Hold : In week (iWeeks eb) ->
                exists s, In s (done ++ [snap]) /\ IndicatorID s = id /\
                          shows s week).
      { intros H. destruct (Heb3 week H) as (s & ? & ? & ?).
        exists s. rewrite in_app_iff. auto. }
      destruct Hef as [[_ Hsame]|[_ Hadd]].
      * rewrite Hsame in Hin. auto.
      * rewrite Hadd in Hin. apply in_app_iff in Hin as [Hin|[<-|[]]];
          [auto|].
        exists snap. rewrite in_app_iff. simpl.
        split; [auto|]. split; [reflexivity|]. split; reflexivity.
    + rewrite (Hm2' _ Hne). intros He Hin.
      destruct (Hwf id' e week He Hin) as (s & ? & ? & ?).
      exists s. rewrite in_app_iff. auto.
  - intros s e Hin. destruct (string_dec (IndicatorID s) id) as [Hid|Hne].
    + rewrite Hid, Hm2. intros [= <-].
      assert (Hold : forall x, In x (map wWeek (iWeeks eb)) ->
                               In x (map wWeek (iWeeks ef))).
      { intros x Hx. destruct Hef as [[_ ->]|[_ ->]]; [exact Hx|].
        rewrite map_app, in_app_iff. auto. }
      apply in_app_iff in Hin as [Hin|[<-|[]]].
      * apply Hold, Heb4; auto.
      * fold w. destruct Hef as [[Hyes _]|[_ Hadd]].
        -- destruct Hseen as [Hseen _].
           destruct (Hseen Hyes) as (s' & Hs1 & Hs2 & Hs3).
           rewrite <- Hs3. apply Hold, Heb4; auto.
        -- rewrite Hadd, map_app, in_app_iff. right. simpl. auto.
    + rewrite (Hm2' _ Hne). intros He.
      apply in_app_iff in Hin as [Hin|[<-|[]]]; [apply Hwa; auto|].
      contradiction Hne. reflexivity.
  - intros k. destruct seen eqn:Es.
    + rewrite Hs. split.
      * intros (s & Hin & Hk). exists s. rewrite in_app_iff. auto.
      * intros (s & Hin & Hk). apply in_app_iff in Hin as [Hin|[<-|[]]];
          [eauto|].
        destruct Hseen as [Hseen _].
        destruct (Hseen eq_refl) as (s' & Hs1 & Hs2 & Hs3).
        exists s'. split; [auto|]. rewrite Hs2, Hs3. exact Hk.
    + destruct (string_dec k (weekKey id w)) as [->|Hne].
      * rewrite lookup_insert_eq. simpl. split; [|auto]. intros _.
        exists snap. rewrite in_app_iff. simpl. auto.
      * rewrite lookup_insert_ne by auto. rewrite Hs. split.
        -- intros (s & Hin & Hk). exists s. rewrite in_app_iff. auto.
        -- intros (s & Hin & Hk). apply in_app_iff in Hin as [Hin|[<-|[]]];
             [eauto|]. contradiction Hne. symmetry. exact Hk.
  - intros w'. destruct (Z.eq_dec w' w) as [->|Hne].
    + rewrite lookup_insert_eq. simpl. split; [|auto]. intros _.
      exists snap. rewrite in_app_iff. simpl. auto.
    + rewrite lookup_insert_ne by auto. rewrite Hws. split.
      * intros (s & Hin & Hk). exists s. rewrite in_app_iff. auto.
      * intros (s & Hin & Hk). apply in_app_iff in Hin as [Hin|[<-|[]]];
          [eauto|]. contradiction Hne. symmetry. exact Hk.
Qed.

Lemma fold_grouped l : forall done g,
  Forall (fun s => 1 <= WeekNumber s <= 5) done ->
  Forall (fun s => 1 <= WeekNumber s <= 5) l ->
  grouped done g -> grouped (done ++ l) (fold_left groupStep l g).
Proof.
  induction l as [|snap l IH]; intros done g Hdone Hl Hg.
  - rewrite app_nil_r. exact Hg.
  - inversion Hl as [|? ? Hsnap Hl']; subst. cbn [fold_left].
    change (snap :: l) with ([snap] ++ l). rewrite app_assoc.
    apply IH; [|exact Hl'|apply groupStep_grouped; assumption].
    apply Forall_app. split; [exact Hdone|]. constructor; [exact Hsnap|].
    constructor.
Qed.

Lemma grouped_nil :
  grouped [] {| indicatorMap := ∅; indicatorOrder := []; weekSet := ∅;
                seenWeeks := ∅ |}.
Proof.
  constructor; cbn [indicatorMap indicatorOrder weekSet seenWeeks].
  - intros id. split; [intros []|intros (s & [] & _)].
  - constructor.
  - intros id. rewrite lookup_empty. split; [intros _ []|reflexivity].
  - intros id e. rewrite lookup_empty. discriminate.
  - intros id e. rewrite lookup_empty. discriminate.
  - intros id e week. rewrite lookup_empty. discriminate.
  - intros s e [].
  - intros k. rewrite lookup_empty. simpl.
    split; [discriminate|intros (s & [] & _)].
  - intros w. rewrite lookup_empty. simpl.
    split; [discriminate|intros (s & [] & _)].
Qed.

Lemma orderedIndicators_entries (m : gmap string IndicatorSnapshots) order :
  (forall id, In id order -> m !! id <> None) ->
  (forall id e, m !! id = Some e -> iCode e = id) ->
  exists l,
    orderedIndicators m order = Some l /\
    map iCode l = order /\
    (forall e, In e l -> In (iCode e) order /\ m !! iCode e = Some e).
Proof.
  intros Hdom Hcode. induction order as [|id order IH].
  - exists []. split; [reflexivity|]. split; [reflexivity|]. intros e [].
  - destruct IH as (l & Hl & Hmap & Hin).
    { intros id' H. apply Hdom. right. exact H. }
    cbn [orderedIndicators]. rewrite Hl.
    destruct (m !! id) as [e|] eqn:E.
    2:{ exfalso. apply (Hdom id); [left; reflexivity|exact E]. }
    exists (e :: l). split; [reflexivity|].
    pose proof (Hcode id e E) as Hce.
    split; [cbn [map]; rewrite Hce, Hmap; reflexivity|].
    intros e' [<-|He'].
    + rewrite Hce. split; [left; reflexivity|exact E].
    + destruct (Hin e' He') as [H1 H2]. split; [right; exact H1|exact H2].
Qed.

Lemma available_sorted (f : Z -> bool) :
  StronglySorted Z.lt (List.filter f [1; 2; 3; 4; 5]).
Proof.
  cbn [List.filter].
  destruct (f 1), (f 2), (f 3), (f 4), (f 5);
    repeat (constructor; try lia).
Qed.

(** The monthly view when the read succeeds: every indicator with a
    stored snapshot of the month in weeks 1 to 5 appears once; under it
    every stored week appears once, with the percentage of a stored
    snapshot of that indicator and week - also where a week was stored
    more than once; and the available weeks are the stored weeks, in
    ascending order.  This holds for whatever order the database
    returns the rows in. *)
Theorem GetSnapshotsByMonth_groups :
  forall (sorted : list WeeklySnapshot -> list WeeklySnapshot)
         (month year : Z) (db : store),
    (forall l s, In s (sorted l) <-> In s l) ->
    fst (next_fault db) = None ->
    exists response,
      fst (GetSnapshotsByMonth sorted month year db) = Some (Ok response) /\
      List.NoDup (map iCode (mIndicators response)) /\
      (forall s, monthRows month year db s ->
         exists e, In e (mIndicators response) /\
                   iCode e = IndicatorID s /\
                   In (WeekNumber s) (map wWeek (iWeeks e))) /\
      (forall e, In e (mIndicators response) ->
         List.NoDup (map wWeek (iWeeks e)) /\
         forall week, In week (iWeeks e) ->
           exists s, monthRows month year db s /\
                     IndicatorID s = iCode e /\ shows s week) /\
      (forall w, In w (mAvailableWeeks response) <->
                 exists s, monthRows month year db s /\ WeekNumber s = w) /\
      StronglySorted Z.lt (mAvailableWeeks response).
Proof.
  intros sorted month year db Hsorted Hok.
  unfold GetSnapshotsByMonth.
  pose proof (next_fault_rows db) as Hrows.
  destruct (next_fault db) as [fault db']. simpl in Hok, Hrows. subst fault.
  rewrite Hrows. clear Hrows.
  set (snapshots :=
         sorted (List.filter (inMonthWeeks month year) (weekly_snapshots db))).
  assert (Hmem : forall s, In s snapshots <-> monthRows month year db s).
  { intros s. unfold snapshots, monthRows. rewrite Hsorted, filter_In.
    reflexivity. }
  assert (Hweeks : forall s, monthRows month year db s ->
                             1 <= WeekNumber s <= 5).
  { intros s [_ Hc]. unfold inMonthWeeks in Hc.
    apply andb_true_iff in Hc as [Hc H5].
    apply andb_true_iff in Hc as [_ H1].
    apply Z.geb_le in H1. apply Z.leb_le in H5. lia. }
  assert (Hrange : Forall (fun s => 1 <= WeekNumber s <= 5) snapshots).
  { apply List.Forall_forall. intros s Hs. apply Hweeks, Hmem, Hs. }
  pose proof (fold_grouped snapshots [] _ (List.Forall_nil _) Hrange
                grouped_nil) as Hg.
  cbn [app] in Hg.
  set (g := fold_left groupStep snapshots _) in *.
  destruct Hg as [Ho Hn Hm Hc Hwn Hwf Hwa Hs Hws].
  destruct (orderedIndicators_entries (indicatorMap g) (indicatorOrder g))
    as (indicators & -> & Hcodes & Hentries).
  { intros id Hin Hnone. apply Hm in Hnone. contradiction. }
  { exact Hc. }
  eexists. split; [reflexivity|].
  cbn [mIndicators mAvailableWeeks fst].
  split; [rewrite Hcodes; exact Hn|]. split; [|split; [|split]].
  - intros s Hstored. apply Hmem in Hstored.
    assert (Hin : In (IndicatorID s) (indicatorOrder g))
      by (apply Ho; eauto).
    rewrite <- Hcodes in Hin. apply in_map_iff in Hin as (e & He & Hin).
    exists e. split; [exact Hin|]. split; [exact He|].
    apply (Hwa s e Hstored). rewrite <- He. apply Hentries. exact Hin.
  - intros e Hin. destruct (Hentries e Hin) as [_ He]. split.
    + exact (Hwn _ _ He).
    + intros week Hweek.
      destruct (Hwf _ _ week He Hweek) as (s & Hs1 & Hs2 & Hs3).
      exists s. split; [apply Hmem; exact Hs1|auto].
  - intros w. rewrite filter_In, Hws. split.
    + intros [_ (s & Hs1 & Hs2)]. exists s. split; [apply Hmem|]; auto.
    + intros (s & Hs1 & Hs2). pose proof (Hweeks s Hs1) as Hr.
      split; [|exists s; split; [apply Hmem|]; auto].
      rewrite Hs2 in Hr. simpl.
      assert (w = 1 \/ w = 2 \/ w = 3 \/ w = 4 \/ w = 5) by lia.
      intuition auto.
  - apply available_sorted.
Qed.

End MonthlySnapshots.

(** ** The weekly trend *)

Section WeeklyTrend.
Context {platform : Platform}.

Lemma newestOf_max rows : forall best,
  In (newestOf best rows) (best :: rows) /\
  forall r, In r (best :: rows) ->
            SnapshotDate r <= SnapshotDate (newestOf best rows).
Proof.
  induction rows as [|x rows IH]; intros best; cbn [newestOf].
  - split; [left; reflexivity|]. intros r [<-|[]]. lia.
  - destruct (Z.gtb_spec (SnapshotDate x) (SnapshotDate best)) as [Hgt|Hle].
    + destruct (IH x) as [Hin Hmax]. split.
      * right. exact Hin.
      * intros r [<-|Hr]; [|apply Hmax; exact Hr].
        specialize (Hmax x (or_introl eq_refl)). lia.
    + destruct (IH best) as [Hin Hmax]. split.
      * destruct Hin as [Hin|Hin]; [left; exact Hin|right; right; exact Hin].
      * intros r [<-|[<-|Hr]].
        -- apply Hmax. left. reflexivity.
        -- specialize (Hmax best (or_introl eq_refl)). lia.
        -- apply Hmax. right. exact Hr.
Qed.

Lemma green_count (f : WeeklySnapshot -> bool) snapshots : forall n,
  fold_left (fun n snap => if f snap then n + 1 else n) snapshots n
  = n + Z.of_nat (length (List.filter f snapshots)).
Proof.
  induction snapshots as [|snap l IH]; intros n; cbn [fold_left List.filter].
  - simpl. lia.
  - rewrite IH. destruct (f snap); cbn [length]; lia.
Qed.

(** The weekly trend compares the current overall percentage with the
    newest save of the month: with the three reads succeeding, a month
    without snapshots has no trend; otherwise the basis is every stored
    snapshot that carries the newest snapshot date of the month, the
    previous green count is the number of those that are green or
    supergreen under the direction of their indicator in the catalogue
    (normal when the code is unknown), and the change is the current
    percentage minus the green share of the basis. *)
Theorem calculateWeeklyTrend_compares_with_latest_save :
  forall (indicatorsTable : list Indicator) (month year : Z)
         (currentPercentage : float) (db : store),
    succeeds 3 db ->
    let '(change, direction, prevGreenCount, _) :=
      calculateWeeklyTrend indicatorsTable month year currentPercentage db in
    let inMonth :=
      List.filter (sameMonthYear month year) (weekly_snapshots db) in
    (inMonth = [] ->
     (change, direction, prevGreenCount) = (0%float, "neutral", 0)) /\
    (inMonth <> [] ->
     exists latest,
       In latest inMonth /\
       (forall r, In r inMonth -> SnapshotDate r <= SnapshotDate latest) /\
       let basis :=
         List.filter (fun r => SnapshotDate r =? SnapshotDate latest)
           (weekly_snapshots db) in
       prevGreenCount
       = Z.of_nat (length (List.filter
                             (greenBefore (inverseMap indicatorsTable))
                             basis)) /\
       0 <= prevGreenCount <= Z.of_nat (length basis) /\
       change
       = (currentPercentage
          - float64_of_int prevGreenCount
            / float64_of_int (Z.of_nat (length basis)) * 100)%float /\
       (direction = "up" <-> fgt change 0.5 = true) /\
       (direction = "down" <-> flt change (-0.5) = true)).
Proof.
  intros indicatorsTable month year currentPercentage db Hok.
  unfold calculateWeeklyTrend, First.
  rewrite (next_fault_succeeds _ _ Hok).
  pose proof (succeeds_tail _ (weekly_snapshots db) db Hok) as Hok1.
  cbn [weekly_snapshots].
  destruct (List.filter (sameMonthYear month year) (weekly_snapshots db))
    as [|r0 rows] eqn:Hmonth.
  { split; [reflexivity|]. intros H. contradiction. }
  unfold Find. rewrite (next_fault_succeeds _ _ Hok1).
  pose proof (succeeds_tail _ (weekly_snapshots db) _ Hok1) as Hok2.
  cbn [weekly_snapshots faults] in *.
  destruct (newestOf_max rows r0) as [Hin Hmax].
  set (latest := newestOf r0 rows) in *.
  set (basis := List.filter (fun r => SnapshotDate r =? SnapshotDate latest)
                  (weekly_snapshots db)).
  assert (Hlatest : In latest (weekly_snapshots db)).
  { rewrite <- Hmonth in Hin. apply filter_In in Hin. tauto. }
  assert (Hbasis : In latest basis).
  { apply filter_In. split; [exact Hlatest|apply Z.eqb_refl]. }
  destruct basis as [|b0 basis'] eqn:Hb; [destruct Hbasis|].
  rewrite (next_fault_succeeds _ _ Hok2). cbn zeta.
  split; [discriminate|]. intros _. exists latest.
  split; [exact Hin|]. split; [exact Hmax|].
  fold basis. rewrite Hb. rewrite green_count.
  set (green := List.filter (greenBefore (inverseMap indicatorsTable))
                  (b0 :: basis')).
  pose proof (List.filter_length_le (greenBefore (inverseMap indicatorsTable))
                (b0 :: basis')) as Hle.
  fold green in Hle.
  split; [lia|]. split; [lia|].
  rewrite Z.add_0_l. split; [reflexivity|].
  set (change := (currentPercentage - _)%float).
  assert (Hx : flt change (-0.5) = true -> fgt change 0.5 = false).
  { unfold flt, fgt. apply F64.lt_excludes_gt. vm_compute. reflexivity. }
  destruct (fgt change 0.5) eqn:Hup; [|destruct (flt change (-0.5)) eqn:Hdn].
  - split; [tauto|]. split; [discriminate|]. intros H. specialize (Hx H).
    discriminate.
  - split; [split; discriminate|tauto].
  - split; split; discriminate.
Qed.

End WeeklyTrend.

(** ** The months on offer *)

Section AvailableMonths.
Context {platform : Platform}.

Lemma monthsLoop_options spreadsheetYear ms : forall months db,
  exists options db',
    fold_left (monthsStep spreadsheetYear) ms (months, db)
    = (months ++ options, db') /\
    weekly_snapshots db' = weekly_snapshots db /\
    map optMonth options = ms /\
    Forall (fun opt =>
              optYear opt = spreadsheetYear /\
              optLabel opt = getMonthName (optMonth opt) +:+ " "
                             +:+ pretty spreadsheetYear /\
              (optHasData opt = true ->
               List.filter (sameMonthYear (optMonth opt) spreadsheetYear)
                 (weekly_snapshots db) <> []) /\
              (succeeds (length ms) db ->
               List.filter (sameMonthYear (optMonth opt) spreadsheetYear)
                 (weekly_snapshots db) <> [] ->
               optHasData opt = true))
      options.
Proof.
  induction ms as [|m ms IH]; intros months db.
  - exists [], db. rewrite app_nil_r. repeat split; constructor.
  - cbn [fold_left]. unfold monthsStep at 2, hasDataForMonth, Count.
    pose proof (next_fault_rows db) as Hrows.
    destruct (next_fault db) as [fault db1] eqn:Hnext. cbn [snd] in Hrows.
    set (count := match fault with
                  | Some _ => 0
                  | None => Z.of_nat (length (List.filter
                              (sameMonthYear m spreadsheetYear)
                              (weekly_snapshots db1)))
                  end).
    set (opt := {| optMonth := m; optYear := spreadsheetYear;
                   optLabel := getMonthName m +:+ " "
                               +:+ pretty spreadsheetYear;
                   optHasData := count >? 0 |}).
    assert (Hstep :
      (let '(count, db0) :=
         match fault with
         | Some _ => (0, db1)
         | None => (Z.of_nat (length (List.filter
                      (sameMonthYear m spreadsheetYear)
                      (weekly_snapshots db1))), db1)
         end in (count >? 0, db0)) = (count >? 0, db1)).
    { unfold count. destruct fault; reflexivity. }
    rewrite Hstep. clear Hstep. fold opt.
    destruct (IH (months ++ [opt]) db1) as (options & db' & -> & Hr & Hm & Hall).
    exists (opt :: options), db'. rewrite <- app_assoc.
    split; [reflexivity|]. split; [congruence|].
    split; [cbn [map]; rewrite Hm; reflexivity|].
    constructor.
    + cbn [optYear optLabel optMonth optHasData opt].
      split; [reflexivity|]. split; [reflexivity|]. split.
      * unfold count. destruct fault; [discriminate|].
        rewrite Hrows. intros Hpos Hnil. rewrite Hnil in Hpos.
        discriminate.
      * intros Hok Hne. cbn [length] in Hok.
        rewrite (next_fault_succeeds _ _ Hok) in Hnext.
        injection Hnext as <- <-. unfold count. cbn [weekly_snapshots].
        destruct (List.filter _ _); [contradiction|reflexivity].
    + eapply Forall_impl; [exact Hall|]. cbv beta.
      intros o (Hy & Hl & Hhas & Hconv). rewrite Hrows in Hhas, Hconv.
      split; [exact Hy|]. split; [exact Hl|]. split; [exact Hhas|].
      intros Hok. apply Hconv. cbn [length] in Hok.
      rewrite (next_fault_succeeds _ _ Hok) in Hnext.
      injection Hnext as _ <-.
      exact (succeeds_tail _ (weekly_snapshots db) db Hok).
Qed.

(** The months on offer are always the twelve months of the configured
    year, in calendar order, each labelled with its English name and the
    year.  A month is flagged as having data only if a snapshot of it is
    stored, and - when the twelve counts succeed - whenever one is; a
    failed count shows as "no data".  The month displayed first is the
    current month in the configured year and January in any other, and
    the store is only read. *)
Theorem GetAvailableMonths_options :
  forall (nowMonth nowYear spreadsheetYear : Z) (db : store),
    let '(response, db') :=
      GetAvailableMonths nowMonth nowYear spreadsheetYear db in
    map optMonth (AvailableMonths response)
    = [1; 2; 3; 4; 5; 6; 7; 8; 9; 10; 11; 12] /\
    (forall opt, In opt (AvailableMonths response) ->
       optYear opt = spreadsheetYear /\
       optLabel opt = getMonthName (optMonth opt) +:+ " "
                      +:+ pretty spreadsheetYear /\
       (optHasData opt = true ->
        exists r, In r (weekly_snapshots db) /\
                  Month r = optMonth opt /\ Year r = spreadsheetYear) /\
       (succeeds 12 db ->
        (exists r, In r (weekly_snapshots db) /\
                   Month r = optMonth opt /\ Year r = spreadsheetYear) ->
        optHasData opt = true)) /\
    CurrentMonth response
    = (if nowYear =? spreadsheetYear then nowMonth else 1, spreadsheetYear) /\
    weekly_snapshots db' = weekly_snapshots db.
Proof.
  intros nowMonth nowYear spreadsheetYear db. unfold GetAvailableMonths.
  destruct (monthsLoop_options spreadsheetYear
              [1; 2; 3; 4; 5; 6; 7; 8; 9; 10; 11; 12] [] db)
    as (options & db' & -> & Hrows & Hmonths & Hall).
  cbn [app AvailableMonths CurrentMonth].
  split; [exact Hmonths|]. split; [|split; [reflexivity|exact Hrows]].
  intros opt Hin.
  destruct (proj1 (List.Forall_forall _ _) Hall opt Hin)
    as (Hy & Hl & Hhas & Hconv).
  assert (Hrow : List.filter (sameMonthYear (optMonth opt) spreadsheetYear)
                   (weekly_snapshots db) <> [] <->
                 exists r, In r (weekly_snapshots db) /\
                           Month r = optMonth opt /\ Year r = spreadsheetYear).
  { split.
    - destruct (List.filter _ _) as [|r l] eqn:E; [contradiction|].
      intros _. assert (Hr : In r (r :: l)) by (left; reflexivity).
      rewrite <- E in Hr. apply filter_In in Hr as [Hr Hc].
      unfold sameMonthYear in Hc. apply andb_true_iff in Hc as [Hm Hyr].
      apply Z.eqb_eq in Hm, Hyr. eauto.
    - intros (r & Hr & Hm & Hyr) Hnil.
      assert (Hf : In r (List.filter
                           (sameMonthYear (optMonth opt) spreadsheetYear)
                           (weekly_snapshots db))).
      { apply filter_In. split; [exact Hr|]. unfold sameMonthYear.
        rewrite Hm, Hyr, !Z.eqb_refl. reflexivity. }
      rewrite Hnil in Hf. destruct Hf. }
  split; [exact Hy|]. split; [exact Hl|]. split.
  - intros H. apply Hrow, Hhas, H.
  - intros Hok H. apply Hconv; [exact Hok|]. apply Hrow, H.
Qed.

End AvailableMonths.

(** * Part V: the further properties at the sample data *)

Section MoreInstances.
Import Samples MoreSamples LayoutCache.

(** Column AB is column 27. *)
Lemma colToIndex_indexToCol_sample : colToIndex (indexToCol 27) = 27.
Proof. apply (colToIndex_indexToCol 27). split; [lia|reflexivity]. Defined.

(** The target header of March. *)
Lemma matchMonthFromHeader_month_names_sample :
  matchMonthFromHeader "March Target" = (3, "target").
Proof.
  destruct (matchMonthFromHeader_month_names 3) as (H & _); [lia|exact H].
Defined.

(** The label of row 2 of [paddedSheet], typed between a no-break space
    and an em space, is filed under its trimmed lower-case form. *)
Lemma discoverRows_positions_sample :
  In 2 (default [] (KPIRows paddedLayout !! "customer satisfaction")).
Proof.
  destruct (discoverRows_positions paddedSheet "sheet-id" "KPI"
              (KPIRows paddedLayout) eq_refl) as (values & Hread & Hkeys).
  destruct (Hkeys "customer satisfaction") as (Hrows & _).
  apply Hrows. exists 1%nat, [CString paddedLabel].
  split; [|split; [vm_compute; reflexivity|reflexivity]].
  vm_compute in Hread. injection Hread as <-. reflexivity.
Defined.

(** The performance column of January on [januarySheet] is column 2. *)
Lemma discoverColumns_last_match_wins_sample :
  exists entry,
    MonthColumns januaryLayout !! 1 = Some entry /\
    entry !! 3%nat = Some 2.
Proof.
  destruct (discoverColumns_last_match_wins januarySheet "sheet-id" "KPI"
              (MonthColumns januaryLayout) eq_refl)
    as (header & rest & Hread & Hlast & _).
  vm_compute in Hread. injection Hread as <- <-.
  apply (Hlast 1 "perf" 3%nat 2%nat).
  - reflexivity.
  - exists "January". split; [reflexivity|].
    split; [vm_compute; reflexivity|discriminate].
  - intros [|[|[|j]]] Hj (h & Hc & _); try lia. discriminate Hc.
Defined.

(** The sample indicator on the discovered layout of [januarySheet]. *)
Lemma getIndicatorRow_discovered_row_positive_sample :
  1 <= fst (getIndicatorRow januaryLayout satisfaction).
Proof.
  destruct (getIndicatorRow_discovered_row_positive 0 januarySheet
              "sheet-id" "KPI" januaryLayout satisfaction) as [H _].
  - vm_compute. reflexivity.
  - apply H. vm_compute. reflexivity.
Defined.

(** The label of the sample indicator, written in capitals, stands in
    row 2 alone, between a no-break space and an em space. *)
Lemma getIndicatorRow_finds_discovered_label_sample :
  getIndicatorRow paddedLayout shouted = (2, true).
Proof.
  apply (getIndicatorRow_finds_discovered_label 0 paddedSheet "sheet-id"
           "KPI" paddedLayout
           [[CString "Revenue Group"]; [CString paddedLabel]]
           shouted 1%nat [CString paddedLabel]).
  - vm_compute. reflexivity.
  - vm_compute. reflexivity.
  - discriminate.
  - reflexivity.
  - vm_compute. reflexivity.
  - intros [|[|[|j]]] row' H1 H2; try reflexivity; try discriminate H1.
    injection H1 as <-. vm_compute in H2. discriminate H2.
Defined.

(** The reading of the sample indicator on [januarySheet]. *)
Lemma FetchKPIData_readings_follow_catalogue_sample :
  exists layout (n : nat),
    Ok januaryLayout = Ok layout /\
    Forall2 describes januaryReadings
      (firstn n (fetched layout [satisfaction])).
Proof.
  apply (FetchKPIData_readings_follow_catalogue parseTwoNumbers
           (Ok januaryLayout) (Ok januaryBatch) "sheet-id" "KPI"
           [satisfaction] 1).
  vm_compute. reflexivity.
Defined.

(** The sample indicator on a sheet that cannot be reached. *)
Lemma FetchKPIData_failed_read_gives_zeros_sample :
  FetchKPIData parseTwoNumbers (Ok januaryLayout) (Ok offline) "sheet-id"
    "KPI" [satisfaction] 1
  = Some (Ok (map zeroReading (fetched januaryLayout [satisfaction]))).
Proof.
  apply (FetchKPIData_failed_read_gives_zeros parseTwoNumbers januaryLayout
           offline "sheet-id" "KPI" [satisfaction] 1 "unavailable").
  - vm_compute. discriminate.
  - intros ranges. reflexivity.
Defined.

(** The fetch on the discovered layout of [januarySheet]. *)
Lemma FetchKPIData_returns_on_discovered_layout_sample :
  exists answer,
    FetchKPIData parseTwoNumbers (Ok januaryLayout) (Ok januaryBatch)
      "sheet-id" "KPI" [satisfaction] 1 = Some answer.
Proof.
  apply (FetchKPIData_returns_on_discovered_layout parseTwoNumbers 0
           januarySheet (Ok januaryBatch) "sheet-id" "KPI" januaryLayout
           [satisfaction] 1).
  vm_compute. reflexivity.
Defined.

(** The sample indicator read alone and in a batch of one. *)
Lemma FetchSingleKPIData_agrees_with_batch_sample :
  match FetchSingleKPIData parseTwoNumbers (Ok januaryLayout)
          (Ok januarySingle) "sheet-id" "KPI" satisfaction 1 with
  | Some (Ok data) =>
      FetchKPIData parseTwoNumbers (Ok januaryLayout) (Ok januaryBatch)
        "sheet-id" "KPI" [satisfaction] 1 = Some (Ok [data])
  | Some (Err msg) =>
      (exists err, msg = "failed to fetch data: " +:+ err) /\
      FetchKPIData parseTwoNumbers (Ok januaryLayout) (Ok januaryBatch)
        "sheet-id" "KPI" [satisfaction] 1
      = Some (Ok [zeroReading satisfaction])
  | None =>
      FetchKPIData parseTwoNumbers (Ok januaryLayout) (Ok januaryBatch)
        "sheet-id" "KPI" [satisfaction] 1 = None
  end.
Proof.
  apply (FetchSingleKPIData_agrees_with_batch parseTwoNumbers januaryLayout
           januarySingle januaryBatch "sheet-id" "KPI" satisfaction 1).
  - reflexivity.
  - vm_compute. reflexivity.
  - vm_compute. discriminate.
  - intros range. reflexivity.
Defined.

(** A save of week 2 on a store whose delete fails. *)
Lemma SaveSnapshot_failed_delete_keeps_rows_sample :
  fst (SaveSnapshot 30 [response "KPI-01" 95] 1 2025 2 lockedStore) = Ok tt /\
  weekly_snapshots
    (snd (SaveSnapshot 30 [response "KPI-01" 95] 1 2025 2 lockedStore))
  = weekly_snapshots lockedStore
    ++ map (snapshotOf 30 1 2025 2) [response "KPI-01" 95].
Proof.
  apply (SaveSnapshot_failed_delete_keeps_rows lockedStore "locked" [] 30
           [response "KPI-01" 95] 1 2025 2).
  - reflexivity.
  - vm_compute. constructor.
Defined.

(** A save of two indicators on a store whose second insert fails. *)
Lemma SaveSnapshot_failed_insert_is_not_rolled_back_sample :
  let saved :=
    SaveSnapshot 30 [response "KPI-01" 95; response "KPI-05" 60] 1 2025 2
      fullStore in
  fst saved = Err "disk full" /\
  List.filter (sameWeek 1 2025 2) (weekly_snapshots (snd saved))
  = map (snapshotOf 30 1 2025 2) (firstn 1 [response "KPI-01" 95;
                                            response "KPI-05" 60]) /\
  List.filter (fun r => negb (sameWeek 1 2025 2 r))
    (weekly_snapshots (snd saved))
  = List.filter (fun r => negb (sameWeek 1 2025 2 r))
      (weekly_snapshots fullStore) /\
  faults (snd saved) = [].
Proof.
  apply (SaveSnapshot_failed_insert_is_not_rolled_back fullStore 30
           [response "KPI-01" 95; response "KPI-05" 60] 1 2025 2 1%nat
           "disk full" []).
  - simpl. lia.
  - reflexivity.
Defined.

(** A save of week 3 on [twoWeeks], read back. *)
Lemma saved_snapshot_is_the_previous_week_sample :
  let db' := snd (SaveSnapshot 30 [response "KPI-01" 95] 1 2025 3 twoWeeks) in
  exists row,
    In row (weekly_snapshots db') /\
    ~ In row (weekly_snapshots twoWeeks) /\
    SnapshotDate row = 30 /\
    WeekNumber row = 3 /\
    IndicatorID row = rCode (response "KPI-01" 95) /\
    fst (getPreviousWeekSnapshots 1 2025 db') !! rCode (response "KPI-01" 95)
    = Some (SnapPercentage row).
Proof.
  apply (saved_snapshot_is_the_previous_week twoWeeks 30
           [response "KPI-01" 95] 1 2025 3 (response "KPI-01" 95)).
  - reflexivity.
  - intros r Hin _. vm_compute in Hin.
    destruct Hin as [<-|[<-|[<-|[]]]]; reflexivity.
  - left. reflexivity.
  - reflexivity.
Defined.

(** A dashboard of 2025 when the fetch fails. *)
Lemma GetDashboardData_without_readings_sample :
  GetDashboardData 15 (readingsFor 2025 2025 (Err "unavailable")) ∅ 1 2025
  = ({| oPercentage := 0; oStatus := "red"; oGreenCount := 0;
        oYellowCount := 0; oRedCount := 0 |}, []) /\
  scheduleSummary
    (snd (GetDashboardData 15 (readingsFor 2025 2025 (Err "unavailable"))
            ∅ 1 2025))
  = {| sAheadCount := 0; sOnScheduleCount := 0; sBehindCount := 0 |}.
Proof.
  apply (GetDashboardData_without_readings 15 2025 (Err "unavailable") ∅
           1 2025).
  right. exists "unavailable". reflexivity.
Defined.

(** Week 1 of [twoWeeks], saved over when the fetch fails; and the same
    on [lockedStore], whose next statement fails. *)
Lemma SaveSnapshot_without_readings_empties_week_sample :
  let dashboard :=
    GetDashboardData 15 (readingsFor 2025 2025 (Err "unavailable")) ∅
      1 2025 in
  let saved := SaveSnapshot 30 (snd dashboard) 1 2025 1 twoWeeks in
  let unsaved := SaveSnapshot 30 (snd dashboard) 1 2025 1 lockedStore in
  fst saved = Ok tt /\
  List.filter (sameWeek 1 2025 1) (weekly_snapshots (snd saved)) = [] /\
  weekly_snapshots (snd saved)
  = List.filter (fun r => negb (sameWeek 1 2025 1 r))
      (weekly_snapshots twoWeeks) /\
  fst unsaved = Ok tt /\
  weekly_snapshots (snd unsaved) = weekly_snapshots lockedStore.
Proof.
  destruct (SaveSnapshot_without_readings_empties_week twoWeeks 30 15 2025
              (Err "unavailable") ∅ 1 2025 1) as (Hok & Hdeleted & _).
  { right. exists "unavailable". reflexivity. }
  destruct (SaveSnapshot_without_readings_empties_week lockedStore 30 15 2025
              (Err "unavailable") ∅ 1 2025 1) as (Hok' & _ & Hkept).
  { right. exists "unavailable". reflexivity. }
  destruct (Hdeleted eq_refl) as [Hnone Hrest].
  split; [exact Hok|]. split; [exact Hnone|]. split; [exact Hrest|].
  split; [exact Hok'|]. exact (Hkept "locked" eq_refl).
Defined.

(** 50 percent and 90 percent. *)
Lemma calculateStatus_monotone_sample :
  statusRank (calculateStatus 50 false)
  <= statusRank (calculateStatus 90 false) /\
  statusRank (calculateStatus 90 true)
  <= statusRank (calculateStatus 50 true).
Proof.
  apply (calculateStatus_monotone 50 90). vm_compute. reflexivity.
Defined.

(** January 2020 compared with the previous month. *)
Lemma comparisonPeriod_calendar_sample :
  let '(compareMonth, compareYear) :=
    comparisonPeriod "previous_month" 1 2020 in
  1 <= compareMonth <= 12 /\
  ("previous_month" = "previous_month" ->
   12 * compareYear + compareMonth = 12 * 2020 + 1 - 1) /\
  ("previous_month" = "previous_year" ->
   compareMonth = 1 /\ compareYear = 2020 - 1) /\
  ("previous_month" <> "previous_month" ->
   "previous_month" <> "previous_year" ->
   compareMonth = 1 /\ compareYear = 2020) /\
  (validPeriod compareMonth compareYear = false <->
   2020 = 2020 /\
   ("previous_month" = "previous_year" \/
    "previous_month" = "previous_month" /\ 1 = 1)).
Proof.
  apply (comparisonPeriod_calendar "previous_month" 1 2020). reflexivity.
Defined.

(** The run of one goroutine up to a discovery that succeeds; the
    settings can then name another sheet while the cache keeps the
    layout. *)
Lemma GetLayout_returns_discovered_layouts_sample :
  (exists (now : Z) (srv : service) (spreadsheetID sheetName : string),
      DiscoverLayout now srv spreadsheetID sheetName = Ok januaryLayout /\
      LastRefresh januaryLayout = now /\ now <= clock cached) /\
  rtc step cached reconfigured /\
  layout reconfigured = Some januaryLayout.
Proof.
  destruct (GetLayout_returns_discovered_layouts created cached 0%nat
              januaryLayout) as [Hfound Hset].
  - repeat split.
  - apply (rtc_trans _ discovering); [exact sample_discovery_call|].
    apply (rtc_l _ discovering cached); [|apply rtc_refl].
    apply (step_discover_ok discovering 0%nat "sheet-id" "KPI" januarySheet
             januaryLayout); [reflexivity|vm_compute; reflexivity].
  - right. reflexivity.
  - split; [exact Hfound|]. split; [|reflexivity].
    apply (Hset reconfigured "sheet-id" "Archive"); reflexivity.
Defined.

(** The run of one goroutine up to a client that cannot be made. *)
Lemma GetLayout_fails_only_without_cache_sample :
  layout failed = None /\ writer failed = true.
Proof.
  apply (GetLayout_fails_only_without_cache created failed
           0%nat "no token").
  - repeat split.
  - apply (rtc_l _ created entered);
      [apply (step_call created 0%nat); left; reflexivity|].
    apply (rtc_l _ entered readLocked);
      [apply (step_rlock entered 0%nat); reflexivity|].
    apply (rtc_l _ readLocked foundStale);
      [apply (step_read_stale readLocked 0%nat); reflexivity|].
    apply (rtc_l _ foundStale readUnlocked);
      [apply (step_runlock foundStale 0%nat); reflexivity|].
    apply (rtc_l _ readUnlocked writeLocked);
      [apply (step_lock readUnlocked 0%nat); reflexivity|].
    apply (rtc_l _ writeLocked stillStale);
      [apply (step_write_stale writeLocked 0%nat); reflexivity|].
    apply (rtc_l _ stillStale failed); [|apply rtc_refl].
    apply (step_create_fail stillStale 0%nat "no token"). reflexivity.
  - reflexivity.
Defined.

(** The monthly view of January 2025 on [twoWeeks]. *)
Lemma GetSnapshotsByMonth_groups_sample :
  exists response,
    fst (GetSnapshotsByMonth (fun l => l) 1 2025 twoWeeks)
    = Some (Ok response) /\
    List.NoDup (map iCode (mIndicators response)) /\
    (forall s, monthRows 1 2025 twoWeeks s ->
       exists e, In e (mIndicators response) /\
                 iCode e = IndicatorID s /\
                 In (WeekNumber s) (map wWeek (iWeeks e))) /\
    (forall e, In e (mIndicators response) ->
       List.NoDup (map wWeek (iWeeks e)) /\
       forall week, In week (iWeeks e) ->
         exists s, monthRows 1 2025 twoWeeks s /\
                   IndicatorID s = iCode e /\ shows s week) /\
    (forall w, In w (mAvailableWeeks response) <->
               exists s, monthRows 1 2025 twoWeeks s /\ WeekNumber s = w) /\
    StronglySorted Z.lt (mAvailableWeeks response).
Proof.
  apply (GetSnapshotsByMonth_groups (fun l => l) 1 2025 twoWeeks).
  - intros l s. split; auto.
  - reflexivity.
Defined.

(** The weekly trend of January 2025 on [twoWeeks] at 100 percent. *)
Lemma calculateWeeklyTrend_compares_with_latest_save_sample :
  let '(change, direction, prevGreenCount, _) :=
    calculateWeeklyTrend [satisfaction] 1 2025 100 twoWeeks in
  let inMonth :=
    List.filter (sameMonthYear 1 2025) (weekly_snapshots twoWeeks) in
  (inMonth = [] ->
   (change, direction, prevGreenCount) = (0%float, "neutral", 0)) /\
  (inMonth <> [] ->
   exists latest,
     In latest inMonth /\
     (forall r, In r inMonth -> SnapshotDate r <= SnapshotDate latest) /\
     let basis :=
       List.filter (fun r => SnapshotDate r =? SnapshotDate latest)
         (weekly_snapshots twoWeeks) in
     prevGreenCount
     = Z.of_nat (length (List.filter
                           (greenBefore (inverseMap [satisfaction]))
                           basis)) /\
     0 <= prevGreenCount <= Z.of_nat (length basis) /\
     change
     = (100
        - float64_of_int prevGreenCount
          / float64_of_int (Z.of_nat (length basis)) * 100)%float /\
     (direction = "up" <-> fgt change 0.5 = true) /\
     (direction = "down" <-> flt change (-0.5) = true)).
Proof.
  apply (calculateWeeklyTrend_compares_with_latest_save [satisfaction] 1 2025
           100 twoWeeks).
  vm_compute. constructor.
Defined.

End MoreInstances.
